(** * algotrade_sentiment: news/price ingestion and momentum metrics

    A shallow embedding of [examples/algotrade_sentiment/01_fetch_data.py]
    and [examples/algotrade_sentiment/02_metrics_and_charting.py].

    Data frames are lists of records (one record per row, in row order);
    a column is the list of one field.  Python exceptions are an explicit
    result type.  Floating-point columns are extended rationals: [NaN],
    the two infinities and exact finite values; rounding, overflow and
    the sign of zero are not represented.  Where a property names the
    value of a score it does so through the operations the script
    applies, in their order; [Binary64] has the same operations on
    IEEE 754 binary64, for the cases where rounding decides. *)

From Stdlib Require Import String ZArith QArith Qcanon Bool Arith Lia Lqa.
From Stdlib Require Import List Permutation Sorted.
From Stdlib Require PrimFloat Uint63 FloatOps SpecFloat.
Import ListNotations.

Set Implicit Arguments.

Close Scope Qc_scope.
Close Scope Q_scope.
Open Scope nat_scope.

(** ** Python results *)

Module Py.

(** The exceptions the two scripts can raise. *)
Inductive exn : Type :=
| ValueError          (* pd.concat([]), asyncio.Semaphore(-1) *)
| KeyError            (* missing key of a dict or column of a frame *)
| TypeError           (* subscripting a NaN left by explode *)
| ClientError         (* aiohttp / requests transport failure *)
| JSONDecodeError     (* response.json() on a body that is not JSON *)
| OutOfBoundsDatetime (* pd.to_datetime beyond the ns range *).

(** Outcome of running a piece of Python: a value, a raised exception,
    or an await that never resumes. *)
Inductive result (A : Type) : Type :=
| Ok (a : A)
| Raise (e : exn)
| Hang.

Arguments Raise {A} e.
Arguments Hang {A}.

Definition bind {A B} (m : result A) (k : A -> result B) : result B :=
  match m with
  | Ok a => k a
  | Raise e => Raise e
  | Hang => Hang
  end.

Definition is_ok {A} (m : result A) : bool :=
  match m with Ok _ => true | _ => false end.

(** Run the computations of a list from left to right, stopping at the
    first one that does not return. *)
Fixpoint sequence {A} (ms : list (result A)) : result (list A) :=
  match ms with
  | [] => Ok []
  | m :: ms' =>
      bind m (fun a => bind (sequence ms') (fun l => Ok (a :: l)))
  end.

End Py.

Notation "x <- m ;; k" := (Py.bind m (fun x => k))
  (at level 61, m at next level, right associativity).
Notation "' p <- m ;; k" := (Py.bind m (fun x => let p := x in k))
  (at level 61, p pattern, m at next level, right associativity).

(** ** Stable sorting, as [sort_values] and [sorted] do it *)

Section Sort.
Variable A : Type.
Variable leb : A -> A -> bool.

Fixpoint insert_sorted (x : A) (l : list A) : list A :=
  match l with
  | [] => [x]
  | y :: l' => if leb x y then x :: l else y :: insert_sorted x l'
  end.

(** Elements are inserted from the right, each one in front of the
    elements it is not greater than: equal keys keep their order. *)
Definition sort_by (l : list A) : list A :=
  fold_right insert_sorted [] l.
End Sort.

(** Lexicographic comparison of two keys. *)
Definition lex (c1 c2 : comparison) : comparison :=
  match c1 with Eq => c2 | _ => c1 end.

Definition not_gt (c : comparison) : bool :=
  match c with Gt => false | _ => true end.

(** ** float64 columns

    [NaN], the infinities and the finite values, the latter as exact
    rationals.  The special cases of each operation are those of
    IEEE 754; a finite result is the exact one, where numpy rounds it to
    the nearest binary64 number and overflows to an infinity beyond the
    largest one.  So [x / y - 1] and [(x - y) / y] are one value here
    and can be two in the script, and two scores that differ by
    rounding only are equal here. *)

Module Float.
Local Open Scope Qc_scope.

Inductive float : Type :=
| NaN
| Inf (negative : bool)
| Fin (q : Qc).

Definition of_Z (z : Z) : float := Fin (Q2Qc (inject_Z z)).
Definition zero : float := of_Z 0.
Definition one : float := of_Z 1.

Definition Qc_ltb (a b : Qc) : bool :=
  match (a ?= b)%Qc with Lt => true | _ => false end.
Definition Qc_eqb (a b : Qc) : bool :=
  match (a ?= b)%Qc with Eq => true | _ => false end.

Definition isna (x : float) : bool :=
  match x with NaN => true | _ => false end.
Definition isinf (x : float) : bool :=
  match x with Inf _ => true | _ => false end.
Definition isfinite (x : float) : bool :=
  match x with Fin _ => true | _ => false end.

(** IEEE 754 division. *)
Definition fdiv (x y : float) : float :=
  match x, y with
  | NaN, _ | _, NaN => NaN
  | Inf _, Inf _ => NaN
  | Inf s, Fin b => Inf (xorb s (Qc_ltb b 0))
  | Fin _, Inf _ => zero
  | Fin a, Fin b =>
      if Qc_eqb b 0
      then if Qc_eqb a 0 then NaN else Inf (Qc_ltb a 0)
      else Fin (a / b)
  end.

(** IEEE 754 subtraction. *)
Definition fsub (x y : float) : float :=
  match x, y with
  | NaN, _ | _, NaN => NaN
  | Inf s, Inf t => if Bool.eqb s t then NaN else Inf s
  | Inf s, Fin _ => Inf s
  | Fin _, Inf t => Inf (negb t)
  | Fin a, Fin b => Fin (a - b)
  end.

(** IEEE 754 multiplication. *)
Definition fmul (x y : float) : float :=
  match x, y with
  | NaN, _ | _, NaN => NaN
  | Inf s, Inf t => Inf (xorb s t)
  | Inf s, Fin b => if Qc_eqb b 0 then NaN else Inf (xorb s (Qc_ltb b 0))
  | Fin a, Inf t => if Qc_eqb a 0 then NaN else Inf (xorb (Qc_ltb a 0) t)
  | Fin a, Fin b => Fin (a * b)
  end.

(** [x > y]; every comparison with NaN is false. *)
Definition fgt (x y : float) : bool :=
  match x, y with
  | NaN, _ | _, NaN => false
  | Inf s, Inf t => negb s && t
  | Inf s, Fin _ => negb s
  | Fin _, Inf t => t
  | Fin a, Fin b => Qc_ltb b a
  end.

(** Three-way comparison used for sorting; NaN sorts last. *)
Definition fcompare (x y : float) : comparison :=
  match x, y with
  | NaN, NaN => Eq
  | NaN, _ => Gt
  | _, NaN => Lt
  | Inf s, Inf t => if Bool.eqb s t then Eq else if s then Lt else Gt
  | Inf s, Fin _ => if s then Lt else Gt
  | Fin _, Inf t => if t then Gt else Lt
  | Fin a, Fin b => (a ?= b)%Qc
  end.

End Float.

(** ** 02_metrics_and_charting.py *)

Module Metrics.
Import Float.

(** Constants of the script. *)
Definition ROLLING_WINDOW : nat := 7.
Definition MIN_PERIODS : nat := 1.

(** One line of [output/data.csv]: the list columns are their printed
    form, the date is the day number of the parsed timestamp, an empty
    [close] cell is NaN. *)
Record MergedRecord : Type := {
  asset_id : string;
  asset_name : string;
  date : Z;
  title : string;
  description : string;
  url : string;
  count : Z;
  close : float
}.

(** A row after [calculate_metrics]. *)
Record MetricRecord : Type := {
  merged : MergedRecord;
  count_7d_avg : float;
  trend_score : float;
  acceleration_score : float;
  price_score : float
}.

(** A row after [clean_data]. *)
Record ScoredRecord : Type := {
  metrics : MetricRecord;
  momentum_score : float
}.

(** [df.sort_values(["asset_id", "date"])]. *)
Definition by_asset_date (r1 r2 : MergedRecord) : bool :=
  not_gt (lex (String.compare (asset_id r1) (asset_id r2))
              (Z.compare (date r1) (date r2))).

Definition load_and_prepare_data (csv : list MergedRecord) : list MergedRecord :=
  sort_by by_asset_date csv.

(** *** pandas: rolling mean *)

Definition sum_Z (l : list Z) : Z := fold_right Z.add 0%Z l.

(** The rows a window of size [w] ending at position [r] covers. *)
Definition window_at (A : Type) (w : nat) (xs : list A) (r : nat) : list A :=
  skipn (S r - w) (firstn (S r) xs).

(** Mean of the observations of one window; NaN below [minp] of them. *)
Definition window_mean (minp : nat) (win : list Z) : float :=
  if length win <? minp
  then NaN
  else fdiv (of_Z (sum_Z win)) (of_Z (Z.of_nat (length win))).

(** [x.rolling(window=w, min_periods=minp).mean()] on an integer column. *)
Definition rolling_mean (w minp : nat) (xs : list Z) : list float :=
  map (fun r => window_mean minp (window_at w xs r)) (seq 0 (length xs)).

(** *** pandas: percent change *)

(** [pct_change] fills NaN forward before dividing ([Pad], the default
    up to pandas 2) or leaves them ([NoFill], pandas 3). *)
Inductive fill_method : Type := Pad | NoFill.

Fixpoint ffill_from (last : float) (xs : list float) : list float :=
  match xs with
  | [] => []
  | x :: xs' =>
      if isna x then last :: ffill_from last xs' else x :: ffill_from x xs'
  end.

Definition ffill (xs : list float) : list float := ffill_from NaN xs.

(** [x.shift(p)]: [p] NaN in front, the last [p] values fall off. *)
Definition shift (p : nat) (xs : list float) : list float :=
  firstn (length xs) (repeat NaN p ++ xs).

(** [x.pct_change(periods=p)] is [data / data.shift(p) - 1]. *)
Definition pct_change (fm : fill_method) (p : nat) (xs : list float) : list float :=
  let data := match fm with Pad => ffill xs | NoFill => xs end in
  map (fun ds => fsub (fdiv (fst ds) (snd ds)) one) (combine data (shift p data)).

(** *** pandas: groupby(...).transform *)

(** The values of the rows whose key is [k], in row order. *)
Definition group_values (A : Type) (k : string) (keys : list string) (xs : list A) : list A :=
  map snd (filter (fun kx => String.eqb (fst kx) k) (combine keys xs)).

(** Position of row [i] inside its own group. *)
Definition rank_in_group (keys : list string) (i : nat) : nat :=
  length (filter (String.eqb (nth i keys EmptyString)) (firstn i keys)).

(** [df.groupby(key)[col].transform(f)]: [f] runs once on each group's
    column and every row receives the value at its position in the
    group. *)
Definition groupby_transform (A : Type) (keys : list string) (xs : list A)
    (f : list A -> list float) : list float :=
  map (fun i => nth (rank_in_group keys i)
                    (f (group_values (nth i keys EmptyString) keys xs)) NaN)
      (seq 0 (length keys)).

Section Calculate.
Variable fm : fill_method.

Definition mk_metric (row : MergedRecord * (float * (float * (float * float)))) : MetricRecord :=
  let '(r, (avg, (trend, (accel, price)))) := row in
  {| merged := r; count_7d_avg := avg; trend_score := trend;
     acceleration_score := accel; price_score := price |}.

(** [df["count_7d_avg"]]. *)
Definition count_7d_avg_column (df : list MergedRecord) : list float :=
  groupby_transform (map asset_id df) (map count df)
    (rolling_mean ROLLING_WINDOW MIN_PERIODS).

(** [df["trend_score"]]. *)
Definition trend_score_column (df : list MergedRecord) : list float :=
  groupby_transform (map asset_id df) (count_7d_avg_column df)
    (pct_change fm ROLLING_WINDOW).

(** [df["acceleration_score"]]. *)
Definition acceleration_score_column (df : list MergedRecord) : list float :=
  groupby_transform (map asset_id df) (trend_score_column df) (pct_change fm 1).

(** [df["price_score"]]. *)
Definition price_score_column (df : list MergedRecord) : list float :=
  groupby_transform (map asset_id df) (map close df) (pct_change fm ROLLING_WINDOW).

Definition calculate_metrics (df : list MergedRecord) : list MetricRecord :=
  map mk_metric
    (combine df
       (combine (count_7d_avg_column df)
          (combine (trend_score_column df)
             (combine (acceleration_score_column df) (price_score_column df))))).
End Calculate.

(** *** clean_data *)

(** [col.replace([inf, -inf], nan)]. *)
Definition replace_inf (x : float) : float :=
  if isinf x then NaN else x.

Definition replace_row (r : MetricRecord) : MetricRecord :=
  {| merged := merged r;
     count_7d_avg := count_7d_avg r;
     trend_score := replace_inf (trend_score r);
     acceleration_score := replace_inf (acceleration_score r);
     price_score := replace_inf (price_score r) |}.

(** The loop over the three score columns. *)
Definition replace_infinities (df : list MetricRecord) : list MetricRecord :=
  map replace_row df.

(** [df.dropna(subset=["close", "trend_score", "acceleration_score",
    "price_score"])]. *)
Definition notna_subset (r : MetricRecord) : bool :=
  negb (isna (close (merged r))) && negb (isna (trend_score r))
  && negb (isna (acceleration_score r)) && negb (isna (price_score r)).

Definition dropna (df : list MetricRecord) : list MetricRecord :=
  filter notna_subset df.

Definition add_momentum (r : MetricRecord) : ScoredRecord :=
  {| metrics := r;
     momentum_score :=
       fmul (fmul (trend_score r) (acceleration_score r)) (price_score r) |}.

(** Descending order of a float key, NaN last. *)
Definition fcompare_desc (x y : float) : comparison :=
  match x, y with
  | NaN, NaN => Eq
  | NaN, _ => Gt
  | _, NaN => Lt
  | _, _ => fcompare y x
  end.

(** [df.sort_values(["date", "momentum_score"], ascending=[False, False])]. *)
Definition by_date_momentum_desc (r1 r2 : ScoredRecord) : bool :=
  not_gt (lex (Z.compare (date (merged (metrics r2))) (date (merged (metrics r1))))
              (fcompare_desc (momentum_score r1) (momentum_score r2))).

Definition clean_data (df : list MetricRecord) : list ScoredRecord :=
  let df := replace_infinities df in
  let df := dropna df in
  let df := map add_momentum df in
  let df := filter (fun r => fgt (momentum_score r) zero) df in
  let df := filter (fun r => fgt (acceleration_score (metrics r)) zero) df in
  sort_by by_date_momentum_desc df.

(** [main], up to the table written to [output/data_with_metrics.csv]. *)
Definition main (fm : fill_method) (csv : list MergedRecord) : list ScoredRecord :=
  let df := load_and_prepare_data csv in
  let df := calculate_metrics fm df in
  clean_data df.

(** *** The metrics, as the specification words them *)

(** Exact mean of a non-empty list of counts. *)
Definition arithmetic_mean (l : list Z) : float :=
  Fin (Q2Qc (inject_Z (sum_Z l)) / Q2Qc (inject_Z (Z.of_nat (length l))))%Qc.

(** The rows of one asset, in table order. *)
Definition asset_rows (a : string) (df : list MergedRecord) : list MergedRecord :=
  filter (fun r => String.eqb (asset_id r) a) df.

Definition last_n (A : Type) (n : nat) (l : list A) : list A :=
  skipn (length l - n) l.

(** Row [i] and the at most six rows of the same asset right before it. *)
Definition trailing_window (df : list MergedRecord) (a : string) (i : nat)
  : list MergedRecord :=
  last_n ROLLING_WINDOW (asset_rows a (firstn (S i) df)).

(** The metric rows of one asset, in table order. *)
Definition asset_series (a : string) (df : list MetricRecord) : list MetricRecord :=
  filter (fun m => String.eqb (asset_id (merged m)) a) df.

End Metrics.

(** ** 01_fetch_data.py *)

Module FetchData.
Import Py Float.

(** *** Configuration *)

Definition LOOKBACK_DAYS : Z := 28.
Definition SEM_VALUE : Z := 10.
Definition SECONDS_IN_A_DAY : Z := 86400.

(** The time window; [now_s] is [int(datetime.datetime.now().timestamp())]. *)
Definition END_TIMESTAMP_S (now_s : Z) : Z := now_s.
Definition START_TIMESTAMP_S (now_s : Z) : Z :=
  END_TIMESTAMP_S now_s - SECONDS_IN_A_DAY * LOOKBACK_DAYS.
Definition END_TIMESTAMP_MS (now_s : Z) : Z := END_TIMESTAMP_S now_s * 1000.
Definition START_TIMESTAMP_MS (now_s : Z) : Z := START_TIMESTAMP_S now_s * 1000.

(** *** pandas: timestamps and dates *)

Inductive time_unit : Type := Milliseconds | Seconds.

Definition ns_per (u : time_unit) : Z :=
  match u with
  | Milliseconds => 1000000
  | Seconds => 1000000000
  end.

Definition NS_PER_DAY : Z := 86400 * 1000000000.

(** Largest nanosecond count a Timestamp holds, in either direction. *)
Definition TIMESTAMP_MAX : Z := 2 ^ 63 - 1.

(** [pd.to_datetime(x, unit=u)] on an integer: a zone-less Timestamp,
    kept as its nanoseconds since 1970-01-01T00:00:00 UTC. *)
Definition to_datetime (u : time_unit) (x : Z) : result Z :=
  let ns := (x * ns_per u)%Z in
  if (- TIMESTAMP_MAX <=? ns)%Z && (ns <=? TIMESTAMP_MAX)%Z
  then Ok ns
  else Raise OutOfBoundsDatetime.

(** [.dt.date]: the calendar day of the Timestamp, as the number of
    days since 1970-01-01.  [Z.div] rounds towards minus infinity. *)
Definition dt_date (ns : Z) : Z := (ns / NS_PER_DAY)%Z.

(** [pd.to_datetime(col, unit=u).dt.date] on one cell; a null cell
    becomes NaT. *)
Definition to_date (u : time_unit) (x : option Z) : result (option Z) :=
  match x with
  | None => Ok None
  | Some t => ns <- to_datetime u t ;; Ok (Some (dt_date ns))
  end.

(** *** Records of the two APIs *)

Record Asset : Type := {
  a_id : option string;
  a_name : option string
}.

(** One element of the news feed's ["data"]; [None] is a null.  The
    records of a feed are taken to carry the five keys, so that a frame
    made from at least one record has the five columns; the frame made
    from no record has none. *)
Record NewsItem : Type := {
  publishTimeMillis : option Z;
  title : option string;
  description : option string;
  url : option string;
  assets : option (list Asset)
}.

(** One element of a price time series' ["data"]. *)
Record Candle : Type := {
  timestamp : option Z;
  c_close : float
}.

(** A row of a per-asset market frame: a candle and the asset id column. *)
Record MarketRow : Type := {
  candle : Candle;
  m_asset_id : option string
}.

(** A row of the frame [fetch_all_market_data] returns. *)
Record PricePoint : Type := {
  p_date : option Z;
  p_asset_id : option string;
  p_close : float
}.

(** A row of the grouped news frame. *)
Record AssetDailyNews : Type := {
  asset_id : string;
  asset_name : string;
  date : Z;
  titles : list string;
  descriptions : list string;
  urls : list string;
  count : Z
}.

(** A row of the merged frame. *)
Record MergedRecord : Type := {
  news : AssetDailyNews;
  close : float
}.

(** *** HTTP *)

(** A key of a JSON object: not there, there with null, or there with a
    value. *)
Inductive field (A : Type) : Type :=
| Absent
| IsNull
| Present (v : A).

Arguments Absent {A}.
Arguments IsNull {A}.

(** What [response.json()] makes of a body: no JSON at all, null, the
    empty object, or an object with some key; of the keys, ["data"] and
    ["metadata"]["totalPages"] are read. *)
Inductive json (A : Type) : Type :=
| NotJson
| Null
| EmptyObject
| Object (data : field (list A)) (totalPages : field Z).

Arguments NotJson {A}.
Arguments Null {A}.
Arguments EmptyObject {A}.

(** What a GET ends in: a transport failure or a response body.  The
    status code is not looked at by the scripts. *)
Inductive http (A : Type) : Type :=
| ConnectionFailed
| Response (body : json A).

Arguments ConnectionFailed {A}.

(** [response.json()]. *)
Definition response_json (A : Type) (r : http A) : result (json A) :=
  match r with
  | ConnectionFailed => Raise ClientError
  | Response NotJson => Raise JSONDecodeError
  | Response body => Ok body
  end.

(** [body["data"]]; Python's [None] for a null. *)
Definition get_data (A : Type) (body : json A) : result (option (list A)) :=
  match body with
  | NotJson => Raise JSONDecodeError
  | Null => Raise TypeError
  | EmptyObject => Raise KeyError
  | Object Absent _ => Raise KeyError
  | Object IsNull _ => Ok None
  | Object (Present l) _ => Ok (Some l)
  end.

(** [pd.DataFrame(records)]; [pd.DataFrame(None)] is the empty frame. *)
Definition DataFrame (A : Type) (records : option (list A)) : list A :=
  match records with
  | Some l => l
  | None => []
  end.

(** [body["metadata"]["totalPages"]]. *)
Definition get_totalPages (A : Type) (body : json A) : result (option Z) :=
  match body with
  | NotJson => Raise JSONDecodeError
  | Null => Raise TypeError
  | EmptyObject => Raise KeyError
  | Object _ Absent => Raise KeyError
  | Object _ IsNull => Ok None
  | Object _ (Present n) => Ok (Some n)
  end.

(** [not body]. *)
Definition falsy (A : Type) (body : json A) : bool :=
  match body with
  | Null | EmptyObject => true
  | _ => false
  end.

(** Query parameters of the two endpoints. *)
Record NewsParams : Type := {
  sort : Z;
  publishedBefore : Z;
  publishedAfter : Z;
  limit : Z;
  page : Z
}.

Record MarketParams : Type := {
  interval : string;
  startTime : Z;
  endTime : Z
}.

(** [str(x)] of an optional string. *)
Definition py_str (x : option string) : string :=
  match x with Some s => s | None => "None"%string end.

(** *** asyncio *)

(** [asyncio.Semaphore(value)]: the number of free slots. *)
Definition Semaphore (value : Z) : result Z :=
  if (value <? 0)%Z then Raise ValueError else Ok value.

(** [async with sem: body]: with no slot at all nobody can ever release
    one, so the acquire never returns; otherwise the body runs once a
    slot is free. *)
Definition with_sem (A : Type) (sem : Z) (body : result A) : result A :=
  if (sem =? 0)%Z then Hang else body.

Definition enumerate (A : Type) (l : list A) : list (nat * A) :=
  combine (seq 0 (length l)) l.

Definition completes (A : Type) (t : nat * result A) : bool :=
  match snd t with Hang => false | _ => true end.

Section Gather.
Variable A : Type.
(** [finish i] is the instant task [i] completes at. *)
Variable finish : nat -> nat.

(** [as_completed]: the tasks that complete, earliest first. *)
Definition as_completed (tasks : list (result A)) : list (nat * result A) :=
  sort_by (fun t1 t2 => finish (fst t1) <=? finish (fst t2))
          (filter (@completes A) (enumerate tasks)).

(** [wrap_awaitable(i, f)]: [return i, await f]. *)
Definition wrap_awaitable (t : nat * result A) : result (nat * A) :=
  x <- snd t ;; Ok (fst t, x).

(** [tqdm.gather]: awaits the tasks in completion order, so
    the first exception to occur leaves the gather; otherwise the
    results are put back in task order. *)
Definition gather (tasks : list (result A)) : result (list A) :=
  res <- sequence (map wrap_awaitable (as_completed tasks)) ;;
  if length res <? length tasks
  then Hang
  else Ok (map snd (sort_by (fun r1 r2 => fst r1 <=? fst r2) res)).
End Gather.

(** A task that returned [x], as [enumerate] numbers it. *)
Definition tag_ok (A : Type) (t : nat * A) : nat * result A := (fst t, Ok (snd t)).

(** *** pandas: concat *)

(** [pd.concat(frames)]: the rows of the frames, in order; refuses an
    empty list of frames. *)
Definition pd_concat (A : Type) (frames : list (list A)) : result (list A) :=
  match frames with
  | [] => Raise ValueError
  | _ => Ok (concat frames)
  end.

(** *** pandas: unique, explode, groupby *)

Definition option_eqb (A : Type) (eqb : A -> A -> bool) (x y : option A) : bool :=
  match x, y with
  | Some a, Some b => eqb a b
  | None, None => true
  | _, _ => false
  end.

(** [col.unique()]: the distinct values in order of first appearance. *)
Fixpoint unique (A : Type) (eqb : A -> A -> bool) (l : list A) : list A :=
  match l with
  | [] => []
  | x :: l' => x :: filter (fun y => negb (eqb x y)) (unique eqb l')
  end.

(** A row of the news frame after [explode("assets")]: one asset of the
    item, or NaN ([None]) where the item's asset list was empty. *)
Record NewsRow : Type := {
  r_item : NewsItem;
  r_date : option Z;
  r_asset : option Asset
}.

(** A row of the news frame just before grouping. *)
Record Mention : Type := {
  m_title : string;
  m_description : string;
  m_url : string;
  m_id : option string;
  m_name : option string;
  m_date : option Z
}.

Definition explode_row (it_d : NewsItem * option Z) : list NewsRow :=
  let (it, d) := it_d in
  match assets it with
  | None | Some [] => [ {| r_item := it; r_date := d; r_asset := None |} ]
  | Some l => map (fun a => {| r_item := it; r_date := d; r_asset := Some a |}) l
  end.

(** [x["id"]] and [x["name"]] on a cell of the exploded column. *)
Definition subscript_asset (A : Type) (field : Asset -> A) (x : option Asset) : result A :=
  match x with
  | None => Raise TypeError
  | Some a => Ok (field a)
  end.

(** [col.fillna("None")]. *)
Definition fillna (x : option string) : string :=
  match x with Some s => s | None => "None"%string end.

Definition key : Type := string * string * Z.

Definition key_compare (k1 k2 : key) : comparison :=
  let '(i1, n1, d1) := k1 in
  let '(i2, n2, d2) := k2 in
  lex (String.compare i1 i2) (lex (String.compare n1 n2) (Z.compare d1 d2)).

Definition key_leb (k1 k2 : key) : bool := not_gt (key_compare k1 k2).

Definition key_eqb (k1 k2 : key) : bool :=
  let '(i1, n1, d1) := k1 in
  let '(i2, n2, d2) := k2 in
  String.eqb i1 i2 && String.eqb n1 n2 && Z.eqb d1 d2.

(** The group a row belongs to; rows with a null in a key column are
    in no group ([groupby] drops them). *)
Definition mention_key (m : Mention) : option key :=
  match m_id m, m_name m, m_date m with
  | Some i, Some n, Some d => Some (i, n, d)
  | _, _, _ => None
  end.

Definition in_group (k : key) (m : Mention) : bool :=
  match mention_key m with
  | Some k' => key_eqb k k'
  | None => false
  end.

Definition keys_of (df : list Mention) : list key :=
  flat_map (fun m => match mention_key m with Some k => [k] | None => [] end) df.

(** The group keys, ascending ([groupby] sorts them). *)
Definition group_keys (df : list Mention) : list key :=
  sort_by key_leb (unique key_eqb (keys_of df)).

(** A row of [groupby(...).agg({"title": list, "description": list,
    "url": list})]. *)
Record Grouped : Type := {
  g_key : key;
  g_title : list string;
  g_description : list string;
  g_url : list string
}.

Definition groupby_agg (df : list Mention) : list Grouped :=
  map (fun k =>
         let rows := filter (in_group k) df in
         {| g_key := k;
            g_title := map m_title rows;
            g_description := map m_description rows;
            g_url := map m_url rows |})
      (group_keys df).

(** [grouped_df["count"] = grouped_df["title"].apply(len)], then
    [reset_index()]. *)
Definition with_count (g : Grouped) : AssetDailyNews :=
  let '(i, n, d) := g_key g in
  {| asset_id := i; asset_name := n; date := d;
     titles := g_title g; descriptions := g_description g; urls := g_url g;
     count := Z.of_nat (length (g_title g)) |}.

(** *** process_news_data *)

(** The rows just before grouping.  A frame built from no record has
    no column, so [news_df["publishTimeMillis"]] fails on it. *)
Definition mentions (news_df : list NewsItem) : result (list Mention) :=
  match news_df with
  | [] => Raise KeyError
  | _ =>
      dates <- sequence (map (fun it => to_date Milliseconds (publishTimeMillis it)) news_df) ;;
      let df := combine news_df dates in
      let df := filter (fun r => match assets (fst r) with Some _ => true | None => false end) df in
      let df := flat_map explode_row df in
      ids <- sequence (map (fun r => subscript_asset a_id (r_asset r)) df) ;;
      names <- sequence (map (fun r => subscript_asset a_name (r_asset r)) df) ;;
      Ok (map (fun r =>
                 let '(row, (i, n)) := r in
                 {| m_title := fillna (title (r_item row));
                    m_description := fillna (description (r_item row));
                    m_url := fillna (url (r_item row));
                    m_id := i; m_name := n; m_date := r_date row |})
              (combine df (combine ids names)))
  end.

Definition process_news_data (news_df : list NewsItem)
  : result (list AssetDailyNews * list (option string) * list (option Z)) :=
  df <- mentions news_df ;;
  let grouped_df := map with_count (groupby_agg df) in
  Ok (grouped_df,
      unique (option_eqb String.eqb) (map m_id df),
      unique (option_eqb Z.eqb) (map m_date df)).

(** *** pd.merge(..., on=["asset_id", "date"], how="left") *)

Definition same_key (n : AssetDailyNews) (p : PricePoint) : bool :=
  option_eqb String.eqb (Some (asset_id n)) (p_asset_id p)
  && option_eqb Z.eqb (Some (date n)) (p_date p).

(** The output rows of one left row: one per matching right row, or a
    single row with a null [close] when nothing matches. *)
Definition merge_row (prices : list PricePoint) (n : AssetDailyNews) : list MergedRecord :=
  match filter (same_key n) prices with
  | [] => [ {| news := n; close := NaN |} ]
  | ps => map (fun p => {| news := n; close := p_close p |}) ps
  end.

Definition merge (news_df : list AssetDailyNews) (market_df : list PricePoint)
  : list MergedRecord :=
  flat_map (merge_row market_df) news_df.

(** The key a grouped row stands for. *)
Definition row_key (r : AssetDailyNews) : key :=
  (asset_id r, asset_name r, date r).

(** *** Raw mentions, as the specification words them *)

Definition MILLISECONDS_IN_A_DAY : Z := 86400000.

Definition asset_matches (k : key) (a : Asset) : bool :=
  let '(i, n, _) := k in
  option_eqb String.eqb (Some i) (a_id a) && option_eqb String.eqb (Some n) (a_name a).

(** The mentions one item contributes to the key (id, name, day): its
    assets of that id and name, when the item was published on that UTC
    day; an item without asset list or without publication time
    contributes none. *)
Definition item_mentions (k : key) (it : NewsItem) : nat :=
  let '(_, _, d) := k in
  match assets it, publishTimeMillis it with
  | Some l, Some t =>
      if (t / MILLISECONDS_IN_A_DAY =? d)%Z
      then length (filter (asset_matches k) l)
      else 0
  | _, _ => 0
  end.

(** The number of exploded (item, asset) pairs of a feed under a key. *)
Definition raw_mentions (k : key) (news_df : list NewsItem) : nat :=
  list_sum (map (item_mentions k) news_df).

(** *** Views of the intermediate frames *)

(** The asset fields of an exploded row, as the two [apply] calls read
    them when they succeed. *)
Definition row_field (fld : Asset -> option string) (r : NewsRow) : option string :=
  match r_asset r with
  | Some a => fld a
  | None => None
  end.

(** An exploded row as the row grouped on. *)
Definition to_mention (r : NewsRow) : Mention :=
  {| m_title := fillna (title (r_item r));
     m_description := fillna (description (r_item r));
     m_url := fillna (url (r_item r));
     m_id := row_field a_id r;
     m_name := row_field a_name r;
     m_date := r_date r |}.

Definition has_assets (r : NewsItem * option Z) : bool :=
  match assets (fst r) with Some _ => true | None => false end.

Definition date_matches (k : key) (d : option Z) : bool :=
  match d with
  | Some d' => let '(_, _, kd) := k in Z.eqb kd d'
  | None => false
  end.

(** The mentions an item and its derived date contribute to a group. *)
Definition pair_mentions (k : key) (r : NewsItem * option Z) : nat :=
  match assets (fst r) with
  | Some l => if date_matches k (snd r) then length (filter (asset_matches k) l) else 0
  | None => 0
  end.

(** A row of the exploded frame that belongs to some group. *)
Definition has_key (m : Mention) : bool :=
  match mention_key m with Some _ => true | None => false end.

(** *** The join, as the specification words it *)

(** The join key of a price row and of a news row. *)
Definition price_key (p : PricePoint) : option string * option Z :=
  (p_asset_id p, p_date p).

Definition news_key (n : AssetDailyNews) : option string * option Z :=
  (Some (asset_id n), Some (date n)).

(** [close] as a left join on unique keys fills it: from the price row
    of the same key, null without one. *)
Definition lookup_close (prices : list PricePoint) (n : AssetDailyNews) : float :=
  match find (same_key n) prices with
  | Some p => p_close p
  | None => NaN
  end.

(** *** The fetchers *)

Section Network.
(** The two endpoints, and the completion instants of the tasks of
    the two batches. *)
Variable news_api : NewsParams -> http NewsItem.
Variable market_api : string -> MarketParams -> http Candle.
Variable finish_news : nat -> nat.
Variable finish_market : nat -> nat.

Definition fetch_single_news_page (sem : Z) (page start_timestamp end_timestamp : Z)
  : result (list NewsItem) :=
  let params :=
    {| sort := 1; publishedBefore := end_timestamp;
       publishedAfter := start_timestamp; limit := 100; page := page |} in
  with_sem sem
    (body <- response_json (news_api params) ;;
     data <- get_data body ;;
     Ok (DataFrame data)).

Definition fetch_all_news_pages (pages : list Z) (sem_value start_timestamp end_timestamp : Z)
  : result (list NewsItem) :=
  sem <- Semaphore sem_value ;;
  let tasks :=
    map (fun page => fetch_single_news_page sem page start_timestamp end_timestamp) pages in
  results <- gather finish_news tasks ;;
  pd_concat results.

Definition fetch_single_asset_market_data (sem : Z) (asset_id : option string)
    (start_timestamp end_timestamp : Z) : result (list MarketRow) :=
  let params :=
    {| interval := "1d"; startTime := start_timestamp; endTime := end_timestamp |} in
  with_sem sem
    (data <- response_json (market_api (py_str asset_id) params) ;;
     if falsy data
     then Ok []
     else
       records <- get_data data ;;
       Ok (map (fun c => {| candle := c; m_asset_id := asset_id |}) (DataFrame records))).

Definition fetch_all_market_data (asset_ids : list (option string))
    (sem_value start_timestamp end_timestamp : Z) : result (list PricePoint) :=
  sem <- Semaphore sem_value ;;
  let tasks :=
    map (fun asset_id =>
           fetch_single_asset_market_data sem asset_id start_timestamp end_timestamp)
        asset_ids in
  results <- gather finish_market tasks ;;
  df <- pd_concat results ;;
  match df with
  | [] => Raise KeyError
  | _ =>
      dates <- sequence (map (fun r => to_date Seconds (timestamp (candle r))) df) ;;
      Ok (map (fun rd =>
                 {| p_date := snd rd;
                    p_asset_id := m_asset_id (fst rd);
                    p_close := c_close (candle (fst rd)) |})
              (combine df dates))
  end.

(** [range(1, total_pages + 1)]; adding one to [None] is a TypeError. *)
Definition page_range (total_pages : option Z) : result (list Z) :=
  match total_pages with
  | Some n => Ok (map Z.of_nat (seq 1 (Z.to_nat n)))
  | None => Raise TypeError
  end.

(** [main], up to the frame written to [output/data.csv]. *)
Definition main (now_s : Z) : result (list MergedRecord) :=
  response <-
    response_json
      (news_api {| sort := 1; publishedBefore := END_TIMESTAMP_MS now_s;
                   publishedAfter := START_TIMESTAMP_MS now_s;
                   limit := 100; page := 1 |}) ;;
  total_pages <- get_totalPages response ;;
  pages <- page_range total_pages ;;
  news_df <-
    fetch_all_news_pages pages SEM_VALUE
      (START_TIMESTAMP_MS now_s) (END_TIMESTAMP_MS now_s) ;;
  ' (processed_news_df, unique_asset_ids, unique_dates) <- process_news_data news_df ;;
  market_df <-
    fetch_all_market_data unique_asset_ids SEM_VALUE
      (START_TIMESTAMP_S now_s) (END_TIMESTAMP_S now_s) ;;
  Ok (merge processed_news_df market_df).
End Network.

End FetchData.

(** ** The rate-limited batch: semaphore, sleep, request

    The tasks of one [gather], as the event loop runs them.  Each task is
    the body shared by [fetch_single_news_page] and
    [fetch_single_asset_market_data]:
    [async with sem: await asyncio.sleep(1); async with session.get(...)].
    Time is a rational number of seconds. *)

Module Scheduler.
Local Open Scope Q_scope.

(** Where a task stands; [acquired] and [issued] are the instants it
    took its slot and sent its request. *)
Inductive phase : Type :=
| Waiting
| Sleeping (acquired : Q)
| InFlight (acquired issued : Q)
| Done (acquired issued : Q).

Record state : Type := {
  now : Q;
  free : nat;
  tasks : list phase;
  requests : list nat
}.

Inductive event : Type :=
| Tick (d : Q)
| Acquire (i : nat)
| Wake (i : nat)
| Complete (i : nat).

(** The delay of [asyncio.sleep(1)]. *)
Definition SLEEP : Q := 1.

Fixpoint set_nth (A : Type) (i : nat) (x : A) (l : list A) : list A :=
  match l, i with
  | [], _ => []
  | _ :: l', O => x :: l'
  | y :: l', S i' => y :: set_nth i' x l'
  end.

(** [asyncio.Semaphore(N)] and one task per descriptor, none started. *)
Definition init (N n : nat) : state :=
  {| now := 0; free := N; tasks := repeat Waiting n; requests := [] |}.

(** One step of the event loop; [None] when the event cannot happen.
    - [Tick d]: time passes.
    - [Acquire i]: task [i] enters [async with sem], taking a free slot.
    - [Wake i]: the sleep of task [i] is over, its request goes out.
    - [Complete i]: the response of task [i] is in (parsed or failed);
      leaving [async with sem] gives the slot back. *)
Definition step (s : state) (e : event) : option state :=
  match e with
  | Tick d =>
      if Qle_bool 0 d
      then Some {| now := now s + d; free := free s; tasks := tasks s;
                   requests := requests s |}
      else None
  | Acquire i =>
      match nth_error (tasks s) i, free s with
      | Some Waiting, S f =>
          Some {| now := now s; free := f;
                  tasks := set_nth i (Sleeping (now s)) (tasks s);
                  requests := requests s |}
      | _, _ => None
      end
  | Wake i =>
      match nth_error (tasks s) i with
      | Some (Sleeping a) =>
          if Qle_bool (a + SLEEP) (now s)
          then Some {| now := now s; free := free s;
                       tasks := set_nth i (InFlight a (now s)) (tasks s);
                       requests := i :: requests s |}
          else None
      | _ => None
      end
  | Complete i =>
      match nth_error (tasks s) i with
      | Some (InFlight a t) =>
          Some {| now := now s; free := S (free s);
                  tasks := set_nth i (Done a t) (tasks s);
                  requests := requests s |}
      | _ => None
      end
  end.

Fixpoint run (s : state) (es : list event) : option state :=
  match es with
  | [] => Some s
  | e :: es' =>
      match step s e with
      | Some s' => run s' es'
      | None => None
      end
  end.

Definition holds_slot (p : phase) : bool :=
  match p with Sleeping _ | InFlight _ _ => true | _ => false end.

Definition is_in_flight (p : phase) : bool :=
  match p with InFlight _ _ => true | _ => false end.

Definition is_done (p : phase) : bool :=
  match p with Done _ _ => true | _ => false end.

(** Number of requests sent and not yet answered. *)
Definition in_flight (s : state) : nat :=
  length (filter is_in_flight (tasks s)).

Definition all_done (s : state) : bool := forallb is_done (tasks s).

(** The instants a task took its slot and sent its request, once it has
    sent it. *)
Definition request_times (p : phase) : option (Q * Q) :=
  match p with
  | InFlight a t | Done a t => Some (a, t)
  | _ => None
  end.

Definition is_waiting (p : phase) : bool :=
  match p with Waiting => true | _ => false end.

Definition is_sleeping (p : phase) : bool :=
  match p with Sleeping _ => true | _ => false end.

(** A task has sent its request. *)
Definition has_sent (p : phase) : bool :=
  match p with InFlight _ _ | Done _ _ => true | _ => false end.

Definition total (w : phase -> nat) (l : list phase) : nat :=
  list_sum (map w l).

Definition bit (b : bool) : nat := if b then 1 else 0.

(** Number of slots taken. *)
Definition slots_held (s : state) : nat :=
  total (fun p => bit (holds_slot p)) (tasks s).

(** Steps a task still has to take. *)
Definition steps_left (p : phase) : nat :=
  match p with
  | Waiting => 3
  | Sleeping _ => 2
  | InFlight _ _ => 1
  | Done _ _ => 0
  end.

Definition remaining (s : state) : nat := total steps_left (tasks s).

(** The events that bring a task forward: all but the passing of time. *)
Definition is_work (e : event) : bool :=
  match e with Tick _ => false | _ => true end.

(** The instants recorded in a task are consistent with the clock, and a
    request went out no earlier than [SLEEP] after the slot was taken. *)
Definition phase_ok (clock : Q) (p : phase) : Prop :=
  match p with
  | Waiting => True
  | Sleeping a => a <= clock
  | InFlight a t | Done a t => a + SLEEP <= t /\ t <= clock
  end.

(** What holds in every state of a batch with [N] slots. *)
Record invariant (N : nat) (s : state) : Prop := {
  inv_slots : (free s + slots_held s = N)%nat;
  inv_phases : Forall (phase_ok (now s)) (tasks s);
  inv_requests_nodup : NoDup (requests s);
  inv_requests_sent :
    forall i, In i (requests s) <->
              exists p, nth_error (tasks s) i = Some p /\ has_sent p = true
}.

End Scheduler.

(** ** 02_metrics_and_charting.py: the chart *)

Module Charting.
Import Float Metrics.

Definition DEFAULT_ASSET_ID : string := "b3d5d66c-26a2-404c-9325-91dc714a722b".

(** What is handed to one [go.Scatter] and its [add_trace]. *)
Record Trace : Type := {
  x : list Z;
  y : list float;
  name : string;
  secondary_y : bool
}.

(** What is handed to the figure: its traces, in the order they are
    added, and the three titles. *)
Record Figure : Type := {
  traces : list Trace;
  layout_title : string;
  yaxis_title : string;
  yaxis2_title : string
}.

(** A call that returns, or fails on [iloc[0]] of an empty column. *)
Inductive outcome (A : Type) : Type :=
| Returned (a : A)
| IndexError.

Arguments IndexError {A}.

Definition plot_momentum_vs_price (df : list ScoredRecord) (asset : string)
  : outcome Figure :=
  let asset_df :=
    filter (fun r => String.eqb (asset_id (merged (metrics r))) asset) df in
  match asset_df with
  | [] => IndexError
  | first :: _ =>
      let asset_name := asset_name (merged (metrics first)) in
      Returned
        {| traces :=
             [ {| x := map (fun r => date (merged (metrics r))) asset_df;
                  y := map momentum_score asset_df;
                  name := "Momentum Score";
                  secondary_y := false |};
               {| x := map (fun r => date (merged (metrics r))) asset_df;
                  y := map (fun r => close (merged (metrics r))) asset_df;
                  name := "Close Price";
                  secondary_y := true |} ];
           layout_title :=
             String.append asset_name " Momentum Score and Close Price Over Time";
           yaxis_title := "Momentum Score";
           yaxis2_title := "Close Price" |}
  end.

(** [main]: the table written to [output/data_with_metrics.csv], and then
    the figure of the default asset. *)
Definition main (fm : fill_method) (csv : list MergedRecord)
  : list ScoredRecord * outcome Figure :=
  let df := Metrics.main fm csv in
  (df, plot_momentum_vs_price df DEFAULT_ASSET_ID).

End Charting.

(** ** The trend of one asset in binary64

    The columns the metrics script computes are numpy float64: IEEE 754
    binary64, each operation rounded to nearest, which [PrimFloat]
    implements.  The count columns of one asset are written here once
    more on it, from the counts of the asset in table order, to compare
    what [pct_change] rounds to with the quotient the percent change is
    usually written as. *)

Module Binary64.

(** A count as a float64; the conversion is exact below [2^53]. *)
Definition of_count (z : Z) : PrimFloat.float :=
  PrimFloat.of_uint63 (Uint63.of_Z z).

(** [x.rolling(window=w, min_periods=1).mean()] on the counts of one
    asset: the sum of each window over the number of its observations.
    A window has at least the row it ends at. *)
Definition rolling_mean (w : nat) (xs : list Z) : list PrimFloat.float :=
  map (fun r =>
         let win := Metrics.window_at w xs r in
         PrimFloat.div (of_count (Metrics.sum_Z win))
                       (of_count (Z.of_nat (length win))))
      (seq 0 (length xs)).

(** [x.shift(p)]. *)
Definition shift (p : nat) (xs : list PrimFloat.float) : list PrimFloat.float :=
  firstn (length xs) (repeat PrimFloat.nan p ++ xs).

(** [x.pct_change(periods=p)] on a column without NaN, where the two
    fill methods agree: [data / data.shift(p) - 1]. *)
Definition pct_change (p : nat) (xs : list PrimFloat.float) : list PrimFloat.float :=
  map (fun ds => PrimFloat.sub (PrimFloat.div (fst ds) (snd ds)) (of_count 1))
      (combine xs (shift p xs)).

(** [count_7d_avg] and [trend_score] of the rows of one asset. *)
Definition count_7d_avg (counts : list Z) : list PrimFloat.float :=
  rolling_mean Metrics.ROLLING_WINDOW counts.

Definition trend_score (counts : list Z) : list PrimFloat.float :=
  pct_change Metrics.ROLLING_WINDOW (count_7d_avg counts).




End Binary64.

(** ** Sample inputs *)

Module Samples.
Import Float.

Definition bitcoin : FetchData.Asset :=
  {| FetchData.a_id := Some "btc"%string; FetchData.a_name := Some "Bitcoin"%string |}.

Definition ether : FetchData.Asset :=
  {| FetchData.a_id := Some "eth"%string; FetchData.a_name := Some "Ether"%string |}.

Definition item (t : Z) (ti : option string) (a : option (list FetchData.Asset))
  : FetchData.NewsItem :=
  {| FetchData.publishTimeMillis := Some t;
     FetchData.title := ti;
     FetchData.description := None;
     FetchData.url := Some "u"%string;
     FetchData.assets := a |}.

(** Four news items over two days; the third mentions no asset. *)
Definition news_feed : list FetchData.NewsItem :=
  [ item 1000 (Some "x"%string) (Some [ether; bitcoin]);
    item 86400001 None (Some [bitcoin]);
    item 5 (Some "z"%string) None;
    item 7 (Some "w"%string) (Some [bitcoin]) ].

(** A news API with two pages; any other page fails to connect. *)
Definition news_api (p : FetchData.NewsParams) : FetchData.http FetchData.NewsItem :=
  if (FetchData.page p =? 1)%Z
  then FetchData.Response
         (FetchData.Object (FetchData.Present [item 1000 (Some "x"%string) (Some [ether; bitcoin])])
            (FetchData.Present 2%Z))
  else if (FetchData.page p =? 2)%Z
  then FetchData.Response
         (FetchData.Object (FetchData.Present [item 86400001 None (Some [bitcoin])])
            (FetchData.Present 2%Z))
  else FetchData.ConnectionFailed.

(** A market API that knows one asset. *)
Definition market_api (a : string) (p : FetchData.MarketParams)
  : FetchData.http FetchData.Candle :=
  if String.eqb a "btc"
  then FetchData.Response
         (FetchData.Object
            (FetchData.Present
               [ {| FetchData.timestamp := Some 0%Z; FetchData.c_close := of_Z 5 |};
                 {| FetchData.timestamp := Some 86400%Z; FetchData.c_close := of_Z 6 |} ])
            FetchData.Absent)
  else FetchData.Response FetchData.Null.

(** Tasks completing in the order they were started. *)
Definition in_order (i : nat) : nat := i.

Definition news_row (i n : string) (d : Z) : FetchData.AssetDailyNews :=
  {| FetchData.asset_id := i; FetchData.asset_name := n; FetchData.date := d;
     FetchData.titles := ["t"%string];
     FetchData.descriptions := ["d"%string];
     FetchData.urls := ["u"%string];
     FetchData.count := 1 |}.

Definition price_of (i : string) (d c : Z) : FetchData.PricePoint :=
  {| FetchData.p_date := Some d; FetchData.p_asset_id := Some i;
     FetchData.p_close := of_Z c |}.

(** Bitcoin on two days and Ether on the first, and a prices table that
    knows Bitcoin on both days, Ether on neither, and a third asset. *)
Definition three_days : list FetchData.AssetDailyNews :=
  [ news_row "btc" "Bitcoin" 0; news_row "eth" "Ether" 0; news_row "btc" "Bitcoin" 1 ].

Definition three_prices : list FetchData.PricePoint :=
  [ price_of "btc" 1 6; price_of "sol" 0 7; price_of "btc" 0 5 ].

(** The first row [process_news_data] makes of [news_feed], and the two
    arrays it returns with the grouped frame. *)
Definition first_row : FetchData.AssetDailyNews :=
  {| FetchData.asset_id := "btc"; FetchData.asset_name := "Bitcoin";
     FetchData.date := 0;
     FetchData.titles := ["x"%string; "w"%string];
     FetchData.descriptions := ["None"%string; "None"%string];
     FetchData.urls := ["u"%string; "u"%string];
     FetchData.count := 2 |}.

Definition grouped_feed : list FetchData.AssetDailyNews :=
  match FetchData.process_news_data news_feed with
  | Py.Ok (g, _, _) => g
  | _ => []
  end.

Definition feed_ids : list (option string) := [Some "eth"%string; Some "btc"%string].
Definition feed_dates : list (option Z) := [Some 0%Z; Some 1%Z].

Definition row (a : string) (d c : Z) (cl : float) : Metrics.MergedRecord :=
  {| Metrics.asset_id := a; Metrics.asset_name := a; Metrics.date := d;
     Metrics.title := EmptyString; Metrics.description := EmptyString;
     Metrics.url := EmptyString;
     Metrics.count := c; Metrics.close := cl |}.

(** Ten days of asset A, news and price rising, and one day of asset B. *)
Definition table : list Metrics.MergedRecord :=
  [ row "A" 1 1 (of_Z 10); row "B" 1 5 (of_Z 10); row "A" 2 2 (of_Z 11);
    row "A" 3 3 (of_Z 12); row "A" 4 4 (of_Z 13); row "A" 5 5 (of_Z 14);
    row "A" 6 6 (of_Z 15); row "A" 7 7 (of_Z 16); row "A" 8 9 (of_Z 17);
    row "A" 9 20 (of_Z 18); row "A" 10 60 (of_Z 19) ].

Definition blank : Metrics.MetricRecord :=
  {| Metrics.merged := row EmptyString 0 0 NaN; Metrics.count_7d_avg := NaN;
     Metrics.trend_score := NaN; Metrics.acceleration_score := NaN;
     Metrics.price_score := NaN |}.

(** Rows of the metrics of [table]: the ninth row of asset A (a full
    window of seven rows, the row of asset B left out), its third row (a
    window of three rows) and the only row of asset B. *)
Definition ninth_of_A : Metrics.MetricRecord :=
  nth 9 (Metrics.calculate_metrics Metrics.Pad table) blank.

Definition third_of_A : Metrics.MetricRecord :=
  nth 3 (Metrics.calculate_metrics Metrics.Pad table) blank.

Definition only_of_B : Metrics.MetricRecord :=
  nth 1 (Metrics.calculate_metrics Metrics.Pad table) blank.

(** The eighth row of asset A in the metrics of [table]. *)
Definition eighth_of_A : Metrics.MetricRecord :=
  nth 7 (Metrics.asset_series "A"
           (Metrics.replace_infinities (Metrics.calculate_metrics Metrics.Pad table)))
      blank.

(** The first row of the final table made from [table]. *)
Definition top_row : Metrics.ScoredRecord :=
  nth 0 (Metrics.clean_data (Metrics.calculate_metrics Metrics.Pad table))
      {| Metrics.metrics := blank; Metrics.momentum_score := NaN |}.

(** A row whose trend and acceleration are both negative and whose price
    rises: the product of the three scores is positive. *)
Definition falling : Metrics.MetricRecord :=
  {| Metrics.merged := row "A" 1 1 (of_Z 10);
     Metrics.count_7d_avg := of_Z 1;
     Metrics.trend_score := of_Z (-1);
     Metrics.acceleration_score := of_Z (-1);
     Metrics.price_score := of_Z 1 |}.

(** Eight days of an asset without news on the first day: the rolling
    mean seven rows before the eighth row is zero. *)
Definition quiet_start : list Metrics.MergedRecord :=
  [ row "Z" 1 0 (of_Z 10); row "Z" 2 1 (of_Z 11); row "Z" 3 1 (of_Z 12);
    row "Z" 4 1 (of_Z 13); row "Z" 5 1 (of_Z 14); row "Z" 6 1 (of_Z 15);
    row "Z" 7 1 (of_Z 16); row "Z" 8 1 (of_Z 17) ].






(** [table] and three days of the asset the script charts. *)
Definition short_solana : list Metrics.MergedRecord :=
  [ row Charting.DEFAULT_ASSET_ID 1 2 (of_Z 3);
    row Charting.DEFAULT_ASSET_ID 2 4 (of_Z 4);
    row Charting.DEFAULT_ASSET_ID 3 8 (of_Z 5) ] ++ table.

(** The frame the two pages of [news_api] make. *)
Definition two_pages : list FetchData.NewsItem :=
  [ item 1000 (Some "x"%string) (Some [ether; bitcoin]);
    item 86400001 None (Some [bitcoin]) ].

(** The price frame [market_api] gives for Bitcoin and Ether. *)
Definition sample_prices : list FetchData.PricePoint :=
  [ {| FetchData.p_date := Some 0%Z; FetchData.p_asset_id := Some "btc"%string;
       FetchData.p_close := of_Z 5 |};
    {| FetchData.p_date := Some 1%Z; FetchData.p_asset_id := Some "btc"%string;
       FetchData.p_close := of_Z 6 |} ].

(** A news API whose feed has no page. *)
Definition empty_api (p : FetchData.NewsParams) : FetchData.http FetchData.NewsItem :=
  FetchData.Response (FetchData.Object (FetchData.Present []) (FetchData.Present 0%Z)).

(** A news API whose only item names no asset. *)
Definition assetless_api (p : FetchData.NewsParams) : FetchData.http FetchData.NewsItem :=
  FetchData.Response
    (FetchData.Object (FetchData.Present [item 5 (Some "z"%string) None])
       (FetchData.Present 1%Z)).

(** The exploded frame of [news_feed]. *)
Definition feed_mentions : list FetchData.Mention :=
  match FetchData.mentions news_feed with
  | Py.Ok df => df
  | _ => []
  end.

(** A feed whose second item has an empty asset list. *)
Definition feed_with_empty_list : list FetchData.NewsItem :=
  [ item 5 None (Some [bitcoin]); item 5 None (Some []) ].

(** Two descriptors and no slot, one second later. *)
Definition idle_state : Scheduler.state :=
  match Scheduler.run (Scheduler.init 0 2) [Scheduler.Tick 1] with
  | Some s => s
  | None => Scheduler.init 0 2
  end.

(** Two descriptors and one slot: the first task takes the slot, sleeps
    one second and sends its request. *)
Definition batch_events : list Scheduler.event :=
  [ Scheduler.Acquire 0; Scheduler.Tick 1; Scheduler.Wake 0 ].

Definition batch_state : Scheduler.state :=
  match Scheduler.run (Scheduler.init 1 2) batch_events with
  | Some s => s
  | None => Scheduler.init 1 2
  end.

(** Two descriptors and one slot, run to the end: each task in turn takes
    the slot, sleeps one second, sends its request and gets its answer. *)
Definition full_events : list Scheduler.event :=
  [ Scheduler.Acquire 0; Scheduler.Tick 1; Scheduler.Wake 0; Scheduler.Complete 0;
    Scheduler.Acquire 1; Scheduler.Tick 1; Scheduler.Wake 1; Scheduler.Complete 1 ].

Definition final_state : Scheduler.state :=
  match Scheduler.run (Scheduler.init 1 2) full_events with
  | Some s => s
  | None => Scheduler.init 1 2
  end.
End Samples.

(** * Properties *)

(** ** Sorting and sequencing *)

Section SortFacts.
Variable A : Type.
Variable leb : A -> A -> bool.

Lemma insert_sorted_perm (x : A) (l : list A) :
  Permutation (insert_sorted leb x l) (x :: l).
Proof.
  induction l as [|y l IH]; simpl.
  - apply Permutation_refl.
  - destruct (leb x y).
    + apply Permutation_refl.
    + eapply perm_trans; [apply perm_skip, IH | apply perm_swap].
Qed.

Lemma sort_by_perm (l : list A) : Permutation (sort_by leb l) l.
Proof.
  induction l as [|x l IH]; simpl.
  - constructor.
  - eapply perm_trans; [apply insert_sorted_perm | apply perm_skip, IH].
Qed.

Lemma sort_by_In (x : A) (l : list A) : In x (sort_by leb l) <-> In x l.
Proof.
  split; apply Permutation_in;
    [apply sort_by_perm | apply Permutation_sym, sort_by_perm].
Qed.

Lemma sort_by_length (l : list A) : length (sort_by leb l) = length l.
Proof. apply Permutation_length, sort_by_perm. Qed.
End SortFacts.

Section SequenceFacts.
Import Py.
Variable A : Type.

Lemma sequence_ok_inv (ms : list (result A)) (l : list A) :
  sequence ms = Ok l -> ms = map (@Ok A) l.
Proof.
  revert l; induction ms as [|m ms IH]; simpl; intros l H.
  - inversion H; reflexivity.
  - destruct m as [a| |]; simpl in H; try discriminate.
    destruct (sequence ms) as [l'| |]; simpl in H; try discriminate.
    inversion H; subst; simpl. f_equal. apply IH; reflexivity.
Qed.

Lemma sequence_map_ok (l : list A) : sequence (map (@Ok A) l) = Ok l.
Proof.
  induction l as [|a l IH]; simpl; [reflexivity|].
  rewrite IH; reflexivity.
Qed.

(** A list of completed computations one of which raised: running them
    in order raises, with the exception of one of them. *)
Lemma sequence_raises (ms : list (result A)) :
  (forall m, In m ms -> m <> Hang) ->
  (exists e, In (Raise e) ms) ->
  exists e, sequence ms = Raise e /\ In (Raise e) ms.
Proof.
  induction ms as [|m ms IH]; intros Hh [e He].
  - destruct He.
  - destruct m as [a|e'|].
    + destruct He as [He|He]; [discriminate|].
      destruct IH as [e1 [H1 H2]].
      * intros m Hm; apply Hh; right; exact Hm.
      * exists e; exact He.
      * exists e1; split; [simpl; rewrite H1; reflexivity | right; exact H2].
    + exists e'; split; [reflexivity | left; reflexivity].
    + exfalso; apply (Hh Hang); [left|]; reflexivity.
Qed.
End SequenceFacts.

(** ** The batch fetchers *)

Section GatherFacts.
Import Py FetchData.
Variable A : Type.
Variable finish : nat -> nat.

Lemma In_enumerate (tasks : list (result A)) (t : result A) :
  In t tasks -> exists i, In (i, t) (enumerate tasks).
Proof.
  unfold enumerate. generalize 0.
  induction tasks as [|x tasks IH]; intros n H; [destruct H|].
  destruct H as [H|H].
  - subst; exists n; left; reflexivity.
  - destruct (IH (S n) H) as [i Hi]; exists i; right; exact Hi.
Qed.

Lemma enumerate_In (tasks : list (result A)) (it : nat * result A) :
  In it (enumerate tasks) -> In (snd it) tasks.
Proof.
  destruct it as [i t]; unfold enumerate; intros H.
  apply in_combine_r in H; exact H.
Qed.

Lemma In_as_completed (tasks : list (result A)) (it : nat * result A) :
  In it (as_completed finish tasks) <->
  In it (enumerate tasks) /\ completes it = true.
Proof.
  unfold as_completed. rewrite sort_by_In, filter_In. reflexivity.
Qed.

(** If every task completes and one of them raises, the gather raises the
    exception of one of the tasks. *)
Lemma gather_raises (tasks : list (result A)) :
  (forall t, In t tasks -> t <> Hang) ->
  (exists e, In (Raise e) tasks) ->
  exists e, gather finish tasks = Raise e /\ In (Raise e) tasks.
Proof.
  intros Hh [e He].
  destruct (@sequence_raises _ (map (@wrap_awaitable A) (as_completed finish tasks)))
    as [e1 [H1 H2]].
  - intros m Hm. apply in_map_iff in Hm. destruct Hm as [[i t] [Hw Hi]].
    apply In_as_completed in Hi. destruct Hi as [_ Hc].
    unfold completes in Hc; simpl in Hc. subst m.
    unfold wrap_awaitable; simpl. destruct t; simpl; try discriminate.
  - destruct (In_enumerate _ _ He) as [i Hi].
    exists e. apply in_map_iff. exists (i, Raise e). split; [reflexivity|].
    apply In_as_completed. split; [exact Hi | reflexivity].
  - exists e1. split.
    + unfold gather. rewrite H1. reflexivity.
    + apply in_map_iff in H2. destruct H2 as [[i t] [Hw Hi]].
      apply In_as_completed in Hi. destruct Hi as [Hi _].
      apply enumerate_In in Hi. simpl in Hi.
      unfold wrap_awaitable in Hw; simpl in Hw.
      destruct t; simpl in Hw; try discriminate.
      inversion Hw; subst. exact Hi.
Qed.

Lemma gather_nil : gather finish (@nil (result A)) = Ok [].
Proof. reflexivity. Qed.
End GatherFacts.

Section FetchFacts.
Import Py FetchData.
Variable news_api : NewsParams -> http NewsItem.
Variable market_api : string -> MarketParams -> http Candle.
Variable finish_news : nat -> nat.
Variable finish_market : nat -> nat.

Lemma Semaphore_positive (N : Z) : (1 <= N)%Z -> Semaphore N = Ok N.
Proof.
  intros H. unfold Semaphore.
  destruct (Z.ltb_spec N 0); [lia | reflexivity].
Qed.

Lemma with_sem_positive (A : Type) (N : Z) (body : result A) :
  (1 <= N)%Z -> with_sem N body = body.
Proof.
  intros H. unfold with_sem.
  destruct (Z.eqb_spec N 0); [lia | reflexivity].
Qed.

(** With a slot to take, a page fetch always ends: it returns or raises. *)
Lemma fetch_single_news_page_completes (N page st en : Z) :
  (1 <= N)%Z -> fetch_single_news_page news_api N page st en <> Hang.
Proof.
  intros H. unfold fetch_single_news_page.
  rewrite with_sem_positive by exact H.
  destruct (news_api _) as [|[| | |[| |l] tp]]; simpl; discriminate.
Qed.

Lemma fetch_single_asset_market_data_completes (N : Z) (id : option string) (st en : Z) :
  (1 <= N)%Z -> fetch_single_asset_market_data market_api N id st en <> Hang.
Proof.
  intros H. unfold fetch_single_asset_market_data.
  rewrite with_sem_positive by exact H.
  destruct (market_api _ _) as [|[| | |[| |l] tp]]; simpl; discriminate.
Qed.

Lemma not_ok_raises (A : Type) (m : result A) :
  m <> Hang -> is_ok m = false -> exists e, m = Raise e.
Proof.
  destruct m as [a|e|]; simpl; intros H1 H2;
    [discriminate | exists e; reflexivity | contradiction].
Qed.

Lemma news_batch_raises (pages : list Z) (N st en page : Z) :
  (1 <= N)%Z ->
  In page pages ->
  is_ok (fetch_single_news_page news_api N page st en) = false ->
  exists e page',
    fetch_all_news_pages news_api finish_news pages N st en = Raise e
    /\ In page' pages
    /\ fetch_single_news_page news_api N page' st en = Raise e.
Proof.
  intros HN Hin Hfail.
  destruct (not_ok_raises (fetch_single_news_page_completes page st en HN) Hfail)
    as [e0 He0].
  destruct (@gather_raises _ finish_news
              (map (fun p => fetch_single_news_page news_api N p st en) pages))
    as [e [Hg Hi]].
  - intros t Ht. apply in_map_iff in Ht. destruct Ht as [p [Hp _]]. subst t.
    apply fetch_single_news_page_completes; exact HN.
  - exists e0. apply in_map_iff. exists page. split; assumption.
  - apply in_map_iff in Hi. destruct Hi as [p [Hp Hpin]].
    exists e, p. split; [|split; assumption].
    unfold fetch_all_news_pages. rewrite Semaphore_positive by exact HN.
    simpl. rewrite Hg. reflexivity.
Qed.

Lemma market_batch_raises (ids : list (option string)) (N st en : Z) (id : option string) :
  (1 <= N)%Z ->
  In id ids ->
  is_ok (fetch_single_asset_market_data market_api N id st en) = false ->
  exists e id',
    fetch_all_market_data market_api finish_market ids N st en = Raise e
    /\ In id' ids
    /\ fetch_single_asset_market_data market_api N id' st en = Raise e.
Proof.
  intros HN Hin Hfail.
  destruct (not_ok_raises (fetch_single_asset_market_data_completes id st en HN) Hfail)
    as [e0 He0].
  destruct (@gather_raises _ finish_market
              (map (fun a => fetch_single_asset_market_data market_api N a st en) ids))
    as [e [Hg Hi]].
  - intros t Ht. apply in_map_iff in Ht. destruct Ht as [p [Hp _]]. subst t.
    apply fetch_single_asset_market_data_completes; exact HN.
  - exists e0. apply in_map_iff. exists id. split; assumption.
  - apply in_map_iff in Hi. destruct Hi as [p [Hp Hpin]].
    exists e, p. split; [|split; assumption].
    unfold fetch_all_market_data. rewrite Semaphore_positive by exact HN.
    simpl. rewrite Hg. reflexivity.
Qed.

(** C4 (as the code behaves).  With no descriptor at all, both batch
    fetchers reach [pd.concat] with an empty list of frames, which raises
    ValueError: neither returns an empty result. *)
Theorem fetch_all_empty_raises (N st en : Z) :
  (1 <= N)%Z ->
  fetch_all_news_pages news_api finish_news [] N st en = Raise ValueError
  /\ fetch_all_market_data market_api finish_market [] N st en = Raise ValueError.
Proof.
  intros HN. unfold fetch_all_news_pages, fetch_all_market_data.
  rewrite Semaphore_positive by exact HN. split; reflexivity.
Qed.

End FetchFacts.

Lemma fetch_all_empty_raises_witness :
  FetchData.fetch_all_news_pages Samples.news_api Samples.in_order [] 1 0 0
  = Py.Raise Py.ValueError
  /\ FetchData.fetch_all_market_data Samples.market_api Samples.in_order [] 1 0 0
     = Py.Raise Py.ValueError.
Proof.
  apply (fetch_all_empty_raises Samples.news_api Samples.market_api
           Samples.in_order Samples.in_order (N := 1) 0 0).
  lia.
Defined.

(** ** Dates *)

Section DateFacts.
Import Py FetchData.


End DateFacts.


(** ** The merge *)

Section MergeFacts.
Import Py Float FetchData.

Lemma same_key_iff (n : AssetDailyNews) (p : PricePoint) :
  same_key n p = true <-> price_key p = news_key n.
Proof.
  unfold same_key, price_key, news_key.
  destruct (p_asset_id p) as [i|], (p_date p) as [d|]; simpl.
  - rewrite andb_true_iff, String.eqb_eq, Z.eqb_eq. split.
    + intros [-> ->]; reflexivity.
    + intros H; inversion H; split; reflexivity.
  - rewrite andb_false_r. split; discriminate.
  - split; discriminate.
  - split; discriminate.
Qed.

Lemma find_hd_filter (A : Type) (f : A -> bool) (l : list A) :
  find f l = hd_error (filter f l).
Proof.
  induction l as [|x l IH]; simpl; [reflexivity|].
  destruct (f x); simpl; [reflexivity | exact IH].
Qed.

Lemma filter_unique_key (prices : list PricePoint) (n : AssetDailyNews) :
  NoDup (map price_key prices) ->
  length (filter (same_key n) prices) <= 1.
Proof.
  induction prices as [|p prices IH]; simpl; intros Hnd; [lia|].
  inversion Hnd as [|? ? Hnotin Hnd']; subst.
  destruct (same_key n p) eqn:Hp; simpl; [|apply IH; exact Hnd'].
  assert (Hnil : filter (same_key n) prices = []).
  { destruct (filter (same_key n) prices) as [|q qs] eqn:Hf; [reflexivity|].
    exfalso. apply Hnotin.
    assert (Hq : In q (filter (same_key n) prices)) by (rewrite Hf; left; reflexivity).
    apply filter_In in Hq. destruct Hq as [Hq1 Hq2].
    apply same_key_iff in Hp. apply same_key_iff in Hq2.
    rewrite Hp, <- Hq2. apply in_map; exact Hq1. }
  rewrite Hnil. simpl. lia.
Qed.

Lemma merge_row_unique (prices : list PricePoint) (n : AssetDailyNews) :
  length (filter (same_key n) prices) <= 1 ->
  merge_row prices n = [ {| news := n; close := lookup_close prices n |} ].
Proof.
  unfold merge_row, lookup_close. rewrite find_hd_filter.
  destruct (filter (same_key n) prices) as [|p [|q l]]; simpl; intros H.
  - reflexivity.
  - reflexivity.
  - lia.
Qed.

Lemma merge_unique (news_df : list AssetDailyNews) (prices : list PricePoint) :
  NoDup (map price_key prices) ->
  merge news_df prices =
  map (fun n => {| news := n; close := lookup_close prices n |}) news_df.
Proof.
  intros Hnd. unfold merge.
  induction news_df as [|n l IH]; simpl; [reflexivity|].
  rewrite merge_row_unique by (apply filter_unique_key; exact Hnd).
  simpl. rewrite IH. reflexivity.
Qed.

(** Whatever the prices, every news row comes out at least once. *)
Lemma merge_keeps_news (news_df : list AssetDailyNews) (prices : list PricePoint) (n : AssetDailyNews) :
  In n news_df -> exists r, In r (merge news_df prices) /\ news r = n.
Proof.
  intros Hin. unfold merge.
  assert (H : exists r, In r (merge_row prices n) /\ news r = n).
  { unfold merge_row. destruct (filter (same_key n) prices) as [|p l].
    - eexists; split; [left; reflexivity | reflexivity].
    - eexists; split; [left; reflexivity | reflexivity]. }
  destruct H as [r [Hr Hn]]. exists r. split; [|exact Hn].
  apply in_flat_map. exists n. split; assumption.
Qed.

Lemma lookup_close_found (prices : list PricePoint) (n : AssetDailyNews) (p : PricePoint) :
  NoDup (map price_key prices) ->
  In p prices -> price_key p = news_key n ->
  lookup_close prices n = p_close p.
Proof.
  intros Hnd Hin Hk. unfold lookup_close. rewrite find_hd_filter.
  pose proof (@filter_unique_key prices n Hnd) as Hlen.
  assert (Hp : In p (filter (same_key n) prices)).
  { apply filter_In. split; [exact Hin | apply same_key_iff; exact Hk]. }
  destruct (filter (same_key n) prices) as [|q [|q' l]]; simpl in *.
  - destruct Hp.
  - destruct Hp as [->|[]]. reflexivity.
  - lia.
Qed.

Lemma lookup_close_missing (prices : list PricePoint) (n : AssetDailyNews) :
  (forall p, In p prices -> price_key p <> news_key n) ->
  lookup_close prices n = NaN.
Proof.
  intros H. unfold lookup_close.
  destruct (find (same_key n) prices) as [p|] eqn:Hf; [|reflexivity].
  apply find_some in Hf. destruct Hf as [Hin Hk].
  apply same_key_iff in Hk. exfalso. exact (H p Hin Hk).
Qed.

(** C1.  On a prices table in which no (asset_id, date) key occurs
    twice (the key of a price point is unique), the merge is the left
    join of the claim: one output row per news row, in the order of the
    news rows, each carrying its news row (so its asset_id and date),
    with [close] the close of the price row of the same key when there
    is one and null otherwise. *)
Theorem merge_left_join (news_df : list AssetDailyNews) (prices : list PricePoint) :
  NoDup (map price_key prices) ->
  length (merge news_df prices) = length news_df
  /\ map news (merge news_df prices) = news_df
  /\ (forall r, In r (merge news_df prices) ->
        (forall p, In p prices -> price_key p = news_key (news r) ->
                   close r = p_close p)
        /\ ((forall p, In p prices -> price_key p <> news_key (news r)) ->
            close r = NaN)).
Proof.
  intros Hnd. rewrite (@merge_unique news_df prices Hnd).
  split; [|split].
  - apply length_map.
  - rewrite map_map. simpl. apply map_id.
  - intros r Hr. apply in_map_iff in Hr. destruct Hr as [n [<- _]]. simpl.
    split.
    + intros p Hin Hk. apply lookup_close_found; assumption.
    + apply lookup_close_missing.
Qed.
End MergeFacts.

Lemma merge_left_join_witness :
  length (FetchData.merge Samples.three_days Samples.three_prices)
  = length Samples.three_days
  /\ map FetchData.news (FetchData.merge Samples.three_days Samples.three_prices)
     = Samples.three_days
  /\ map FetchData.close (FetchData.merge Samples.three_days Samples.three_prices)
     = [Float.of_Z 5; Float.NaN; Float.of_Z 6].
Proof.
  assert (Hnd : NoDup (map FetchData.price_key Samples.three_prices)).
  { repeat constructor; simpl; intros H;
      repeat (destruct H as [H|H]; [discriminate|]); exact H. }
  destruct (@merge_left_join Samples.three_days Samples.three_prices Hnd)
    as [Hlen [Hnews _]].
  split; [exact Hlen|]. split; [exact Hnews|]. reflexivity.
Defined.

(** ** The aggregation *)

Section AggregateFacts.
Import Py FetchData.

Lemma bind_ok_inv (A B : Type) (m : result A) (k : A -> result B) (b : B) :
  bind m k = Ok b -> exists a, m = Ok a /\ k a = Ok b.
Proof.
  destruct m as [a| |]; simpl; intros H; try discriminate.
  exists a; split; [reflexivity | exact H].
Qed.

Lemma combine_map_pair (A B C : Type) (f : A -> B) (g : A -> C) (l : list A) :
  combine l (combine (map f l) (map g l)) = map (fun x => (x, (f x, g x))) l.
Proof.
  induction l as [|x l IH]; simpl; [reflexivity | rewrite IH; reflexivity].
Qed.

Lemma filter_map_length (A B : Type) (f : A -> B) (p : B -> bool) (l : list A) :
  length (filter p (map f l)) = length (filter (fun x => p (f x)) l).
Proof.
  induction l as [|x l IH]; simpl; [reflexivity|].
  destruct (p (f x)); simpl; rewrite IH; reflexivity.
Qed.

Lemma filter_flat_map_length (A B : Type) (g : A -> list B) (p : B -> bool) (l : list A) :
  length (filter p (flat_map g l))
  = list_sum (map (fun x => length (filter p (g x))) l).
Proof.
  induction l as [|x l IH]; simpl; [reflexivity|].
  rewrite filter_app, length_app, IH. reflexivity.
Qed.

Lemma list_sum_filter_zero (A : Type) (h : A -> nat) (p : A -> bool) (l : list A) :
  (forall x, p x = false -> h x = 0) ->
  list_sum (map h (filter p l)) = list_sum (map h l).
Proof.
  intros H. induction l as [|x l IH]; simpl; [reflexivity|].
  destruct (p x) eqn:Hp; simpl; rewrite IH; [reflexivity|].
  rewrite (H x Hp). reflexivity.
Qed.

Lemma subscript_all_ok (fld : Asset -> option string) (ex : list NewsRow)
    (vs : list (option string)) :
  sequence (map (fun r => subscript_asset fld (r_asset r)) ex) = Ok vs ->
  vs = map (row_field fld) ex.
Proof.
  revert vs. induction ex as [|r ex IH]; simpl; intros vs H.
  - inversion H; reflexivity.
  - unfold row_field at 1. destruct (r_asset r) as [a|]; simpl in H; [|discriminate].
    destruct (sequence _) as [l| |]; simpl in H; try discriminate.
    inversion H; subst. f_equal. apply IH. reflexivity.
Qed.

(** What [mentions] returns when it returns. *)
Lemma mentions_ok (news_df : list NewsItem) (df : list Mention) :
  mentions news_df = Ok df ->
  exists dates,
    map (fun it => to_date Milliseconds (publishTimeMillis it)) news_df = map (@Ok _) dates
    /\ df = map to_mention
              (flat_map explode_row (filter has_assets (combine news_df dates))).
Proof.
  intros H. unfold mentions in H.
  destruct news_df as [|it0 news_df]; [discriminate|].
  cbv beta iota in H. set (feed := it0 :: news_df) in *.
  apply bind_ok_inv in H. destruct H as [dates [Hd H]].
  apply bind_ok_inv in H. destruct H as [ids [Hi H]].
  apply bind_ok_inv in H. destruct H as [names [Hn H]].
  apply sequence_ok_inv in Hd.
  apply subscript_all_ok in Hi. apply subscript_all_ok in Hn. subst ids names.
  injection H as <-.
  exists dates. split; [exact Hd|].
  rewrite combine_map_pair, map_map. reflexivity.
Qed.

Lemma in_group_to_mention (k : key) (it : NewsItem) (d : option Z) (a : Asset) :
  in_group k (to_mention {| r_item := it; r_date := d; r_asset := Some a |})
  = asset_matches k a && date_matches k d.
Proof.
  destruct k as [[ki kn] kd].
  unfold in_group, mention_key, to_mention, row_field, asset_matches, date_matches.
  simpl.
  destruct (a_id a) as [i|], (a_name a) as [n|], d as [d'|]; simpl;
    rewrite ?andb_false_r; reflexivity.
Qed.

Lemma filter_const_false (A : Type) (l : list A) : filter (fun _ => false) l = [].
Proof. induction l; simpl; auto. Qed.

Lemma explode_row_count (k : key) (r : NewsItem * option Z) :
  length (filter (fun x => in_group k (to_mention x)) (explode_row r))
  = pair_mentions k r.
Proof.
  destruct r as [it d]. unfold explode_row, pair_mentions. simpl fst; simpl snd.
  destruct (assets it) as [[|a l]|].
  - simpl. destruct (date_matches k d); reflexivity.
  - rewrite filter_map_length.
    rewrite (filter_ext _ (fun a0 => asset_matches k a0 && date_matches k d))
      by (intros a0; apply in_group_to_mention).
    destruct (date_matches k d).
    + rewrite (filter_ext _ (asset_matches k))
        by (intros a0; apply andb_true_r). reflexivity.
    + rewrite (filter_ext _ (fun _ => false))
        by (intros a0; apply andb_false_r).
      rewrite filter_const_false. reflexivity.
  - reflexivity.
Qed.

Lemma to_date_milliseconds (x : option Z) (d : option Z) :
  to_date Milliseconds x = Ok d ->
  d = option_map (fun t => (t / MILLISECONDS_IN_A_DAY)%Z) x.
Proof.
  destruct x as [t|]; unfold to_date.
  - intros H. apply bind_ok_inv in H. destruct H as [ns [Hns H]].
    injection H as <-. unfold to_datetime in Hns.
    destruct (_ && _); [|discriminate]. injection Hns as <-.
    simpl. f_equal. unfold dt_date, NS_PER_DAY, ns_per, MILLISECONDS_IN_A_DAY.
    replace (86400 * 1000000000)%Z with (86400000 * 1000000)%Z by reflexivity.
    apply Z.div_mul_cancel_r; lia.
  - intros H. injection H as <-. reflexivity.
Qed.

Lemma pair_mentions_item (k : key) (it : NewsItem) (d : option Z) :
  to_date Milliseconds (publishTimeMillis it) = Ok d ->
  pair_mentions k (it, d) = item_mentions k it.
Proof.
  intros H. apply to_date_milliseconds in H. subst d.
  destruct k as [[ki kn] kd]. unfold pair_mentions, item_mentions. simpl.
  destruct (assets it) as [l|]; [|reflexivity].
  destruct (publishTimeMillis it) as [t|]; simpl; [|reflexivity].
  rewrite Z.eqb_sym. reflexivity.
Qed.

Lemma pair_mentions_sum (k : key) (news_df : list NewsItem) (dates : list (option Z)) :
  map (fun it => to_date Milliseconds (publishTimeMillis it)) news_df = map (@Ok _) dates ->
  list_sum (map (pair_mentions k) (combine news_df dates)) = raw_mentions k news_df.
Proof.
  unfold raw_mentions. revert dates.
  induction news_df as [|it l IH]; intros [|d dates] H; simpl in *; try discriminate.
  - reflexivity.
  - injection H as Hd Hl.
    rewrite (pair_mentions_item k it Hd), (IH dates Hl). reflexivity.
Qed.

(** The rows grouped under a key are as many as the raw mentions of the
    key in the feed. *)
Lemma group_size (news_df : list NewsItem) (df : list Mention) (k : key) :
  mentions news_df = Ok df ->
  length (filter (in_group k) df) = raw_mentions k news_df.
Proof.
  intros H. apply mentions_ok in H. destruct H as [dates [Hd ->]].
  rewrite filter_map_length, filter_flat_map_length.
  rewrite (map_ext _ (pair_mentions k)) by (intros r; apply explode_row_count).
  rewrite list_sum_filter_zero.
  - apply pair_mentions_sum; exact Hd.
  - intros [it d]. unfold has_assets, pair_mentions. simpl.
    destruct (assets it); [discriminate | reflexivity].
Qed.

(** C3.  In every row [process_news_data] returns, [count] is the length
    of the title list, the title, description and url lists have the same
    length, and that length is the number of raw mentions (exploded
    item-asset pairs) of the row's (asset_id, asset_name, date) in the
    feed. *)
Theorem count_is_mentions (news_df : list NewsItem) (grouped : list AssetDailyNews)
    (ids : list (option string)) (dates : list (option Z)) (row : AssetDailyNews) :
  process_news_data news_df = Ok (grouped, ids, dates) ->
  In row grouped ->
  count row = Z.of_nat (length (titles row))
  /\ length (titles row) = length (descriptions row)
  /\ length (descriptions row) = length (urls row)
  /\ length (titles row)
     = raw_mentions (asset_id row, asset_name row, date row) news_df.
Proof.
  intros H Hin. unfold process_news_data in H.
  apply bind_ok_inv in H. destruct H as [df [Hdf H]].
  injection H as <- _ _.
  apply in_map_iff in Hin. destruct Hin as [g [<- Hg]].
  unfold groupby_agg in Hg. apply in_map_iff in Hg. destruct Hg as [k [<- _]].
  destruct k as [[i n] d]. unfold with_count. simpl.
  rewrite !length_map. repeat split.
  apply group_size; exact Hdf.
Qed.
End AggregateFacts.

Lemma count_is_mentions_witness :
  FetchData.count Samples.first_row
  = Z.of_nat (length (FetchData.titles Samples.first_row))
  /\ length (FetchData.titles Samples.first_row)
     = length (FetchData.descriptions Samples.first_row)
  /\ length (FetchData.descriptions Samples.first_row)
     = length (FetchData.urls Samples.first_row)
  /\ length (FetchData.titles Samples.first_row)
     = FetchData.raw_mentions ("btc"%string, "Bitcoin"%string, 0%Z) Samples.news_feed.
Proof.
  apply (@count_is_mentions Samples.news_feed Samples.grouped_feed
           Samples.feed_ids Samples.feed_dates Samples.first_row).
  - reflexivity.
  - left. reflexivity.
Defined.

(** ** Grouped transforms *)

Section GroupFacts.
Import Float Metrics.
Variable A : Type.

Lemma combine_app_eq (B C : Type) (k1 k2 : list B) (x1 x2 : list C) :
  length x1 = length k1 ->
  combine (k1 ++ k2) (x1 ++ x2) = combine k1 x1 ++ combine k2 x2.
Proof.
  revert x1. induction k1 as [|a k1 IH]; intros [|x x1] H; simpl in *;
    try discriminate; [reflexivity|].
  rewrite IH by lia. reflexivity.
Qed.

Lemma group_values_app (k : string) (k1 k2 : list string) (x1 x2 : list A) :
  length x1 = length k1 ->
  group_values k (k1 ++ k2) (x1 ++ x2)
  = group_values k k1 x1 ++ group_values k k2 x2.
Proof.
  intros H. unfold group_values.
  rewrite combine_app_eq by exact H.
  rewrite filter_app, map_app. reflexivity.
Qed.

Lemma group_values_length (k : string) (keys : list string) (xs : list A) :
  length xs = length keys ->
  length (group_values k keys xs) = length (filter (String.eqb k) keys).
Proof.
  unfold group_values. rewrite length_map. revert xs.
  induction keys as [|a keys IH]; intros [|x xs] H; simpl in *; try discriminate.
  - reflexivity.
  - rewrite (String.eqb_sym a k). destruct (String.eqb k a); simpl;
      rewrite IH by lia; reflexivity.
Qed.

Lemma split_nth (B : Type) (l : list B) (i : nat) (d : B) :
  i < length l -> l = firstn i l ++ nth i l d :: skipn (S i) l.
Proof.
  revert i. induction l as [|x l IH]; intros [|i] H; simpl in *; try lia.
  - reflexivity.
  - f_equal. apply IH. lia.
Qed.

Lemma firstn_middle (B : Type) (l1 l2 : list B) (x : B) :
  firstn (S (length l1)) (l1 ++ x :: l2) = l1 ++ [x].
Proof.
  induction l1 as [|y l1 IH]; simpl; [reflexivity|].
  f_equal. exact IH.
Qed.

Lemma firstn_S_nth (B : Type) (l : list B) (i : nat) (d : B) :
  i < length l -> firstn (S i) l = firstn i l ++ [nth i l d].
Proof.
  revert i. induction l as [|x l IH]; intros [|i] H; simpl in *; try lia.
  - reflexivity.
  - f_equal. apply IH. lia.
Qed.

(** The group of row [i] is the group of the rows before it, the value
    of row [i], and the group of the rows after it. *)
Lemma group_values_split (keys : list string) (xs : list A) (i : nat) (d : A) :
  length xs = length keys -> i < length keys ->
  group_values (nth i keys EmptyString) keys xs
  = group_values (nth i keys EmptyString) (firstn i keys) (firstn i xs)
    ++ nth i xs d
    :: group_values (nth i keys EmptyString) (skipn (S i) keys) (skipn (S i) xs).
Proof.
  intros Hl Hi. set (k := nth i keys EmptyString).
  rewrite (@split_nth _ keys i EmptyString Hi) at 1.
  rewrite (@split_nth _ xs i d) at 1 by lia.
  rewrite group_values_app by (rewrite !length_firstn; lia).
  f_equal. fold k.
  change (nth i xs d :: skipn (S i) xs) with ([nth i xs d] ++ skipn (S i) xs).
  change (k :: skipn (S i) keys) with ([k] ++ skipn (S i) keys).
  rewrite group_values_app by reflexivity.
  unfold group_values at 1. simpl. rewrite String.eqb_refl. reflexivity.
Qed.

Lemma rank_in_group_length (keys : list string) (xs : list A) (i : nat) :
  length xs = length keys ->
  length (group_values (nth i keys EmptyString) (firstn i keys) (firstn i xs))
  = rank_in_group keys i.
Proof.
  intros H. rewrite group_values_length by (rewrite !length_firstn; lia).
  reflexivity.
Qed.

(** Row [i] sits at its rank in its group. *)
Lemma nth_rank_group (keys : list string) (xs : list A) (i : nat) (d : A) :
  length xs = length keys -> i < length keys ->
  nth (rank_in_group keys i) (group_values (nth i keys EmptyString) keys xs) d
  = nth i xs d.
Proof.
  intros Hl Hi. rewrite (@group_values_split keys xs i d Hl Hi).
  rewrite <- (@rank_in_group_length keys xs i Hl). apply nth_middle.
Qed.

Lemma rank_lt_group (keys : list string) (xs : list A) (i : nat) :
  length xs = length keys -> i < length keys ->
  rank_in_group keys i < length (group_values (nth i keys EmptyString) keys xs).
Proof.
  intros Hl Hi. destruct xs as [|d xs']; [simpl in Hl; lia|].
  rewrite (@group_values_split keys (d :: xs') i d Hl Hi).
  rewrite length_app, (@rank_in_group_length keys (d :: xs') i Hl). simpl. lia.
Qed.

(** The group up to and including row [i]. *)
Lemma firstn_rank_group (keys : list string) (xs : list A) (i : nat) :
  length xs = length keys -> i < length keys ->
  firstn (S (rank_in_group keys i)) (group_values (nth i keys EmptyString) keys xs)
  = group_values (nth i keys EmptyString) (firstn (S i) keys) (firstn (S i) xs).
Proof.
  intros Hl Hi. destruct xs as [|d xs']; [simpl in Hl; lia|].
  set (xs := d :: xs') in *.
  rewrite (@group_values_split keys xs i d Hl Hi).
  rewrite <- (@rank_in_group_length keys xs i Hl).
  rewrite firstn_middle.
  assert (Hk : firstn (S i) keys = firstn i keys ++ [nth i keys EmptyString])
    by (apply firstn_S_nth; exact Hi).
  assert (Hx : firstn (S i) xs = firstn i xs ++ [nth i xs d])
    by (apply firstn_S_nth; lia).
  rewrite Hk, Hx. rewrite group_values_app by (rewrite !length_firstn; lia).
  f_equal. unfold group_values. simpl. rewrite String.eqb_refl. reflexivity.
Qed.
End GroupFacts.

Section TransformFacts.
Import Float Metrics.
Variable A : Type.

Lemma nth_map_seq (B : Type) (g : nat -> B) (n i : nat) (d : B) :
  i < n -> nth i (map g (seq 0 n)) d = g i.
Proof.
  intros H. rewrite (nth_indep _ d (g 0)) by (rewrite length_map, length_seq; exact H).
  rewrite (map_nth g (seq 0 n) 0 i). rewrite seq_nth by exact H. reflexivity.
Qed.

Lemma groupby_transform_length (keys : list string) (xs : list A)
    (f : list A -> list float) :
  length (groupby_transform keys xs f) = length keys.
Proof. unfold groupby_transform. rewrite length_map, length_seq. reflexivity. Qed.

Lemma groupby_transform_nth (keys : list string) (xs : list A)
    (f : list A -> list float) (i : nat) :
  i < length keys ->
  nth i (groupby_transform keys xs f) NaN
  = nth (rank_in_group keys i) (f (group_values (nth i keys EmptyString) keys xs)) NaN.
Proof. intros H. unfold groupby_transform. apply nth_map_seq. exact H. Qed.

(** Every position of a group is the rank of one of its rows. *)
Lemma rank_onto (keys : list string) (k : string) (j : nat) :
  j < length (filter (String.eqb k) keys) ->
  exists i, i < length keys /\ nth i keys EmptyString = k /\ rank_in_group keys i = j.
Proof.
  induction keys as [|a keys IH] using rev_ind; simpl; intros H; [lia|].
  rewrite filter_app, length_app in H. simpl in H.
  destruct (Nat.lt_ge_cases j (length (filter (String.eqb k) keys))) as [Hj|Hj].
  - destruct (IH Hj) as [i [Hi [Hk Hr]]]. exists i.
    rewrite length_app. simpl. split; [lia|].
    rewrite app_nth1 by exact Hi. split; [exact Hk|].
    unfold rank_in_group in *. rewrite app_nth1 by exact Hi.
    rewrite firstn_app. replace (i - length keys) with 0 by lia.
    simpl. rewrite app_nil_r. exact Hr.
  - destruct (String.eqb_spec k a) as [->|Hne]; simpl in H; [|lia].
    exists (length keys). rewrite length_app. simpl. split; [lia|].
    rewrite nth_middle. split; [reflexivity|].
    unfold rank_in_group. rewrite nth_middle.
    rewrite firstn_app, firstn_all, Nat.sub_diag. simpl. rewrite app_nil_r. lia.
Qed.

(** Grouping a transformed column again gives, for each group, what the
    function returned on that group. *)
Lemma group_values_transform (keys : list string) (xs : list A)
    (f : list A -> list float) (k : string) :
  length xs = length keys ->
  length (f (group_values k keys xs)) = length (group_values k keys xs) ->
  group_values k keys (groupby_transform keys xs f) = f (group_values k keys xs).
Proof.
  intros Hl Hf.
  assert (Hy : length (groupby_transform keys xs f) = length keys)
    by apply groupby_transform_length.
  apply (@nth_ext _ _ _ NaN NaN).
  - rewrite Hf, !group_values_length by assumption. reflexivity.
  - intros j Hj. rewrite group_values_length in Hj by exact Hy.
    destruct (rank_onto keys k Hj) as [i [Hi [Hk Hr]]].
    rewrite <- Hr, <- Hk.
    rewrite nth_rank_group by assumption.
    apply groupby_transform_nth. exact Hi.
Qed.

Lemma group_values_map (B : Type) (key : B -> string) (col : B -> A)
    (k : string) (l : list B) :
  group_values k (map key l) (map col l)
  = map col (filter (fun x => String.eqb (key x) k) l).
Proof.
  unfold group_values. induction l as [|x l IH]; simpl; [reflexivity|].
  destruct (String.eqb (key x) k); simpl; rewrite IH; reflexivity.
Qed.
End TransformFacts.

(** ** Floats *)

Section FloatFacts.
Import Float.

Lemma Qc_eqb_eq (a b : Qc) : Qc_eqb a b = true <-> a = b.
Proof.
  unfold Qc_eqb. rewrite Qceq_alt.
  destruct (a ?= b)%Qc; split; intros H; try reflexivity; discriminate.
Qed.

Lemma Qc_eqb_neq (a b : Qc) : Qc_eqb a b = false <-> a <> b.
Proof.
  rewrite <- Qc_eqb_eq. destruct (Qc_eqb a b); split; intros H;
    try reflexivity; try discriminate; try (intros H'; discriminate).
  exfalso; apply H; reflexivity.
Qed.

Lemma Q2Qc_inject_Z_nonzero (z : Z) :
  z <> 0%Z -> Q2Qc (inject_Z z) <> Q2Qc 0.
Proof.
  intros Hz H. apply Q2Qc_eq_iff in H. unfold Qeq, inject_Z in H. simpl in H. lia.
Qed.

(** Dividing two integers, the second one not zero, gives their exact
    quotient. *)
Lemma fdiv_of_Z (s n : Z) :
  n <> 0%Z ->
  fdiv (of_Z s) (of_Z n) = Fin (Q2Qc (inject_Z s) / Q2Qc (inject_Z n))%Qc.
Proof.
  intros Hn. unfold fdiv, of_Z.
  destruct (Qc_eqb (Q2Qc (inject_Z n)) (Q2Qc 0)) eqn:E; [|reflexivity].
  apply Qc_eqb_eq in E. exfalso. exact (Q2Qc_inject_Z_nonzero Hn E).
Qed.

Lemma replace_inf_finite (x : float) :
  isna (Metrics.replace_inf x) = false -> isfinite (Metrics.replace_inf x) = true.
Proof. destruct x; simpl; intros H; try discriminate; reflexivity. Qed.

(** The percent change of two finite values, the quotient being exact:
    [cur / prev - 1] is [(cur - prev) / prev]. *)
Lemma pct_finite (cur prev : Qc) :
  (prev = Q2Qc 0 ->
   Metrics.replace_inf (fsub (fdiv (Fin cur) (Fin prev)) one) = NaN)
  /\ (prev <> Q2Qc 0 ->
      Metrics.replace_inf (fsub (fdiv (Fin cur) (Fin prev)) one)
      = Fin ((cur - prev) / prev)%Qc).
Proof.
  split; intros H.
  - subst prev. unfold fdiv.
    replace (Qc_eqb (Q2Qc 0) (Q2Qc 0)) with true by (symmetry; apply Qc_eqb_eq; reflexivity).
    destruct (Qc_eqb cur (Q2Qc 0)); reflexivity.
  - unfold fdiv. apply Qc_eqb_neq in H. rewrite H.
    unfold one, of_Z, fsub, Metrics.replace_inf, isinf.
    apply Qc_eqb_neq in H.
    f_equal. change (Q2Qc (inject_Z 1)) with 1%Qc. field. exact H.
Qed.

(** The percent change from zero is null once the infinities are
    replaced, whatever the current value. *)
Lemma pct_zero_denominator (c : float) :
  isna c = false ->
  Metrics.replace_inf (fsub (fdiv c zero) one) = NaN.
Proof.
  destruct c as [|s|q]; intros H; [discriminate | destruct s; reflexivity |].
  apply (proj1 (pct_finite q (Q2Qc 0))). reflexivity.
Qed.
End FloatFacts.

(** ** Rolling mean and percent change *)

Section WindowFacts.
Import Float Metrics.

Lemma rolling_mean_length (w minp : nat) (xs : list Z) :
  length (rolling_mean w minp xs) = length xs.
Proof. unfold rolling_mean. rewrite length_map, length_seq. reflexivity. Qed.

Lemma rolling_mean_nth (w minp : nat) (xs : list Z) (r : nat) :
  r < length xs ->
  nth r (rolling_mean w minp xs) NaN = window_mean minp (window_at w xs r).
Proof. intros H. unfold rolling_mean. apply nth_map_seq. exact H. Qed.

Lemma window_at_length (A : Type) (w : nat) (xs : list A) (r : nat) :
  r < length xs -> 1 <= w ->
  1 <= length (window_at w xs r) <= w.
Proof.
  intros Hr Hw. unfold window_at. rewrite length_skipn, length_firstn. lia.
Qed.

Lemma window_at_last_n (A : Type) (w : nat) (xs : list A) (r : nat) :
  r < length xs ->
  window_at w xs r = last_n w (firstn (S r) xs).
Proof.
  intros Hr. unfold window_at, last_n. rewrite length_firstn.
  replace (Nat.min (S r) (length xs)) with (S r) by lia. reflexivity.
Qed.

Lemma last_n_map (A B : Type) (f : A -> B) (n : nat) (l : list A) :
  last_n n (map f l) = map f (last_n n l).
Proof. unfold last_n. rewrite length_map, skipn_map. reflexivity. Qed.

(** The mean of a window with at least [MIN_PERIODS] observations. *)
Lemma window_mean_nonempty (win : list Z) :
  1 <= length win -> window_mean MIN_PERIODS win = arithmetic_mean win.
Proof.
  intros H. unfold window_mean, MIN_PERIODS, arithmetic_mean.
  destruct (Nat.ltb_spec (length win) 1); [lia|].
  apply fdiv_of_Z. lia.
Qed.

Lemma ffill_from_notna (last : float) (xs : list float) :
  Forall (fun x => isna x = false) xs -> ffill_from last xs = xs.
Proof.
  revert last. induction xs as [|x xs IH]; intros last H; simpl; [reflexivity|].
  inversion H as [|? ? Hx Hxs]; subst. rewrite Hx. f_equal. apply IH. exact Hxs.
Qed.

Lemma shift_length (p : nat) (xs : list float) : length (shift p xs) = length xs.
Proof.
  unfold shift. rewrite length_firstn, length_app, repeat_length. lia.
Qed.

Lemma shift_nth (p : nat) (xs : list float) (r : nat) :
  r < length xs ->
  nth r (shift p xs) NaN = if r <? p then NaN else nth (r - p) xs NaN.
Proof.
  intros Hr. unfold shift. rewrite nth_firstn.
  destruct (Nat.ltb_spec r (length xs)); [|lia].
  destruct (Nat.ltb_spec r p).
  - rewrite app_nth1 by (rewrite repeat_length; exact H0).
    apply nth_repeat_lt. exact H0.
  - rewrite app_nth2 by (rewrite repeat_length; exact H0).
    rewrite repeat_length. reflexivity.
Qed.

(** The percent change at position [r] of a column without NaN. *)
Lemma pct_change_nth (fm : fill_method) (p : nat) (xs : list float) (r : nat) :
  Forall (fun x => isna x = false) xs ->
  r < length xs ->
  nth r (pct_change fm p xs) NaN
  = fsub (fdiv (nth r xs NaN) (if r <? p then NaN else nth (r - p) xs NaN)) one.
Proof.
  intros Hna Hr. unfold pct_change.
  assert (Hd : match fm with Pad => ffill xs | NoFill => xs end = xs)
    by (destruct fm; [apply ffill_from_notna; exact Hna | reflexivity]).
  rewrite Hd.
  change NaN with ((fun ds : float * float => fsub (fdiv (fst ds) (snd ds)) one) (NaN, NaN)) at 1.
  rewrite map_nth, combine_nth by (symmetry; apply shift_length).
  simpl. rewrite shift_nth by exact Hr. reflexivity.
Qed.

Lemma pct_change_length (fm : fill_method) (p : nat) (xs : list float) :
  length (pct_change fm p xs) = length xs.
Proof.
  unfold pct_change. rewrite length_map, length_combine, shift_length.
  rewrite Nat.min_id. destruct fm; [|reflexivity].
  unfold ffill. generalize NaN. induction xs as [|x xs IH]; intros l; simpl; [reflexivity|].
  destruct (isna x); simpl; rewrite IH; reflexivity.
Qed.
End WindowFacts.

(** ** The metric columns *)

Section MetricsFacts.
Import Float Metrics.
Variable fm : fill_method.

Lemma mk_metric_columns (df : list MergedRecord) (avg tr ac pr : list float) :
  length avg = length df -> length tr = length df ->
  length ac = length df -> length pr = length df ->
  let T := map mk_metric (combine df (combine avg (combine tr (combine ac pr)))) in
  map merged T = df
  /\ map count_7d_avg T = avg
  /\ map trend_score T = tr
  /\ map acceleration_score T = ac
  /\ map price_score T = pr.
Proof.
  revert avg tr ac pr.
  induction df as [|r df IH]; intros [|a avg] [|t tr] [|c ac] [|p pr];
    simpl; intros H1 H2 H3 H4; try discriminate.
  - repeat split.
  - destruct (IH avg tr ac pr) as [E1 [E2 [E3 [E4 E5]]]]; try lia.
    repeat split; f_equal; assumption.
Qed.

Lemma column_lengths (df : list MergedRecord) :
  length (count_7d_avg_column df) = length df
  /\ length (trend_score_column fm df) = length df
  /\ length (acceleration_score_column fm df) = length df
  /\ length (price_score_column fm df) = length df.
Proof.
  unfold count_7d_avg_column, trend_score_column, acceleration_score_column,
    price_score_column.
  rewrite !groupby_transform_length, !length_map. repeat split.
Qed.

(** The columns of the frame [calculate_metrics] returns. *)
Lemma calculate_metrics_columns (df : list MergedRecord) :
  map merged (calculate_metrics fm df) = df
  /\ map count_7d_avg (calculate_metrics fm df) = count_7d_avg_column df
  /\ map trend_score (calculate_metrics fm df) = trend_score_column fm df
  /\ map acceleration_score (calculate_metrics fm df) = acceleration_score_column fm df
  /\ map price_score (calculate_metrics fm df) = price_score_column fm df.
Proof.
  destruct (column_lengths df) as [H1 [H2 [H3 H4]]].
  apply mk_metric_columns; assumption.
Qed.

Lemma nth_error_map_col (A B : Type) (f : A -> B) (l : list A) (i : nat) (x : A) (d : B) :
  nth_error l i = Some x -> nth i (map f l) d = f x.
Proof.
  intros H. apply nth_error_nth. rewrite nth_error_map, H. reflexivity.
Qed.

(** The value of [count_7d_avg] on row [i]. *)
Lemma count_7d_avg_row (df : list MergedRecord) (i : nat) (r : MetricRecord) :
  nth_error (calculate_metrics fm df) i = Some r ->
  nth_error df i = Some (merged r)
  /\ 1 <= length (trailing_window df (asset_id (merged r)) i) <= ROLLING_WINDOW
  /\ count_7d_avg r
     = arithmetic_mean (map count (trailing_window df (asset_id (merged r)) i)).
Proof.
  intros H.
  destruct (calculate_metrics_columns df) as [Em [Ea _]].
  assert (Hm : nth_error df i = Some (merged r)).
  { rewrite <- Em at 1. rewrite nth_error_map, H. reflexivity. }
  assert (Hi : i < length df) by (apply nth_error_Some; rewrite Hm; discriminate).
  assert (Hv : count_7d_avg r = nth i (count_7d_avg_column df) NaN).
  { rewrite <- Ea. symmetry. apply nth_error_map_col. exact H. }
  set (keys := map asset_id df). set (counts := map count df).
  assert (Hk : nth i keys EmptyString = asset_id (merged r))
    by (apply nth_error_map_col; exact Hm).
  assert (Hlk : length counts = length keys) by (unfold counts, keys; rewrite !length_map; reflexivity).
  assert (Hik : i < length keys) by (unfold keys; rewrite length_map; exact Hi).
  pose proof (@rank_lt_group _ keys counts i Hlk Hik) as Hr.
  pose proof (@firstn_rank_group _ keys counts i Hlk Hik) as Hf.
  rewrite Hk in Hr, Hf.
  set (a := asset_id (merged r)) in *.
  set (G := group_values a keys counts) in *.
  assert (Hw : window_at ROLLING_WINDOW G (rank_in_group keys i)
               = map count (trailing_window df a i)).
  { rewrite window_at_last_n by exact Hr. rewrite Hf.
    unfold keys, counts. rewrite !firstn_map, group_values_map, last_n_map.
    reflexivity. }
  assert (Hlen : 1 <= length (map count (trailing_window df a i)) <= ROLLING_WINDOW).
  { rewrite <- Hw. apply window_at_length; [exact Hr | unfold ROLLING_WINDOW; lia]. }
  split; [exact Hm|]. split; [rewrite length_map in Hlen; exact Hlen|].
  rewrite Hv. unfold count_7d_avg_column. fold keys counts.
  rewrite groupby_transform_nth by exact Hik. rewrite Hk. fold a G.
  rewrite rolling_mean_nth by exact Hr. rewrite Hw.
  apply window_mean_nonempty. apply Hlen.
Qed.

Lemma arithmetic_mean_single (c : Z) : arithmetic_mean [c] = of_Z c.
Proof.
  unfold arithmetic_mean, of_Z. simpl. rewrite Z.add_0_r. f_equal.
  change (Q2Qc (inject_Z 1)) with 1%Qc. field. discriminate.
Qed.

Lemma last_n_short (A : Type) (n : nat) (l : list A) :
  length l <= n -> last_n n l = l.
Proof.
  intros H. unfold last_n. replace (length l - n) with 0 by lia. reflexivity.
Qed.

Lemma filter_firstn_length (A : Type) (p : A -> bool) (n : nat) (l : list A) :
  length (filter p (firstn n l)) <= length (filter p l).
Proof.
  rewrite <- (firstn_skipn n l) at 2. rewrite filter_app, length_app. lia.
Qed.

(** C7.  For every table and every row [i] of it, [count_7d_avg] is the
    arithmetic mean of [count] over the trailing window of the row: the
    row itself and the at most six rows of the same asset right before
    it in the table (between one and seven rows).  On the only row of an
    asset it is that row's own count. *)
Theorem count_7d_avg_is_trailing_mean (df : list MergedRecord) (i : nat) (r : MetricRecord) :
  nth_error (calculate_metrics fm df) i = Some r ->
  nth_error df i = Some (merged r)
  /\ 1 <= length (trailing_window df (asset_id (merged r)) i) <= ROLLING_WINDOW
  /\ count_7d_avg r
     = arithmetic_mean (map count (trailing_window df (asset_id (merged r)) i))
  /\ (length (asset_rows (asset_id (merged r)) df) = 1 ->
      count_7d_avg r = of_Z (count (merged r))).
Proof.
  intros H. destruct (@count_7d_avg_row df i r H) as [Hm [Hlen Hv]].
  split; [exact Hm|]. split; [exact Hlen|]. split; [exact Hv|].
  intros Hone. rewrite Hv. clear Hv.
  set (a := asset_id (merged r)) in *.
  assert (Hi : i < length df) by (apply nth_error_Some; rewrite Hm; discriminate).
  assert (Hrows : asset_rows a (firstn (S i) df) = [merged r]).
  { pose proof (filter_firstn_length (fun x => String.eqb (asset_id x) a) (S i) df) as Hle.
    fold (asset_rows a df) in Hle. fold (asset_rows a (firstn (S i) df)) in Hle.
    rewrite (@firstn_S_nth _ df i (merged r) Hi) in *.
    rewrite (nth_error_nth _ _ _ Hm) in *.
    unfold asset_rows in *. rewrite filter_app in *. simpl in *.
    unfold a in *. rewrite String.eqb_refl in *.
    rewrite length_app in Hle. simpl in Hle.
    destruct (filter _ (firstn i df)) as [|x l]; [reflexivity | simpl in Hle; lia]. }
  unfold trailing_window. rewrite Hrows.
  rewrite last_n_short by (unfold ROLLING_WINDOW; simpl; lia).
  apply arithmetic_mean_single.
Qed.

Lemma rolling_mean_nth_finite (xs : list Z) (r : nat) :
  r < length xs ->
  exists q, nth r (rolling_mean ROLLING_WINDOW MIN_PERIODS xs) NaN = Fin q.
Proof.
  intros H. rewrite rolling_mean_nth by exact H.
  rewrite window_mean_nonempty
    by (apply window_at_length; [exact H | unfold ROLLING_WINDOW; lia]).
  unfold arithmetic_mean. eexists. reflexivity.
Qed.

Lemma rolling_mean_notna (xs : list Z) :
  Forall (fun x => isna x = false) (rolling_mean ROLLING_WINDOW MIN_PERIODS xs).
Proof.
  apply Forall_forall. intros x Hx.
  apply (In_nth _ _ NaN) in Hx. destruct Hx as [r [Hr <-]].
  rewrite rolling_mean_length in Hr.
  destruct (rolling_mean_nth_finite xs Hr) as [q ->]. reflexivity.
Qed.

(** The [count_7d_avg] values of one asset are the rolling mean of its
    counts. *)
Lemma count_7d_avg_series (df : list MergedRecord) (a : string) :
  map count_7d_avg (asset_series a (calculate_metrics fm df))
  = rolling_mean ROLLING_WINDOW MIN_PERIODS
      (group_values a (map asset_id df) (map count df)).
Proof.
  destruct (calculate_metrics_columns df) as [Em [Ea _]].
  unfold asset_series.
  rewrite <- (group_values_map (fun m => asset_id (merged m)) count_7d_avg a).
  rewrite Ea, <- (map_map merged asset_id), Em.
  unfold count_7d_avg_column. apply group_values_transform.
  - rewrite !length_map. reflexivity.
  - apply rolling_mean_length.
Qed.

(** The [trend_score] values of one asset are the percent change, seven
    rows back, of its [count_7d_avg] values. *)
Lemma trend_score_series (df : list MergedRecord) (a : string) :
  map trend_score (asset_series a (calculate_metrics fm df))
  = pct_change fm ROLLING_WINDOW
      (map count_7d_avg (asset_series a (calculate_metrics fm df))).
Proof.
  rewrite count_7d_avg_series.
  destruct (calculate_metrics_columns df) as [Em [Ea [Et _]]].
  unfold asset_series.
  rewrite <- (group_values_map (fun m => asset_id (merged m)) trend_score a).
  rewrite Et, <- (map_map merged asset_id), Em.
  unfold trend_score_column.
  rewrite group_values_transform.
  - f_equal. unfold count_7d_avg_column. apply group_values_transform.
    + rewrite !length_map. reflexivity.
    + apply rolling_mean_length.
  - destruct (column_lengths df) as [H _]. rewrite H, length_map. reflexivity.
  - apply pct_change_length.
Qed.

Lemma asset_series_replace (a : string) (T : list MetricRecord) :
  asset_series a (replace_infinities T) = replace_infinities (asset_series a T).
Proof.
  unfold asset_series, replace_infinities.
  induction T as [|m T IH]; simpl; [reflexivity|].
  destruct (String.eqb (asset_id (merged m)) a); simpl; rewrite IH; reflexivity.
Qed.

End MetricsFacts.

Lemma count_7d_avg_is_trailing_mean_witness :
  (map Metrics.count (Metrics.trailing_window Samples.table "A" 9)
   = [3; 4; 5; 6; 7; 9; 20]%Z
   /\ Metrics.count_7d_avg Samples.ninth_of_A
      = Metrics.arithmetic_mean
          (map Metrics.count
             (Metrics.trailing_window Samples.table
                (Metrics.asset_id (Metrics.merged Samples.ninth_of_A)) 9)))
  /\ (map Metrics.count (Metrics.trailing_window Samples.table "A" 3)
      = [1; 2; 3]%Z
      /\ Metrics.count_7d_avg Samples.third_of_A
         = Metrics.arithmetic_mean
             (map Metrics.count
                (Metrics.trailing_window Samples.table
                   (Metrics.asset_id (Metrics.merged Samples.third_of_A)) 3)))
  /\ Metrics.count_7d_avg Samples.only_of_B
     = Float.of_Z (Metrics.count (Metrics.merged Samples.only_of_B)).
Proof.
  assert (H9 : nth_error (Metrics.calculate_metrics Metrics.Pad Samples.table) 9
               = Some Samples.ninth_of_A) by reflexivity.
  assert (H3 : nth_error (Metrics.calculate_metrics Metrics.Pad Samples.table) 3
               = Some Samples.third_of_A) by reflexivity.
  assert (H1 : nth_error (Metrics.calculate_metrics Metrics.Pad Samples.table) 1
               = Some Samples.only_of_B) by reflexivity.
  split; [|split].
  - split; [reflexivity|].
    exact (proj1 (proj2 (proj2 (@count_7d_avg_is_trailing_mean Metrics.Pad
                                  Samples.table 9 Samples.ninth_of_A H9)))).
  - split; [reflexivity|].
    exact (proj1 (proj2 (proj2 (@count_7d_avg_is_trailing_mean Metrics.Pad
                                  Samples.table 3 Samples.third_of_A H3)))).
  - apply (proj2 (proj2 (proj2 (@count_7d_avg_is_trailing_mean Metrics.Pad
                                  Samples.table 1 Samples.only_of_B H1)))).
    reflexivity.
Defined.


(** ** The trend in binary64 *)

Section Binary64Facts.
Import Binary64.

Lemma shift_nth_binary64 (p : nat) (xs : list PrimFloat.float) (r : nat) :
  r < length xs ->
  nth r (shift p xs) PrimFloat.nan
  = if r <? p then PrimFloat.nan else nth (r - p) xs PrimFloat.nan.
Proof.
  intros Hr. unfold shift.
  rewrite nth_firstn. destruct (Nat.ltb_spec r (length xs)) as [_|]; [|lia].
  destruct (Nat.ltb_spec r p) as [Hlt|Hge].
  - rewrite app_nth1 by (rewrite repeat_length; exact Hlt).
    apply nth_repeat.
  - rewrite app_nth2 by (rewrite repeat_length; exact Hge).
    rewrite repeat_length. reflexivity.
Qed.

(** In binary64 as well the trend of the eighth and later rows of an
    asset is [current / previous - 1], each operation rounded. *)
Lemma trend_score_binary64 (counts : list Z) (r : nat) :
  Metrics.ROLLING_WINDOW <= r < length counts ->
  nth r (trend_score counts) PrimFloat.nan
  = PrimFloat.sub
      (PrimFloat.div (nth r (count_7d_avg counts) PrimFloat.nan)
                     (nth (r - Metrics.ROLLING_WINDOW) (count_7d_avg counts)
                          PrimFloat.nan))
      (of_count 1).
Proof.
  intros [Hge Hlt]. unfold trend_score, pct_change.
  set (avg := count_7d_avg counts).
  assert (Hlen : length avg = length counts)
    by (unfold avg, count_7d_avg, rolling_mean; rewrite length_map, length_seq; reflexivity).
  assert (Hsh : length (shift Metrics.ROLLING_WINDOW avg) = length avg).
  { unfold shift. rewrite length_firstn, length_app, repeat_length. lia. }
  set (f := fun ds : PrimFloat.float * PrimFloat.float =>
              PrimFloat.sub (PrimFloat.div (fst ds) (snd ds)) (of_count 1)).
  change PrimFloat.nan with (f (PrimFloat.nan, PrimFloat.nan)) at 1.
  rewrite map_nth, combine_nth by (symmetry; exact Hsh).
  unfold f. cbn [fst snd].
  rewrite shift_nth_binary64 by lia.
  destruct (Nat.ltb_spec r Metrics.ROLLING_WINDOW); [lia | reflexivity].
Qed.
End Binary64Facts.


(** ** The final table *)

Section CleanFacts.
Import Float Metrics.
Variable fm : fill_method.

Lemma In_clean_data (T : list MetricRecord) (r : ScoredRecord) :
  In r (clean_data T) <->
  (exists m, In m (dropna (replace_infinities T)) /\ r = add_momentum m)
  /\ fgt (momentum_score r) zero = true
  /\ fgt (acceleration_score (metrics r)) zero = true.
Proof.
  unfold clean_data. rewrite sort_by_In, !filter_In, in_map_iff.
  split.
  - intros [[[m [Hm Hin]] H1] H2]. split; [|split; assumption].
    exists m. split; [exact Hin | symmetry; exact Hm].
  - intros [[m [Hin Hm]] [H1 H2]]. split; [split|]; try assumption.
    exists m. split; [symmetry; exact Hm | exact Hin].
Qed.

Lemma count_7d_avg_finite (df : list MergedRecord) (m : MetricRecord) :
  In m (calculate_metrics fm df) -> isfinite (count_7d_avg m) = true.
Proof.
  intros H. apply In_nth_error in H. destruct H as [i Hi].
  destruct (@count_7d_avg_row fm df i m Hi) as [_ [_ ->]]. reflexivity.
Qed.

(** C2.  Every row of the final table has a non-null [close] and finite
    [count_7d_avg], [trend_score], [acceleration_score] and
    [price_score]: none of them is NaN or an infinity, so a percent
    change over a zero never reaches the final table. *)
Theorem final_rows_are_finite (df : list MergedRecord) (r : ScoredRecord) :
  In r (clean_data (calculate_metrics fm df)) ->
  isna (close (merged (metrics r))) = false
  /\ isfinite (count_7d_avg (metrics r)) = true
  /\ isfinite (trend_score (metrics r)) = true
  /\ isfinite (acceleration_score (metrics r)) = true
  /\ isfinite (price_score (metrics r)) = true.
Proof.
  intros H. apply In_clean_data in H. destruct H as [[m [Hin ->]] _].
  unfold dropna in Hin. apply filter_In in Hin. destruct Hin as [Hin Hna].
  unfold replace_infinities in Hin. apply in_map_iff in Hin.
  destruct Hin as [m0 [<- Hin0]].
  unfold notna_subset in Hna. rewrite !andb_true_iff, !negb_true_iff in Hna.
  destruct Hna as [[[Hc Ht] Ha] Hp].
  cbn [metrics add_momentum] in *. unfold replace_row in *.
  cbn [merged count_7d_avg trend_score acceleration_score price_score] in *.
  split; [exact Hc|]. split; [apply (count_7d_avg_finite df); exact Hin0|].
  split; [|split]; apply replace_inf_finite; assumption.
Qed.

(** C9.  A row is in the final table exactly when it is a row that
    passed the null filter, with its momentum score attached, and both
    its momentum score and its acceleration score are greater than zero;
    the momentum score of a final row is the product trend * acceleration
    * price.  The two conditions are separate filters: a row with
    negative trend and acceleration and a rising price has a positive
    momentum score and is left out. *)
Theorem momentum_filters (T : list MetricRecord) (r : ScoredRecord) :
  (In r (clean_data T) <->
   (exists m, In m (dropna (replace_infinities T)) /\ r = add_momentum m)
   /\ fgt (momentum_score r) zero = true
   /\ fgt (acceleration_score (metrics r)) zero = true)
  /\ (In r (clean_data T) ->
      momentum_score r
      = fmul (fmul (trend_score (metrics r)) (acceleration_score (metrics r)))
             (price_score (metrics r)))
  /\ (fgt (momentum_score (add_momentum Samples.falling)) zero = true
      /\ In Samples.falling (dropna (replace_infinities [Samples.falling]))
      /\ clean_data [Samples.falling] = []).
Proof.
  split; [apply In_clean_data|]. split.
  - intros H. apply In_clean_data in H. destruct H as [[m [_ ->]] _]. reflexivity.
  - split; [reflexivity|]. split; [left; reflexivity | reflexivity].
Qed.
End CleanFacts.

Lemma final_rows_are_finite_witness :
  Float.isna (Metrics.close (Metrics.merged (Metrics.metrics Samples.top_row))) = false
  /\ Float.isfinite (Metrics.count_7d_avg (Metrics.metrics Samples.top_row)) = true
  /\ Float.isfinite (Metrics.trend_score (Metrics.metrics Samples.top_row)) = true
  /\ Float.isfinite (Metrics.acceleration_score (Metrics.metrics Samples.top_row)) = true
  /\ Float.isfinite (Metrics.price_score (Metrics.metrics Samples.top_row)) = true.
Proof.
  assert (H : In Samples.top_row
                (Metrics.clean_data
                   (Metrics.calculate_metrics Metrics.Pad Samples.table)))
    by (vm_compute; left; reflexivity).
  exact (@final_rows_are_finite Metrics.Pad Samples.table Samples.top_row H).
Defined.

Lemma momentum_filters_witness :
  Metrics.momentum_score Samples.top_row
  = Float.fmul
      (Float.fmul (Metrics.trend_score (Metrics.metrics Samples.top_row))
                  (Metrics.acceleration_score (Metrics.metrics Samples.top_row)))
      (Metrics.price_score (Metrics.metrics Samples.top_row)).
Proof.
  assert (H : In Samples.top_row
                (Metrics.clean_data
                   (Metrics.calculate_metrics Metrics.Pad Samples.table)))
    by (vm_compute; left; reflexivity).
  destruct (@momentum_filters (Metrics.calculate_metrics Metrics.Pad Samples.table)
              Samples.top_row) as [_ [Hprod _]].
  exact (Hprod H).
Defined.

(** ** The rate-limited batch *)

Section SchedulerFacts.
Import Scheduler.

Lemma set_nth_length (A : Type) (i : nat) (x : A) (l : list A) :
  length (set_nth i x l) = length l.
Proof.
  revert i. induction l as [|y l IH]; intros [|i]; simpl; auto.
Qed.

Lemma nth_error_set_nth_eq (A : Type) (i : nat) (x : A) (l : list A) :
  i < length l -> nth_error (set_nth i x l) i = Some x.
Proof.
  revert i. induction l as [|y l IH]; intros [|i] H; simpl in *; try lia.
  - reflexivity.
  - apply IH. lia.
Qed.

Lemma nth_error_set_nth_ne (A : Type) (i j : nat) (x : A) (l : list A) :
  i <> j -> nth_error (set_nth i x l) j = nth_error l j.
Proof.
  revert i j. induction l as [|y l IH]; intros [|i] [|j] H; simpl; try reflexivity.
  - lia.
  - apply IH. lia.
Qed.

Lemma Forall_set_nth (A : Type) (P : A -> Prop) (i : nat) (x : A) (l : list A) :
  Forall P l -> P x -> Forall P (set_nth i x l).
Proof.
  intros Hl Hx. revert i. induction Hl as [|y l Hy Hl IH]; intros [|i]; simpl;
    constructor; auto.
Qed.

(** Replacing the phase of one task moves a weighted total by the
    difference of the two weights. *)
Lemma total_set_nth (w : phase -> nat) (i : nat) (p q : phase) (l : list phase) :
  nth_error l i = Some p ->
  total w (set_nth i q l) + w p = total w l + w q.
Proof.
  unfold total. revert i. induction l as [|y l IH]; intros [|i] H; simpl in *;
    try discriminate.
  - injection H as ->. lia.
  - specialize (IH i H). lia.
Qed.

Lemma total_le (w1 w2 : phase -> nat) (l : list phase) :
  (forall p, w1 p <= w2 p) -> total w1 l <= total w2 l.
Proof.
  intros H. unfold total. induction l as [|y l IH]; simpl; [lia|].
  specialize (H y). lia.
Qed.

Lemma filter_length_total (f : phase -> bool) (l : list phase) :
  length (filter f l) = total (fun p => bit (f p)) l.
Proof.
  unfold total. induction l as [|y l IH]; simpl; [reflexivity|].
  destruct (f y); simpl; rewrite IH; reflexivity.
Qed.

Lemma phase_ok_later (t1 t2 : Q) (p : phase) :
  (t1 <= t2)%Q -> phase_ok t1 p -> phase_ok t2 p.
Proof.
  intros H. destruct p as [|a|a t|a t]; cbn [phase_ok]; intros Hp.
  - exact I.
  - lra.
  - split; [apply Hp | lra].
  - split; [apply Hp | lra].
Qed.

Lemma init_invariant (N n : nat) : invariant N (init N n).
Proof.
  constructor; simpl.
  - unfold slots_held, total. simpl.
    induction n as [|n IH]; simpl; lia.
  - induction n as [|n IH]; simpl; constructor; [exact I | exact IH].
  - constructor.
  - intros i. split; [intros []|]. intros [p [Hp Hs]].
    apply nth_error_In in Hp. apply repeat_spec in Hp. subst p. discriminate.
Qed.

Lemma nth_error_lt (A : Type) (l : list A) (i : nat) (x : A) :
  nth_error l i = Some x -> i < length l.
Proof. intros H. apply nth_error_Some. rewrite H. discriminate. Qed.

Lemma sent_set_nth_same (l : list phase) (reqs : list nat) (i : nat) (p q : phase) :
  nth_error l i = Some p ->
  has_sent q = has_sent p ->
  (forall j, In j reqs <-> exists p', nth_error l j = Some p' /\ has_sent p' = true) ->
  forall j, In j reqs <->
            exists p', nth_error (set_nth i q l) j = Some p' /\ has_sent p' = true.
Proof.
  intros Hp Hq H j. rewrite (H j).
  destruct (Nat.eq_dec i j) as [<-|Hne].
  - rewrite nth_error_set_nth_eq by (eapply nth_error_lt; exact Hp). rewrite Hp.
    split; intros [p' [E Hs]]; injection E as <-; eexists; split;
      try reflexivity; congruence.
  - rewrite nth_error_set_nth_ne by exact Hne. reflexivity.
Qed.

Lemma sent_set_nth_new (l : list phase) (reqs : list nat) (i : nat) (p q : phase) :
  nth_error l i = Some p ->
  has_sent q = true ->
  (forall j, In j reqs <-> exists p', nth_error l j = Some p' /\ has_sent p' = true) ->
  forall j, In j (i :: reqs) <->
            exists p', nth_error (set_nth i q l) j = Some p' /\ has_sent p' = true.
Proof.
  intros Hp Hq H j. simpl. rewrite (H j).
  destruct (Nat.eq_dec i j) as [<-|Hne].
  - rewrite nth_error_set_nth_eq by (eapply nth_error_lt; exact Hp).
    split; [|intros _; left; reflexivity].
    intros _. exists q. split; [reflexivity | exact Hq].
  - rewrite nth_error_set_nth_ne by exact Hne.
    split; [intros [E|E]; [contradiction | exact E] | intros E; right; exact E].
Qed.

Lemma nth_error_phase_ok (clock : Q) (l : list phase) (i : nat) (p : phase) :
  Forall (phase_ok clock) l -> nth_error l i = Some p -> phase_ok clock p.
Proof.
  intros H Hp. rewrite Forall_forall in H. apply H.
  eapply nth_error_In. exact Hp.
Qed.

(** Every step keeps the invariant. *)
Lemma step_invariant (N : nat) (s s' : state) (e : event) :
  invariant N s -> step s e = Some s' -> invariant N s'.
Proof.
  intros [Hslots Hph Hnd Hsent] Hstep.
  destruct e as [d|i|i|i]; simpl in Hstep.
  - destruct (Qle_bool 0 d) eqn:Hd; [|discriminate].
    apply Qle_bool_iff in Hd. injection Hstep as <-.
    constructor; simpl; try assumption.
    eapply Forall_impl; [|exact Hph].
    intros p. apply phase_ok_later. lra.
  - destruct (nth_error (tasks s) i) as [[|a|a t|a t]|] eqn:Hp; try discriminate.
    destruct (free s) as [|f] eqn:Hf; [discriminate|].
    injection Hstep as <-.
    pose proof (@total_set_nth (fun p => bit (holds_slot p)) i Waiting
                  (Sleeping (now s)) (tasks s) Hp) as Ht.
    constructor; simpl.
    + unfold slots_held in *. simpl in *. lia.
    + apply Forall_set_nth; [exact Hph|]. cbn [phase_ok]. lra.
    + exact Hnd.
    + eapply sent_set_nth_same; [exact Hp | reflexivity | exact Hsent].
  - destruct (nth_error (tasks s) i) as [[|a|a t|a t]|] eqn:Hp; try discriminate.
    destruct (Qle_bool (a + SLEEP) (now s)) eqn:Hw; [|discriminate].
    apply Qle_bool_iff in Hw. injection Hstep as <-.
    pose proof (@total_set_nth (fun p => bit (holds_slot p)) i (Sleeping a)
                  (InFlight a (now s)) (tasks s) Hp) as Ht.
    constructor; simpl.
    + unfold slots_held in *. simpl in *. lia.
    + apply Forall_set_nth; [exact Hph|]. cbn [phase_ok]. split; [exact Hw | lra].
    + constructor; [|exact Hnd]. intros Hin. apply Hsent in Hin.
      destruct Hin as [p' [E Hs]]. rewrite Hp in E. injection E as <-. discriminate.
    + eapply sent_set_nth_new; [exact Hp | reflexivity | exact Hsent].
  - destruct (nth_error (tasks s) i) as [[|a|a t|a t]|] eqn:Hp; try discriminate.
    injection Hstep as <-.
    pose proof (@total_set_nth (fun p => bit (holds_slot p)) i (InFlight a t)
                  (Done a t) (tasks s) Hp) as Ht.
    constructor; simpl.
    + unfold slots_held in *. simpl in *. lia.
    + apply Forall_set_nth; [exact Hph|].
      exact (@nth_error_phase_ok (now s) (tasks s) i (InFlight a t) Hph Hp).
    + exact Hnd.
    + eapply sent_set_nth_same; [exact Hp | reflexivity | exact Hsent].
Qed.

Lemma run_invariant (N : nat) (es : list event) (s s' : state) :
  invariant N s -> run s es = Some s' -> invariant N s'.
Proof.
  revert s. induction es as [|e es IH]; simpl; intros s Hinv H.
  - injection H as <-. exact Hinv.
  - destruct (step s e) as [s1|] eqn:Hs; [|discriminate].
    eapply IH; [eapply step_invariant; eassumption | exact H].
Qed.

Lemma run_app (es1 es2 : list event) (s s1 : state) :
  run s es1 = Some s1 -> run s (es1 ++ es2) = run s1 es2.
Proof.
  revert s. induction es1 as [|e es1 IH]; simpl; intros s H.
  - injection H as <-. reflexivity.
  - destruct (step s e) as [s'|]; [apply IH; exact H | discriminate].
Qed.

Lemma step_length (s s' : state) (e : event) :
  step s e = Some s' -> length (tasks s') = length (tasks s).
Proof.
  destruct e as [d|i|i|i]; simpl.
  - destruct (Qle_bool 0 d); [|discriminate]. intros H; injection H as <-. reflexivity.
  - destruct (nth_error (tasks s) i) as [[|a|a t|a t]|]; try discriminate.
    destruct (free s); [discriminate|]. intros H; injection H as <-.
    apply set_nth_length.
  - destruct (nth_error (tasks s) i) as [[|a|a t|a t]|]; try discriminate.
    destruct (Qle_bool _ _); [|discriminate]. intros H; injection H as <-.
    apply set_nth_length.
  - destruct (nth_error (tasks s) i) as [[|a|a t|a t]|]; try discriminate.
    intros H; injection H as <-. apply set_nth_length.
Qed.

Lemma run_length (es : list event) (s s' : state) :
  run s es = Some s' -> length (tasks s') = length (tasks s).
Proof.
  revert s. induction es as [|e es IH]; simpl; intros s H.
  - injection H as <-. reflexivity.
  - destruct (step s e) as [s1|] eqn:Hs; [|discriminate].
    rewrite (IH s1 H). eapply step_length. exact Hs.
Qed.

Lemma find_phase (f : phase -> bool) (l : list phase) :
  (exists i p, nth_error l i = Some p /\ f p = true)
  \/ Forall (fun p => f p = false) l.
Proof.
  induction l as [|y l [[i [p [Hp Hf]]]|IH]].
  - right. constructor.
  - left. exists (S i), p. split; assumption.
  - destruct (f y) eqn:Hy.
    + left. exists 0, y. split; [reflexivity | exact Hy].
    + right. constructor; assumption.
Qed.

Lemma total_zero (w : phase -> nat) (l : list phase) :
  Forall (fun p => w p = 0) l -> total w l = 0.
Proof.
  unfold total. induction 1 as [|y l Hy Hl IH]; simpl; [reflexivity | lia].
Qed.

(** Every event other than a tick takes one of the steps left. *)
Lemma step_remaining (s s' : state) (e : event) :
  step s e = Some s' -> remaining s' + bit (is_work e) = remaining s.
Proof.
  unfold remaining. destruct e as [d|i|i|i]; simpl.
  - destruct (Qle_bool 0 d); [|discriminate]. intros H; injection H as <-.
    simpl. lia.
  - destruct (nth_error (tasks s) i) as [[|a|a t|a t]|] eqn:Hp; try discriminate.
    destruct (free s); [discriminate|]. intros H; injection H as <-. simpl.
    pose proof (@total_set_nth steps_left i Waiting (Sleeping (now s)) (tasks s) Hp).
    simpl in *. lia.
  - destruct (nth_error (tasks s) i) as [[|a|a t|a t]|] eqn:Hp; try discriminate.
    destruct (Qle_bool _ _); [|discriminate]. intros H; injection H as <-. simpl.
    pose proof (@total_set_nth steps_left i (Sleeping a) (InFlight a (now s)) (tasks s) Hp).
    simpl in *. lia.
  - destruct (nth_error (tasks s) i) as [[|a|a t|a t]|] eqn:Hp; try discriminate.
    intros H; injection H as <-. simpl.
    pose proof (@total_set_nth steps_left i (InFlight a t) (Done a t) (tasks s) Hp).
    simpl in *. lia.
Qed.

Lemma run_remaining (es : list event) (s s' : state) :
  run s es = Some s' ->
  remaining s' + length (filter is_work es) = remaining s.
Proof.
  revert s. induction es as [|e es IH]; simpl; intros s H.
  - injection H as <-. lia.
  - destruct (step s e) as [s1|] eqn:Hs; [|discriminate].
    specialize (IH s1 H). apply step_remaining in Hs.
    destruct (is_work e); simpl in *; lia.
Qed.

Lemma init_remaining (N n : nat) : remaining (init N n) = 3 * n.
Proof.
  unfold remaining, total. simpl. induction n as [|n IH]; simpl; lia.
Qed.

Lemma all_done_remaining (s : state) :
  all_done s = true <-> remaining s = 0.
Proof.
  unfold all_done, remaining, total.
  induction (tasks s) as [|p l IH]; simpl; [tauto|].
  rewrite andb_true_iff, IH. destruct p; simpl; split; intros; try lia;
    try (split; [reflexivity | lia]); try (destruct H; discriminate).
Qed.

(** With at least one slot, a batch that is not finished can always take
    a step that brings a task forward. *)
Lemma progress (N : nat) (s : state) :
  invariant N s -> 1 <= N -> all_done s = false ->
  exists es s', run s es = Some s' /\ remaining s' < remaining s.
Proof.
  intros [Hslots Hph Hnd Hsent] HN Hnot.
  destruct (find_phase is_in_flight (tasks s)) as [[i [p [Hp Hf]]]|Hno1].
  { destruct p as [|a|a t|a t]; try discriminate.
    exists [Complete i]. simpl. rewrite Hp. eexists. split; [reflexivity|].
    unfold remaining. simpl.
    pose proof (@total_set_nth steps_left i (InFlight a t) (Done a t) (tasks s) Hp).
    simpl in *. lia. }
  destruct (find_phase is_sleeping (tasks s)) as [[i [p [Hp Hf]]]|Hno2].
  { destruct p as [|a|a t|a t]; try discriminate.
    pose proof (@nth_error_phase_ok (now s) (tasks s) i (Sleeping a) Hph Hp) as Ha.
    cbn [phase_ok] in Ha.
    exists [Tick 1; Wake i]. cbn [run step]. 
    replace (Qle_bool 0 1) with true by reflexivity.
    cbn [tasks now free requests]. rewrite Hp.
    replace (Qle_bool (a + SLEEP) (now s + 1)) with true
      by (symmetry; apply Qle_bool_iff; unfold SLEEP; lra).
    eexists. split; [reflexivity|].
    unfold remaining. cbn [tasks].
    pose proof (@total_set_nth steps_left i (Sleeping a) (InFlight a (now s + 1))
                  (tasks s) Hp).
    simpl in *. lia. }
  destruct (find_phase is_waiting (tasks s)) as [[i [p [Hp Hf]]]|Hno3].
  { destruct p as [|a|a t|a t]; try discriminate.
    assert (Hheld : slots_held s = 0).
    { unfold slots_held. apply total_zero.
      rewrite Forall_forall in *. intros p Hin.
      specialize (Hno1 p Hin). specialize (Hno2 p Hin).
      destruct p; simpl in *; try reflexivity; discriminate. }
    exists [Acquire i]. simpl. rewrite Hp.
    destruct (free s) as [|f] eqn:Hfree; [lia|].
    eexists. split; [reflexivity|].
    unfold remaining. simpl.
    pose proof (@total_set_nth steps_left i Waiting (Sleeping (now s)) (tasks s) Hp).
    simpl in *. lia. }
  exfalso. unfold all_done in Hnot.
  assert (Hall : forallb is_done (tasks s) = true).
  { apply forallb_forall. intros p Hin. rewrite Forall_forall in *.
    specialize (Hno1 p Hin). specialize (Hno2 p Hin). specialize (Hno3 p Hin).
    destruct p; simpl in *; try reflexivity; discriminate. }
  congruence.
Qed.

(** With at least one slot, every state of a batch can be run on until
    every task is done. *)
Lemma completion (N : nat) (k : nat) (s : state) :
  remaining s <= k -> invariant N s -> 1 <= N ->
  exists es s', run s es = Some s' /\ all_done s' = true.
Proof.
  revert s. induction k as [|k IH]; intros s Hk Hinv HN;
    destruct (all_done s) eqn:Hd;
    try (exists [], s; split; [reflexivity | exact Hd]);
    destruct (@progress N s Hinv HN Hd) as [es1 [s1 [Hr1 Hlt]]].
  - lia.
  - destruct (IH s1) as [es2 [s2 [Hr2 Hd2]]]; [lia | | exact HN |].
    + eapply run_invariant; eassumption.
    + exists (es1 ++ es2), s2. split; [|exact Hd2].
      rewrite (@run_app es1 es2 s s1 Hr1). exact Hr2.
Qed.

(** C10.  Every state a batch of [n] descriptors and [N >= 1] slots can
    reach keeps one task per descriptor, has at most [N] requests in
    flight, has issued each request no earlier than [SLEEP] (one time
    unit) after its task took a slot, and has issued no request twice.
    All descriptors get executed: the events other than ticks are counted
    by the steps the tasks have left (three per task at the start, none
    exactly when every task is done), and every reachable state can be
    run on until every task is done. *)
Theorem bounded_concurrency (N n : nat) (es : list event) (s : state) :
  1 <= N ->
  run (init N n) es = Some s ->
  length (tasks s) = n
  /\ in_flight s <= N
  /\ (forall i p a t,
        nth_error (tasks s) i = Some p ->
        request_times p = Some (a, t) ->
        (a + SLEEP <= t)%Q)
  /\ NoDup (requests s)
  /\ remaining s + length (filter is_work es) = 3 * n
  /\ (all_done s = true <-> remaining s = 0)
  /\ (exists es' s', run s es' = Some s' /\ all_done s' = true).
Proof.
  intros HN Hrun.
  pose proof (@run_invariant N es (init N n) s (init_invariant N n) Hrun) as Hinv.
  split; [|split; [|split; [|split; [|split; [|split]]]]].
  - rewrite (@run_length es (init N n) s Hrun). simpl. apply repeat_length.
  - unfold in_flight. rewrite filter_length_total.
    destruct Hinv as [Hslots _ _ _]. unfold slots_held in Hslots.
    assert (total (fun p => bit (is_in_flight p)) (tasks s)
            <= total (fun p => bit (holds_slot p)) (tasks s)).
    { apply total_le. intros p. destruct p; simpl; lia. }
    lia.
  - intros i p a t Hp Ht. destruct Hinv as [_ Hph _ _].
    pose proof (@nth_error_phase_ok (now s) (tasks s) i p Hph Hp) as Hok.
    destruct p as [|a'|a' t'|a' t']; simpl in Ht; try discriminate;
      injection Ht as -> ->; apply Hok.
  - apply Hinv.
  - rewrite (@run_remaining es (init N n) s Hrun). apply init_remaining.
  - apply all_done_remaining.
  - eapply completion; [apply Nat.le_refl | exact Hinv | exact HN].
Qed.
End SchedulerFacts.

Lemma bounded_concurrency_witness :
  Scheduler.in_flight Samples.batch_state <= 1.
Proof.
  assert (H : Scheduler.run (Scheduler.init 1 2) Samples.batch_events
              = Some Samples.batch_state) by reflexivity.
  destruct (@bounded_concurrency 1 2 Samples.batch_events Samples.batch_state
              (Nat.le_refl 1) H) as [_ [Hle _]].
  exact Hle.
Defined.

(** ** Fail-fast batches *)

Section FailFastFacts.
Import Py FetchData.
Variable news_api : NewsParams -> http NewsItem.
Variable market_api : string -> MarketParams -> http Candle.
Variable finish_news : nat -> nat.
Variable finish_market : nat -> nat.

(** C5.  Fail-fast batches: with at least one slot, if the fetch of one
    descriptor of a batch does not return a frame (transport failure, body
    that is not JSON, envelope without ["data"]), the whole batch raises
    the exception of one of its descriptors and returns no frame, for the
    news pages and for the market series alike; [main] then raises as
    well, so nothing of the batch reaches the aggregation or the merge.
    Nothing is retried: in no state of the batch has a task sent its
    request twice. *)
Theorem batch_fails_fast (N st en : Z) :
  (1 <= N)%Z ->
  (forall pages page,
      In page pages ->
      is_ok (fetch_single_news_page news_api N page st en) = false ->
      exists e page',
        fetch_all_news_pages news_api finish_news pages N st en = Raise e
        /\ In page' pages
        /\ fetch_single_news_page news_api N page' st en = Raise e)
  /\ (forall ids id,
      In id ids ->
      is_ok (fetch_single_asset_market_data market_api N id st en) = false ->
      exists e id',
        fetch_all_market_data market_api finish_market ids N st en = Raise e
        /\ In id' ids
        /\ fetch_single_asset_market_data market_api N id' st en = Raise e)
  /\ (forall now_s body total_pages pages page,
      response_json
        (news_api {| sort := 1; publishedBefore := END_TIMESTAMP_MS now_s;
                     publishedAfter := START_TIMESTAMP_MS now_s;
                     limit := 100; page := 1 |}) = Ok body ->
      get_totalPages body = Ok total_pages ->
      page_range total_pages = Ok pages ->
      In page pages ->
      is_ok (fetch_single_news_page news_api SEM_VALUE page
               (START_TIMESTAMP_MS now_s) (END_TIMESTAMP_MS now_s)) = false ->
      exists e,
        main news_api market_api finish_news finish_market now_s = Raise e)
  /\ (forall n es s,
      Scheduler.run (Scheduler.init (Z.to_nat N) n) es = Some s ->
      NoDup (Scheduler.requests s)).
Proof.
  intros HN. split; [|split; [|split]].
  - intros pages page. apply news_batch_raises; exact HN.
  - intros ids id. apply market_batch_raises; exact HN.
  - intros now_s body tp pages page Hb Htp Hpages Hin Hfail.
    destruct (@news_batch_raises news_api finish_news pages SEM_VALUE
                (START_TIMESTAMP_MS now_s) (END_TIMESTAMP_MS now_s) page)
      as [e [p [He _]]]; try assumption.
    + unfold SEM_VALUE; lia.
    + exists e. unfold main. rewrite Hb. simpl. rewrite Htp. simpl.
      rewrite Hpages. simpl. rewrite He. reflexivity.
  - intros n es s Hrun.
    apply (@run_invariant (Z.to_nat N) es (Scheduler.init (Z.to_nat N) n) s
             (init_invariant (Z.to_nat N) n) Hrun).
Qed.
End FailFastFacts.

Lemma batch_fails_fast_witness :
  exists e,
    FetchData.fetch_all_news_pages Samples.news_api Samples.in_order
      [1; 2; 3]%Z 1 0 0 = Py.Raise e.
Proof.
  destruct (batch_fails_fast Samples.news_api Samples.market_api
              Samples.in_order Samples.in_order (N := 1) 0 0) as [H _].
  - lia.
  - destruct (H [1; 2; 3]%Z 3%Z) as [e [p [He _]]].
    + simpl; tauto.
    + reflexivity.
    + exists e; exact He.
Defined.

(** ** Worked examples *)

(** An item whose asset list is empty explodes to a NaN cell, and reading
    ["id"] from it raises. *)
Example empty_asset_list_raises :
  FetchData.process_news_data
    [Samples.item 5 None (Some [Samples.bitcoin]); Samples.item 5 None (Some [])]
  = Py.Raise Py.TypeError.
Proof. reflexivity. Qed.

(** A feed without any item has no column to read. *)
Example empty_feed_raises :
  FetchData.process_news_data [] = Py.Raise Py.KeyError.
Proof. reflexivity. Qed.

(** The two pages of the sample API, fetched with ten slots, the second
    page answering first: the frames come back in page order. *)
Example two_pages_fetched :
  FetchData.fetch_all_news_pages Samples.news_api (fun i => 5 - i) [1; 2]%Z 10 0 0
  = Py.Ok [ Samples.item 1000 (Some "x"%string) (Some [Samples.ether; Samples.bitcoin]);
            Samples.item 86400001 None (Some [Samples.bitcoin]) ].
Proof. reflexivity. Qed.

(** Without a slot no task ever starts. *)
Example no_slot_hangs :
  FetchData.fetch_all_news_pages Samples.news_api Samples.in_order [1]%Z 0 0 0
  = Py.Hang.
Proof. reflexivity. Qed.

(** A batch of assets that all answer with an empty body has no
    ["timestamp"] column. *)
Example all_series_empty_raises :
  FetchData.fetch_all_market_data Samples.market_api Samples.in_order
    [Some "eth"%string] 10 0 0
  = Py.Raise Py.KeyError.
Proof. reflexivity. Qed.

(** The sample feed end to end: the Bitcoin rows find their price, the
    Ether row does not. *)
Example sample_pipeline_closes :
  match FetchData.main Samples.news_api Samples.market_api
          Samples.in_order Samples.in_order 100 with
  | Py.Ok rows => map (fun r => Float.isna (FetchData.close r)) rows
  | _ => []
  end = [false; false; true].
Proof. reflexivity. Qed.

(** A percent change over a zero is infinite before the cleaning and
    gone after it. *)
Example zero_denominator_is_dropped :
  Float.isinf
    (Metrics.trend_score
       (nth 7 (Metrics.calculate_metrics Metrics.Pad Samples.quiet_start) Samples.blank))
  = true
  /\ Metrics.clean_data (Metrics.calculate_metrics Metrics.Pad Samples.quiet_start) = [].
Proof. split; vm_compute; reflexivity. Qed.

(** Forward filling only matters where a column has a NaN in the
    middle. *)
Example pct_change_fill_methods :
  map Float.isna
    (Metrics.pct_change Metrics.Pad 1 [Float.of_Z 1; Float.NaN; Float.of_Z 2])
  = [true; false; false]
  /\ map Float.isna
       (Metrics.pct_change Metrics.NoFill 1 [Float.of_Z 1; Float.NaN; Float.of_Z 2])
     = [true; true; true].
Proof. split; vm_compute; reflexivity. Qed.

(** * Further properties *)

(** ** Sorted output *)

Section SortedFacts.
Variable A : Type.
Variable leb : A -> A -> bool.
Hypothesis leb_total : forall x y, leb x y = false -> leb y x = true.

Lemma insert_sorted_HdRel (x a : A) (l : list A) :
  leb a x = true ->
  HdRel (fun u v => leb u v = true) a l ->
  HdRel (fun u v => leb u v = true) a (insert_sorted leb x l).
Proof.
  intros Hax Hl. destruct l as [|y l]; simpl.
  - constructor. exact Hax.
  - destruct (leb x y); constructor; [exact Hax|].
    inversion Hl; assumption.
Qed.

Lemma insert_sorted_Sorted (x : A) (l : list A) :
  Sorted (fun u v => leb u v = true) l ->
  Sorted (fun u v => leb u v = true) (insert_sorted leb x l).
Proof.
  induction 1 as [|y l Hs IH Hhd]; simpl.
  - repeat constructor.
  - destruct (leb x y) eqn:Hxy.
    + constructor; [constructor; assumption | constructor; exact Hxy].
    + constructor; [exact IH|].
      apply insert_sorted_HdRel; [apply leb_total; exact Hxy | exact Hhd].
Qed.

(** Sorting by a total comparison leaves every element not greater than
    its successor. *)
Lemma sort_by_Sorted (l : list A) :
  Sorted (fun u v => leb u v = true) (sort_by leb l).
Proof.
  induction l as [|x l IH]; simpl; [constructor|].
  apply insert_sorted_Sorted. exact IH.
Qed.
End SortedFacts.

Section KeySortFacts.
Variable A : Type.
Variable key : A -> nat.

(** Two lists in strictly increasing key order with the same elements
    are the same list. *)
Lemma strictly_sorted_unique (l1 l2 : list A) :
  Permutation l1 l2 ->
  StronglySorted (fun x y => key x < key y) l1 ->
  StronglySorted (fun x y => key x < key y) l2 ->
  l1 = l2.
Proof.
  revert l2. induction l1 as [|a t IH]; intros l2 Hp H1 H2.
  - apply Permutation_nil in Hp. symmetry. exact Hp.
  - destruct l2 as [|b u].
    + apply Permutation_sym, Permutation_nil in Hp. discriminate.
    + inversion H1 as [|? ? Ht Ha]; subst. inversion H2 as [|? ? Hu Hb]; subst.
      rewrite Forall_forall in Ha, Hb.
      assert (Hab : a = b).
      { assert (Hin1 : In a (b :: u)) by (eapply Permutation_in; [exact Hp | left; reflexivity]).
        assert (Hin2 : In b (a :: t))
          by (eapply Permutation_in; [apply Permutation_sym; exact Hp | left; reflexivity]).
        destruct Hin1 as [E|Hin1]; [symmetry; exact E|].
        destruct Hin2 as [E|Hin2]; [exact E|].
        specialize (Ha b Hin2). specialize (Hb a Hin1). lia. }
      subst b. f_equal. apply IH; try assumption.
      eapply Permutation_cons_inv. exact Hp.
Qed.

Lemma Sorted_le_lt (l : list A) :
  NoDup (map key l) ->
  Sorted (fun x y => (key x <=? key y) = true) l ->
  StronglySorted (fun x y => key x < key y) l.
Proof.
  intros Hnd Hs. apply Sorted_StronglySorted in Hs.
  - induction Hs as [|a l Hs IH Ha]; [constructor|].
    inversion Hnd as [|? ? Hnotin Hnd']; subst.
    constructor; [apply IH; exact Hnd'|].
    rewrite Forall_forall in *. intros y Hy.
    specialize (Ha y Hy). apply Nat.leb_le in Ha.
    assert (key a <> key y).
    { intros E. apply Hnotin. rewrite E. apply in_map. exact Hy. }
    lia.
  - intros x y z H1 H2. apply Nat.leb_le in H1, H2. apply Nat.leb_le. lia.
Qed.

(** Sorting by key a rearrangement of a list that is in strictly
    increasing key order gives that list back. *)
Lemma sort_by_key_restores (l l' : list A) :
  Permutation l l' ->
  StronglySorted (fun x y => key x < key y) l' ->
  sort_by (fun x y => key x <=? key y) l = l'.
Proof.
  intros Hp Hs. apply strictly_sorted_unique; [| |exact Hs].
  - eapply perm_trans; [apply sort_by_perm | exact Hp].
  - apply Sorted_le_lt.
    + assert (Hnd : NoDup (map key l')).
      { clear Hp. induction Hs as [|a t Hs IH Ha]; simpl; constructor.
        - intros Hin. apply in_map_iff in Hin. destruct Hin as [y [E Hy]].
          rewrite Forall_forall in Ha. specialize (Ha y Hy). lia.
        - exact IH. }
      eapply Permutation_NoDup; [|exact Hnd].
      apply Permutation_map, Permutation_sym.
      eapply perm_trans; [apply sort_by_perm | exact Hp].
    + apply sort_by_Sorted. intros x y H.
      apply Nat.leb_gt in H. apply Nat.leb_le. lia.
Qed.
End KeySortFacts.

(** ** What a gather returns *)

Section GatherOrderFacts.
Import Py FetchData.
Variable A : Type.
Variable finish : nat -> nat.

Lemma enumerate_map_Ok (vs : list A) :
  enumerate (map (@Ok A) vs) = map (@tag_ok A) (enumerate vs).
Proof.
  unfold enumerate. rewrite length_map. generalize 0.
  induction vs as [|v vs IH]; intros n; simpl; [reflexivity|].
  rewrite IH. reflexivity.
Qed.

Lemma sequence_wrap_tag_ok (l : list (nat * A)) :
  sequence (map (@wrap_awaitable A) (map (@tag_ok A) l)) = Ok l.
Proof.
  induction l as [|[i x] l IH]; simpl; [reflexivity|].
  rewrite IH. reflexivity.
Qed.

Lemma filter_all (B : Type) (f : B -> bool) (l : list B) :
  (forall x, In x l -> f x = true) -> filter f l = l.
Proof.
  induction l as [|x l IH]; simpl; intros H; [reflexivity|].
  rewrite (H x (or_introl eq_refl)). f_equal. apply IH.
  intros y Hy. apply H. right. exact Hy.
Qed.

Lemma enumerate_length (B : Type) (l : list B) : length (enumerate l) = length l.
Proof. unfold enumerate. rewrite length_combine, length_seq. lia. Qed.

Lemma enumerate_strictly_sorted (B : Type) (l : list B) :
  StronglySorted (fun x y : nat * B => fst x < fst y) (enumerate l).
Proof.
  unfold enumerate. generalize 0.
  induction l as [|x l IH]; intros n; simpl; constructor.
  - apply IH.
  - apply Forall_forall. intros [i y] Hin. apply in_combine_l in Hin.
    apply in_seq in Hin. simpl. lia.
Qed.

Lemma map_snd_enumerate (B : Type) (l : list B) : map snd (enumerate l) = l.
Proof.
  unfold enumerate. generalize 0.
  induction l as [|x l IH]; intros n; simpl; [reflexivity|].
  rewrite IH. reflexivity.
Qed.

(** When every task returns, the gather returns their values in task
    order, whatever the order they complete in. *)
Lemma gather_all_ok (vs : list A) :
  gather finish (map (@Ok A) vs) = Ok vs.
Proof.
  unfold gather, as_completed.
  rewrite enumerate_map_Ok.
  rewrite filter_all
    by (intros t Ht; apply in_map_iff in Ht; destruct Ht as [u [<- _]]; reflexivity).
  set (leb := fun t1 t2 : nat * result A => finish (fst t1) <=? finish (fst t2)).
  destruct (@Permutation_map_inv _ _ (@tag_ok A) (sort_by leb (map (@tag_ok A) (enumerate vs)))
              (enumerate vs)) as [l3 [E Hp]].
  { apply sort_by_perm. }
  rewrite E, sequence_wrap_tag_ok. simpl.
  assert (Hlen : length l3 = length vs).
  { rewrite <- (Permutation_length Hp). apply enumerate_length. }
  rewrite length_map, Hlen, Nat.ltb_irrefl.
  rewrite (@sort_by_key_restores _ fst l3 (enumerate vs)).
  - rewrite map_snd_enumerate. reflexivity.
  - apply Permutation_sym. exact Hp.
  - apply enumerate_strictly_sorted.
Qed.

Lemma sequence_length (B : Type) (ms : list (result B)) (l : list B) :
  sequence ms = Ok l -> length l = length ms.
Proof.
  intros H. apply sequence_ok_inv in H. subst ms. rewrite length_map. reflexivity.
Qed.

Lemma filter_length_all (B : Type) (f : B -> bool) (l : list B) :
  length l <= length (filter f l) -> forall x, In x l -> f x = true.
Proof.
  induction l as [|y l IH]; simpl; intros H x Hx; [destruct Hx|].
  pose proof (filter_length_le f l) as Hle.
  destruct (f y) eqn:Hy; simpl in H.
  - destruct Hx as [<-|Hx]; [exact Hy | apply IH; [lia | exact Hx]].
  - lia.
Qed.

(** A gather returns exactly when every task returns, and then with the
    values of the tasks in task order. *)
Lemma gather_ok_iff (tasks : list (result A)) (rs : list A) :
  gather finish tasks = Ok rs <-> tasks = map (@Ok A) rs.
Proof.
  split; [|intros ->; apply gather_all_ok].
  intros H.
  assert (Hall : forall t, In t tasks -> exists v, t = Ok v).
  { unfold gather in H.
    destruct (sequence (map (@wrap_awaitable A) (as_completed finish tasks)))
      as [res| |] eqn:Hs; simpl in H; try discriminate.
    destruct (Nat.ltb_spec (length res) (length tasks)) as [|Hlen]; [discriminate|].
    pose proof (sequence_length _ Hs) as Hl. rewrite length_map in Hl.
    unfold as_completed in Hl. rewrite sort_by_length in Hl.
    assert (Hc : forall it, In it (enumerate tasks) -> completes it = true).
    { apply filter_length_all. rewrite enumerate_length. lia. }
    intros t Ht. destruct (In_enumerate _ _ Ht) as [i Hi].
    apply sequence_ok_inv in Hs.
    assert (Hin : In (wrap_awaitable (i, t)) (map (@wrap_awaitable A) (as_completed finish tasks))).
    { apply in_map. apply In_as_completed. split; [exact Hi | apply Hc; exact Hi]. }
    rewrite Hs in Hin. apply in_map_iff in Hin. destruct Hin as [[j v] [E _]].
    unfold wrap_awaitable in E. simpl in E.
    destruct t as [v'| |]; simpl in E; try discriminate. exists v'. reflexivity. }
  assert (Hvs : exists vs, tasks = map (@Ok A) vs).
  { clear H. induction tasks as [|t tasks IH].
    - exists []. reflexivity.
    - destruct (Hall t (or_introl eq_refl)) as [v ->].
      destruct IH as [vs ->]; [intros u Hu; apply Hall; right; exact Hu|].
      exists (v :: vs). reflexivity. }
  destruct Hvs as [vs ->]. rewrite gather_all_ok in H. injection H as <-. reflexivity.
Qed.
End GatherOrderFacts.

(** ** What the batch fetchers return *)

Section BatchReturnFacts.
Import Py FetchData.
Variable news_api : NewsParams -> http NewsItem.
Variable market_api : string -> MarketParams -> http Candle.
Variable finish_news : nat -> nat.
Variable finish_market : nat -> nat.

Lemma pd_concat_nonempty (A : Type) (frames : list (list A)) :
  frames <> [] -> pd_concat frames = Ok (concat frames).
Proof. destruct frames; [contradiction | reflexivity]. Qed.

Lemma map_eq_nil_iff (A B : Type) (f : A -> B) (l : list A) (l' : list B) :
  map f l = l' -> (l = [] <-> l' = []).
Proof. intros <-. destruct l; simpl; split; intros H; try reflexivity; discriminate. Qed.

(** X1.  A news batch with at least one slot and at least one page
    returns a frame exactly when every page fetch returns one, and the
    frame is then the page frames one after the other in page order,
    whatever the order the responses arrived in. *)
Theorem news_batch_returns (pages : list Z) (N st en : Z) (df : list NewsItem) :
  (1 <= N)%Z ->
  pages <> [] ->
  (fetch_all_news_pages news_api finish_news pages N st en = Ok df
   <-> exists frames,
         map (fun p => fetch_single_news_page news_api N p st en) pages
         = map (@Ok _) frames
         /\ df = concat frames).
Proof.
  intros HN Hne. unfold fetch_all_news_pages.
  rewrite (Semaphore_positive HN). cbn [bind].
  split.
  - intros H. apply bind_ok_inv in H. destruct H as [frames [Hg Hc]].
    apply gather_ok_iff in Hg. exists frames. split; [exact Hg|].
    rewrite pd_concat_nonempty in Hc.
    + injection Hc as <-. reflexivity.
    + intros E. apply Hne. apply (proj2 (map_eq_nil_iff _ _ Hg)).
      rewrite E. reflexivity.
  - intros [frames [Hg ->]]. rewrite Hg, gather_all_ok. cbn [bind].
    apply pd_concat_nonempty.
    intros E. apply Hne. apply (proj2 (map_eq_nil_iff _ _ Hg)).
    rewrite E. reflexivity.
Qed.

Lemma fetch_single_asset_ids (sem : Z) (id : option string) (st en : Z)
    (frame : list MarketRow) :
  fetch_single_asset_market_data market_api sem id st en = Ok frame ->
  Forall (fun r => m_asset_id r = id) frame.
Proof.
  unfold fetch_single_asset_market_data, with_sem.
  destruct (sem =? 0)%Z; [discriminate|].
  intros H. apply bind_ok_inv in H. destruct H as [data [_ H]].
  destruct (falsy data).
  - injection H as <-. constructor.
  - apply bind_ok_inv in H. destruct H as [records [_ H]].
    injection H as <-. apply Forall_forall. intros r Hr.
    apply in_map_iff in Hr. destruct Hr as [c [<- _]]. reflexivity.
Qed.

(** X2.  A market batch never returns an empty frame, and every row of
    the frame it returns carries the id of one of the requested assets. *)
Theorem market_batch_rows (ids : list (option string)) (N st en : Z)
    (rows : list PricePoint) :
  fetch_all_market_data market_api finish_market ids N st en = Ok rows ->
  rows <> [] /\ Forall (fun r => In (p_asset_id r) ids) rows.
Proof.
  unfold fetch_all_market_data. intros H.
  apply bind_ok_inv in H. destruct H as [sem [_ H]].
  apply bind_ok_inv in H. destruct H as [frames [Hg H]].
  apply bind_ok_inv in H. destruct H as [df [Hc H]].
  apply gather_ok_iff in Hg.
  destruct df as [|r0 df]; [discriminate|].
  apply bind_ok_inv in H. destruct H as [dates [Hd H]].
  injection H as <-.
  apply sequence_length in Hd. rewrite length_map in Hd.
  split; [destruct dates; discriminate|].
  apply Forall_forall. intros p Hp. apply in_map_iff in Hp.
  destruct Hp as [[r d] [<- Hin]].
  change (In (r, d) (combine (r0 :: df) dates)) in Hin.
  apply in_combine_l in Hin. cbn [p_asset_id fst].
  assert (Hr : In r (concat frames)).
  { destruct frames as [|f fs]; [discriminate|].
    simpl in Hc. injection Hc as Hc. simpl. rewrite Hc. exact Hin. }
  apply in_concat in Hr. destruct Hr as [frame [Hf Hrf]].
  assert (Hok : In (Ok frame)
                  (map (fun a => fetch_single_asset_market_data market_api sem a st en) ids)).
  { rewrite Hg. apply in_map. exact Hf. }
  apply in_map_iff in Hok. destruct Hok as [id [Hid Hin_id]].
  apply fetch_single_asset_ids in Hid. rewrite Forall_forall in Hid.
  rewrite (Hid r Hrf). exact Hin_id.
Qed.

(** X3.  When every requested asset answers with an empty series, the
    market batch does not return an empty frame: it raises KeyError,
    there being no ["timestamp"] column to read. *)
Theorem market_batch_all_empty (ids : list (option string)) (N st en : Z) :
  (1 <= N)%Z ->
  ids <> [] ->
  (forall id, In id ids ->
     fetch_single_asset_market_data market_api N id st en = Ok []) ->
  fetch_all_market_data market_api finish_market ids N st en = Raise KeyError.
Proof.
  intros HN Hne Hall. unfold fetch_all_market_data.
  rewrite (Semaphore_positive HN). cbn [bind].
  rewrite (map_ext_in _ (fun _ => Ok []) ids Hall).
  rewrite <- (map_map (fun _ : option string => @nil MarketRow) (@Ok _)).
  rewrite gather_all_ok. cbn [bind].
  rewrite pd_concat_nonempty by (destruct ids; [contradiction | discriminate]).
  cbn [bind].
  replace (concat (map (fun _ : option string => @nil MarketRow) ids)) with (@nil MarketRow)
    by (clear; induction ids; simpl; auto).
  reflexivity.
Qed.
End BatchReturnFacts.

Lemma news_batch_returns_witness :
  FetchData.fetch_all_news_pages Samples.news_api Samples.in_order [1; 2]%Z 10 0 0
  = Py.Ok Samples.two_pages
  <-> exists frames,
        map (fun p => FetchData.fetch_single_news_page Samples.news_api 10 p 0 0) [1; 2]%Z
        = map (@Py.Ok _) frames
        /\ Samples.two_pages = concat frames.
Proof.
  apply (@news_batch_returns Samples.news_api Samples.in_order [1; 2]%Z 10 0 0
           Samples.two_pages).
  - lia.
  - discriminate.
Defined.

Lemma market_batch_rows_witness :
  Samples.sample_prices <> []
  /\ Forall (fun r => In (FetchData.p_asset_id r) [Some "btc"%string; Some "eth"%string])
            Samples.sample_prices.
Proof.
  apply (@market_batch_rows Samples.market_api Samples.in_order
           [Some "btc"%string; Some "eth"%string] 10 0 0 Samples.sample_prices).
  reflexivity.
Defined.

Lemma market_batch_all_empty_witness :
  FetchData.fetch_all_market_data Samples.market_api Samples.in_order
    [Some "eth"%string] 10 0 0
  = Py.Raise Py.KeyError.
Proof.
  apply (@market_batch_all_empty Samples.market_api Samples.in_order
           [Some "eth"%string] 10 0 0).
  - lia.
  - discriminate.
  - intros id [<-|[]]. reflexivity.
Defined.

(** ** The grouped news frame *)

Section UniqueFacts.
Variable A : Type.
Variable eqb : A -> A -> bool.
Hypothesis eqb_eq : forall x y, eqb x y = true <-> x = y.

Lemma In_unique (x : A) (l : list A) : In x (FetchData.unique eqb l) <-> In x l.
Proof.
  induction l as [|y l IH]; simpl; [tauto|].
  rewrite filter_In, IH. split.
  - intros [H|[H _]]; [left | right]; assumption.
  - intros [H|H]; [left; exact H|].
    destruct (eqb y x) eqn:E.
    + left. apply eqb_eq. exact E.
    + right. split; [exact H | reflexivity].
Qed.

Lemma NoDup_filter (f : A -> bool) (l : list A) : NoDup l -> NoDup (filter f l).
Proof.
  induction 1 as [|x l Hx Hl IH]; simpl; [constructor|].
  destruct (f x); [|exact IH].
  constructor; [|exact IH]. intros H. apply filter_In in H. tauto.
Qed.

Lemma NoDup_unique (l : list A) : NoDup (FetchData.unique eqb l).
Proof.
  induction l as [|y l IH]; simpl; constructor.
  - intros H. apply filter_In in H. destruct H as [_ H].
    assert (E : eqb y y = true) by (apply eqb_eq; reflexivity).
    rewrite E in H. discriminate.
  - apply NoDup_filter. exact IH.
Qed.
End UniqueFacts.

Section GroupedFacts.
Import Py FetchData.

Lemma lex_antisym (a b c d : comparison) :
  a = CompOpp b -> c = CompOpp d -> lex a c = CompOpp (lex b d).
Proof. intros -> ->. destruct b, d; reflexivity. Qed.

Lemma key_compare_antisym (k1 k2 : key) :
  key_compare k1 k2 = CompOpp (key_compare k2 k1).
Proof.
  destruct k1 as [[i1 n1] d1], k2 as [[i2 n2] d2]. unfold key_compare.
  apply lex_antisym; [apply String.compare_antisym|].
  apply lex_antisym; [apply String.compare_antisym | apply Z.compare_antisym].
Qed.

Lemma key_leb_total (k1 k2 : key) : key_leb k1 k2 = false -> key_leb k2 k1 = true.
Proof.
  unfold key_leb. rewrite (key_compare_antisym k2 k1).
  destruct (key_compare k1 k2); simpl; intros H; try discriminate. reflexivity.
Qed.

Lemma key_eqb_eq (k1 k2 : key) : key_eqb k1 k2 = true <-> k1 = k2.
Proof.
  destruct k1 as [[i1 n1] d1], k2 as [[i2 n2] d2]. unfold key_eqb.
  rewrite !andb_true_iff, !String.eqb_eq, Z.eqb_eq. split.
  - intros [[-> ->] ->]. reflexivity.
  - intros H. injection H as -> -> ->. repeat split.
Qed.

Lemma option_eqb_eq (A : Type) (eqb : A -> A -> bool) :
  (forall x y, eqb x y = true <-> x = y) ->
  forall x y, option_eqb eqb x y = true <-> x = y.
Proof.
  intros H [a|] [b|]; simpl; try (split; discriminate); [|tauto].
  rewrite H. split; [intros ->; reflexivity | intros E; injection E as ->; reflexivity].
Qed.

Lemma In_keys_of (df : list Mention) (k : key) :
  In k (keys_of df) <-> exists m, In m df /\ mention_key m = Some k.
Proof.
  unfold keys_of. rewrite in_flat_map. split.
  - intros [m [Hm Hk]]. exists m. split; [exact Hm|].
    destruct (mention_key m) as [k'|]; [|destruct Hk].
    destruct Hk as [->|[]]. reflexivity.
  - intros [m [Hm Hk]]. exists m. split; [exact Hm|]. rewrite Hk. left. reflexivity.
Qed.

Lemma group_keys_NoDup (df : list Mention) : NoDup (group_keys df).
Proof.
  unfold group_keys. eapply Permutation_NoDup.
  - apply Permutation_sym, sort_by_perm.
  - apply NoDup_unique. apply key_eqb_eq.
Qed.

Lemma In_group_keys (df : list Mention) (k : key) :
  In k (group_keys df) <-> exists m, In m df /\ mention_key m = Some k.
Proof.
  unfold group_keys. rewrite sort_by_In, (@In_unique _ _ key_eqb_eq). apply In_keys_of.
Qed.

Lemma row_key_with_count (g : Grouped) : row_key (with_count g) = g_key g.
Proof. unfold with_count, row_key. destruct (g_key g) as [[i n] d]. reflexivity. Qed.

(** X4.  The grouped frame has one row per (asset_id, asset_name, date):
    no key occurs twice, the rows are in ascending key order, and every
    row counts at least one mention. *)
Theorem grouped_rows_keyed (news_df : list NewsItem) (grouped : list AssetDailyNews)
    (ids : list (option string)) (dates : list (option Z)) :
  process_news_data news_df = Ok (grouped, ids, dates) ->
  NoDup (map row_key grouped)
  /\ Sorted (fun r1 r2 => key_leb (row_key r1) (row_key r2) = true) grouped
  /\ Forall (fun r => (1 <= count r)%Z) grouped.
Proof.
  intros H. unfold process_news_data in H.
  apply bind_ok_inv in H. destruct H as [df [_ H]]. injection H as <- _ _.
  assert (Hkeys : map row_key (map with_count (groupby_agg df)) = group_keys df).
  { unfold groupby_agg. rewrite !map_map.
    rewrite (map_ext _ (fun k => k)) by (intros k; apply row_key_with_count).
    apply map_id. }
  split; [rewrite Hkeys; apply group_keys_NoDup|]. split.
  - assert (Hs : Sorted (fun k1 k2 => key_leb k1 k2 = true)
                   (map row_key (map with_count (groupby_agg df)))).
    { rewrite Hkeys. unfold group_keys. apply sort_by_Sorted. apply key_leb_total. }
    clear Hkeys. induction (map with_count (groupby_agg df)) as [|r l IH];
      [constructor|].
    simpl in Hs. inversion Hs as [|? ? Hs' Hh]; subst.
    constructor; [apply IH; exact Hs'|].
    destruct l; simpl in *; constructor. inversion Hh; assumption.
  - apply Forall_forall. intros r Hr.
    apply in_map_iff in Hr. destruct Hr as [g [<- Hg]].
    unfold groupby_agg in Hg. apply in_map_iff in Hg. destruct Hg as [k [<- Hk]].
    apply In_group_keys in Hk. destruct Hk as [m [Hm Hmk]].
    unfold with_count. cbn [g_key g_title]. destruct k as [[i n] d]. cbn [count].
    rewrite length_map.
    assert (Hin : In m (filter (in_group (i, n, d)) df)).
    { apply filter_In. split; [exact Hm|]. unfold in_group. rewrite Hmk.
      apply key_eqb_eq. reflexivity. }
    destruct (filter (in_group (i, n, d)) df); [destruct Hin | simpl; lia].
Qed.

(** X5.  The asset ids handed to the market fetcher are pairwise
    distinct, and they include the asset id of every row of the grouped
    frame: no grouped asset goes without a price request. *)
Theorem unique_asset_ids_cover (news_df : list NewsItem) (grouped : list AssetDailyNews)
    (ids : list (option string)) (dates : list (option Z)) :
  process_news_data news_df = Ok (grouped, ids, dates) ->
  NoDup ids
  /\ NoDup dates
  /\ Forall (fun r => In (Some (asset_id r)) ids /\ In (Some (date r)) dates) grouped.
Proof.
  intros H. unfold process_news_data in H.
  apply bind_ok_inv in H. destruct H as [df [_ H]]. injection H as <- <- <-.
  split; [apply NoDup_unique, option_eqb_eq, String.eqb_eq|].
  split; [apply NoDup_unique, option_eqb_eq, Z.eqb_eq|].
  apply Forall_forall. intros r Hr.
  apply in_map_iff in Hr. destruct Hr as [g [<- Hg]].
  unfold groupby_agg in Hg. apply in_map_iff in Hg. destruct Hg as [k [<- Hk]].
  apply In_group_keys in Hk. destruct Hk as [m [Hm Hmk]].
  unfold with_count. cbn [g_key]. destruct k as [[i n] d]. cbn [asset_id date].
  unfold mention_key in Hmk.
  destruct (m_id m) as [i'|] eqn:Ei; [|discriminate].
  destruct (m_name m) as [n'|]; [|discriminate].
  destruct (m_date m) as [d'|] eqn:Ed; [|discriminate].
  injection Hmk as -> -> ->.
  split.
  - apply (@In_unique _ _ (@option_eqb_eq _ _ String.eqb_eq)).
    rewrite <- Ei. apply in_map. exact Hm.
  - apply (@In_unique _ _ (@option_eqb_eq _ _ Z.eqb_eq)).
    rewrite <- Ed. apply in_map. exact Hm.
Qed.
End GroupedFacts.

Lemma grouped_rows_keyed_witness :
  NoDup (map FetchData.row_key Samples.grouped_feed)
  /\ Sorted (fun r1 r2 =>
               FetchData.key_leb (FetchData.row_key r1) (FetchData.row_key r2) = true)
            Samples.grouped_feed
  /\ Forall (fun r => (1 <= FetchData.count r)%Z) Samples.grouped_feed.
Proof.
  apply (@grouped_rows_keyed Samples.news_feed Samples.grouped_feed
           Samples.feed_ids Samples.feed_dates).
  reflexivity.
Defined.

Lemma unique_asset_ids_cover_witness :
  NoDup Samples.feed_ids
  /\ NoDup Samples.feed_dates
  /\ Forall (fun r => In (Some (FetchData.asset_id r)) Samples.feed_ids
                      /\ In (Some (FetchData.date r)) Samples.feed_dates)
            Samples.grouped_feed.
Proof.
  apply (@unique_asset_ids_cover Samples.news_feed Samples.grouped_feed
           Samples.feed_ids Samples.feed_dates).
  reflexivity.
Defined.

(** ** The merge on any prices table *)

Section MergeAnyFacts.
Import Py Float FetchData.

Lemma map_news_merge_row (prices : list PricePoint) (n : AssetDailyNews) :
  map news (merge_row prices n)
  = repeat n (Nat.max 1 (length (filter (same_key n) prices))).
Proof.
  unfold merge_row. destruct (filter (same_key n) prices) as [|p l]; [reflexivity|].
  rewrite map_map. cbn [news]. simpl length.
  replace (Nat.max 1 (S (length l))) with (S (length l)) by lia.
  simpl. f_equal. clear p. induction l as [|q l IH]; simpl; [reflexivity|].
  rewrite IH. reflexivity.
Qed.

(** X6.  Whatever the prices table, the merge keeps the news rows in
    order and emits each of them once per price row of the same key, and
    once when there is none: it never has fewer rows than the news
    table, and each [close] it fills is null or the close of a price
    row with the key of the news row. *)
Theorem merge_any_prices (news_df : list AssetDailyNews) (prices : list PricePoint) :
  map news (merge news_df prices)
  = flat_map
      (fun n => repeat n (Nat.max 1 (length (filter (same_key n) prices))))
      news_df
  /\ length news_df <= length (merge news_df prices)
  /\ Forall (fun r =>
               close r = NaN
               \/ exists p, In p prices /\ price_key p = news_key (news r)
                             /\ close r = p_close p)
            (merge news_df prices).
Proof.
  split; [|split].
  - unfold merge. induction news_df as [|n l IH]; simpl; [reflexivity|].
    rewrite map_app, IH, map_news_merge_row. reflexivity.
  - unfold merge. induction news_df as [|n l IH]; simpl; [lia|].
    rewrite length_app.
    assert (1 <= length (merge_row prices n)).
    { unfold merge_row. destruct (filter (same_key n) prices); simpl; lia. }
    lia.
  - apply Forall_forall. intros r Hr. unfold merge in Hr.
    apply in_flat_map in Hr. destruct Hr as [n [_ Hr]].
    unfold merge_row in Hr.
    destruct (filter (same_key n) prices) as [|p l] eqn:Hf.
    + destruct Hr as [<-|[]]. left. reflexivity.
    + apply in_map_iff in Hr. destruct Hr as [q [<- Hq]].
      rewrite <- Hf in Hq. apply filter_In in Hq. destruct Hq as [Hq1 Hq2].
      right. exists q. split; [exact Hq1|]. split; [|reflexivity].
      apply same_key_iff. exact Hq2.
Qed.
End MergeAnyFacts.

(** ** Edge cases of main *)

Section MainEdgeFacts.
Import Py FetchData.
Variable news_api : NewsParams -> http NewsItem.
Variable market_api : string -> MarketParams -> http Candle.
Variable finish_news : nat -> nat.
Variable finish_market : nat -> nat.

(** X7.  When the first request reports no page (totalPages zero or
    negative), [main] raises ValueError: the page range is empty and the
    news batch has nothing to concatenate.  When it reports a null
    totalPages, [main] raises TypeError. *)
Theorem main_without_pages (now_s : Z) (body : json NewsItem) :
  response_json
    (news_api {| sort := 1; publishedBefore := END_TIMESTAMP_MS now_s;
                 publishedAfter := START_TIMESTAMP_MS now_s;
                 limit := 100; page := 1 |}) = Ok body ->
  (forall n, get_totalPages body = Ok (Some n) -> (n <= 0)%Z ->
     main news_api market_api finish_news finish_market now_s = Raise ValueError)
  /\ (get_totalPages body = Ok None ->
      main news_api market_api finish_news finish_market now_s = Raise TypeError).
Proof.
  intros Hb. split.
  - intros n Hn Hle. unfold main. rewrite Hb. cbn [bind]. rewrite Hn. cbn [bind].
    unfold page_range. replace (Z.to_nat n) with 0 by lia. reflexivity.
  - intros Hn. unfold main. rewrite Hb. cbn [bind]. rewrite Hn. reflexivity.
Qed.

(** X8.  When [process_news_data] returns no asset id (the feed has
    items, and the assets cell of each of them is null), [main] raises
    ValueError: there is no asset to request prices for, and the market
    batch has nothing to concatenate. *)
Theorem main_without_assets (now_s : Z) (body : json NewsItem) (total_pages : option Z)
    (pages : list Z) (news_df : list NewsItem) (grouped : list AssetDailyNews)
    (dates : list (option Z)) :
  response_json
    (news_api {| sort := 1; publishedBefore := END_TIMESTAMP_MS now_s;
                 publishedAfter := START_TIMESTAMP_MS now_s;
                 limit := 100; page := 1 |}) = Ok body ->
  get_totalPages body = Ok total_pages ->
  page_range total_pages = Ok pages ->
  fetch_all_news_pages news_api finish_news pages SEM_VALUE
    (START_TIMESTAMP_MS now_s) (END_TIMESTAMP_MS now_s) = Ok news_df ->
  process_news_data news_df = Ok (grouped, [], dates) ->
  main news_api market_api finish_news finish_market now_s = Raise ValueError.
Proof.
  intros Hb Htp Hp Hf Hpr. unfold main.
  rewrite Hb. cbn [bind]. rewrite Htp. cbn [bind]. rewrite Hp. cbn [bind].
  rewrite Hf. cbn [bind]. rewrite Hpr. reflexivity.
Qed.
End MainEdgeFacts.

Lemma main_without_pages_witness :
  FetchData.main Samples.empty_api Samples.market_api Samples.in_order Samples.in_order 100
  = Py.Raise Py.ValueError.
Proof.
  destruct (@main_without_pages Samples.empty_api Samples.market_api
              Samples.in_order Samples.in_order 100
              (FetchData.Object (FetchData.Present []) (FetchData.Present 0%Z))
              eq_refl) as [H _].
  apply (H 0%Z); [reflexivity | lia].
Defined.

Lemma main_without_assets_witness :
  FetchData.main Samples.assetless_api Samples.market_api
    Samples.in_order Samples.in_order 100
  = Py.Raise Py.ValueError.
Proof.
  apply (@main_without_assets Samples.assetless_api Samples.market_api
           Samples.in_order Samples.in_order 100
           (FetchData.Object (FetchData.Present [Samples.item 5 (Some "z"%string) None])
              (FetchData.Present 1%Z))
           (Some 1%Z) [1%Z] [Samples.item 5 (Some "z"%string) None] [] []).
  - reflexivity.
  - reflexivity.
  - reflexivity.
  - reflexivity.
  - reflexivity.
Defined.

(** ** Row order of the metrics script *)

Section OrderFacts.
Import Float Metrics.

Lemma by_asset_date_total (r1 r2 : MergedRecord) :
  by_asset_date r1 r2 = false -> by_asset_date r2 r1 = true.
Proof.
  unfold by_asset_date.
  rewrite (@lex_antisym (String.compare (asset_id r2) (asset_id r1))
             (String.compare (asset_id r1) (asset_id r2))
             (Z.compare (date r2) (date r1)) (Z.compare (date r1) (date r2))
             (String.compare_antisym _ _) (Z.compare_antisym _ _)).
  destruct (lex _ _); simpl; intros H; try discriminate. reflexivity.
Qed.

(** X9.  [load_and_prepare_data] only reorders the rows of the file, and
    leaves them in ascending (asset_id, date) order. *)
Theorem load_and_prepare_data_sorted (csv : list MergedRecord) :
  Permutation (load_and_prepare_data csv) csv
  /\ Sorted (fun r1 r2 => by_asset_date r1 r2 = true) (load_and_prepare_data csv).
Proof.
  unfold load_and_prepare_data. split.
  - apply sort_by_perm.
  - apply sort_by_Sorted. apply by_asset_date_total.
Qed.

Lemma fcompare_desc_antisym (x y : float) :
  fcompare_desc x y = CompOpp (fcompare_desc y x).
Proof.
  destruct x as [|s|a], y as [|t|b]; simpl; try reflexivity;
    try (destruct s; reflexivity); try (destruct t; reflexivity);
    try (destruct s, t; reflexivity).
  unfold Qccompare. symmetry. apply Qcompare_antisym.
Qed.

Lemma by_date_momentum_desc_total (r1 r2 : ScoredRecord) :
  by_date_momentum_desc r1 r2 = false -> by_date_momentum_desc r2 r1 = true.
Proof.
  unfold by_date_momentum_desc.
  rewrite (@lex_antisym
             (Z.compare (date (merged (metrics r1))) (date (merged (metrics r2))))
             (Z.compare (date (merged (metrics r2))) (date (merged (metrics r1))))
             (fcompare_desc (momentum_score r2) (momentum_score r1))
             (fcompare_desc (momentum_score r1) (momentum_score r2))
             (Z.compare_antisym _ _) (fcompare_desc_antisym _ _)).
  destruct (lex _ _); simpl; intros H; try discriminate. reflexivity.
Qed.

(** X10.  The table [main] writes is in descending date order and, within
    a date, in descending momentum order; every row of it is a row of
    the file, and it has no more rows than the file. *)
Theorem main_table_ordered (fm : fill_method) (csv : list MergedRecord) :
  Sorted (fun r1 r2 => by_date_momentum_desc r1 r2 = true) (main fm csv)
  /\ Forall (fun r => In (merged (metrics r)) csv) (main fm csv)
  /\ length (main fm csv) <= length csv.
Proof.
  unfold main. set (df := load_and_prepare_data csv).
  destruct (calculate_metrics_columns fm df) as [Em _].
  split; [|split].
  - unfold clean_data. apply sort_by_Sorted. apply by_date_momentum_desc_total.
  - apply Forall_forall. intros r Hr. apply In_clean_data in Hr.
    destruct Hr as [[m [Hm ->]] _]. cbn [metrics add_momentum].
    unfold dropna in Hm. apply filter_In in Hm. destruct Hm as [Hm _].
    unfold replace_infinities in Hm. apply in_map_iff in Hm.
    destruct Hm as [m0 [<- Hm0]]. cbn [merged replace_row].
    assert (Hin : In (merged m0) df) by (rewrite <- Em; apply in_map; exact Hm0).
    unfold df, load_and_prepare_data in Hin. apply sort_by_In in Hin. exact Hin.
  - unfold clean_data. rewrite sort_by_length.
    eapply Nat.le_trans; [apply filter_length_le|].
    eapply Nat.le_trans; [apply filter_length_le|].
    rewrite length_map. unfold dropna.
    eapply Nat.le_trans; [apply filter_length_le|].
    unfold replace_infinities. rewrite length_map.
    rewrite <- (length_map merged), Em. unfold df, load_and_prepare_data.
    rewrite sort_by_length. apply Nat.le_refl.
Qed.
End OrderFacts.

(** ** The first rows of an asset *)

Section LeadingFacts.
Import Float Metrics.
Variable fm : fill_method.

Lemma ffill_from_length (last : float) (xs : list float) :
  length (ffill_from last xs) = length xs.
Proof.
  revert last. induction xs as [|x xs IH]; intros last; simpl; [reflexivity|].
  destruct (isna x); simpl; rewrite IH; reflexivity.
Qed.

(** Forward filling leaves the NaN a column starts with. *)
Lemma ffill_leading (k : nat) (xs : list float) :
  (forall r, r < k -> nth r xs NaN = NaN) ->
  forall r, r < k -> nth r (ffill xs) NaN = NaN.
Proof.
  unfold ffill. revert k. induction xs as [|x xs IH]; intros k H r Hr.
  - destruct r; reflexivity.
  - simpl. pose proof (H 0) as H0. simpl in H0.
    destruct k as [|k]; [lia|]. rewrite H0 by lia. simpl.
    destruct r as [|r]; [reflexivity|].
    apply (IH k); [|lia]. intros r' Hr'. apply (H (S r')). lia.
Qed.

Lemma fdiv_nan_l (y : float) : fdiv NaN y = NaN.
Proof. reflexivity. Qed.

Lemma fdiv_nan_r (x : float) : fdiv x NaN = NaN.
Proof. destruct x; reflexivity. Qed.

(** A percent change over [p] rows starts with [p] more NaN than its
    column. *)
Lemma pct_change_leading (p k : nat) (xs : list float) :
  (forall r, r < k -> nth r xs NaN = NaN) ->
  forall r, r < k + p -> nth r (pct_change fm p xs) NaN = NaN.
Proof.
  intros H r Hr. unfold pct_change.
  set (data := match fm with Pad => ffill xs | NoFill => xs end).
  assert (Hd : forall r', r' < k -> nth r' data NaN = NaN).
  { unfold data. destruct fm; [apply ffill_leading; exact H | exact H]. }
  destruct (Nat.lt_ge_cases r (length data)) as [Hlt|Hge].
  - change NaN with ((fun ds : float * float => fsub (fdiv (fst ds) (snd ds)) one) (NaN, NaN)) at 1.
    rewrite map_nth, combine_nth by (symmetry; apply shift_length).
    cbn [fst snd]. rewrite shift_nth by exact Hlt.
    destruct (Nat.lt_ge_cases r k) as [Hk|Hk].
    + rewrite (Hd r Hk). reflexivity.
    + destruct (Nat.ltb_spec r p); [rewrite fdiv_nan_r; reflexivity|].
      rewrite (Hd (r - p)) by lia. rewrite fdiv_nan_r. reflexivity.
  - apply nth_overflow. rewrite length_map, length_combine, shift_length. lia.
Qed.

(** The [acceleration_score] values of one asset are the percent change,
    one row back, of its [trend_score] values. *)
Lemma acceleration_score_series (df : list MergedRecord) (a : string) :
  map acceleration_score (asset_series a (calculate_metrics fm df))
  = pct_change fm 1 (map trend_score (asset_series a (calculate_metrics fm df))).
Proof.
  destruct (calculate_metrics_columns fm df) as [Em [_ [Et [Ea _]]]].
  destruct (column_lengths fm df) as [_ [Hl _]].
  unfold asset_series at 1.
  rewrite <- (group_values_map (fun m => asset_id (merged m)) acceleration_score a).
  rewrite Ea, <- (map_map merged asset_id), Em.
  unfold acceleration_score_column. rewrite group_values_transform.
  - f_equal. unfold asset_series.
    rewrite <- (group_values_map (fun m => asset_id (merged m)) trend_score a).
    rewrite Et, <- (map_map merged asset_id), Em. reflexivity.
  - rewrite Hl, length_map. reflexivity.
  - apply pct_change_length.
Qed.

(** The [price_score] values of one asset are the percent change, seven
    rows back, of its [close] values. *)
Lemma price_score_series (df : list MergedRecord) (a : string) :
  map price_score (asset_series a (calculate_metrics fm df))
  = pct_change fm ROLLING_WINDOW (map close (asset_rows a df)).
Proof.
  destruct (calculate_metrics_columns fm df) as [Em [_ [_ [_ Ep]]]].
  unfold asset_series, asset_rows.
  rewrite <- (group_values_map (fun m => asset_id (merged m)) price_score a).
  rewrite Ep, <- (map_map merged asset_id), Em.
  unfold price_score_column. rewrite group_values_transform.
  - rewrite group_values_map. reflexivity.
  - rewrite !length_map. reflexivity.
  - apply pct_change_length.
Qed.

Lemma asset_series_length (df : list MergedRecord) (a : string) :
  length (asset_series a (calculate_metrics fm df)) = length (asset_rows a df).
Proof.
  destruct (calculate_metrics_columns fm df) as [Em _].
  unfold asset_series, asset_rows. rewrite <- Em at 2.
  rewrite filter_map_length. reflexivity.
Qed.

(** The scores of the first rows of an asset, before the cleaning. *)
Lemma leading_scores (df : list MergedRecord) (a : string) (r : nat) (x : MetricRecord) :
  nth_error (asset_series a (calculate_metrics fm df)) r = Some x ->
  (r < ROLLING_WINDOW -> trend_score x = NaN /\ price_score x = NaN)
  /\ (r < S ROLLING_WINDOW -> acceleration_score x = NaN).
Proof.
  intros Hx. set (S0 := asset_series a (calculate_metrics fm df)) in *.
  assert (Ht : forall r', r' < ROLLING_WINDOW -> nth r' (map trend_score S0) NaN = NaN).
  { intros r' Hr'. unfold S0. rewrite trend_score_series.
    apply (@pct_change_leading ROLLING_WINDOW 0); [intros; lia | exact Hr']. }
  split.
  - intros Hr. split.
    + rewrite <- (Ht r Hr). symmetry. apply nth_error_map_col. exact Hx.
    + rewrite <- (@nth_error_map_col _ _ price_score S0 r x NaN Hx).
      unfold S0. rewrite price_score_series.
      apply (@pct_change_leading ROLLING_WINDOW 0); [intros; lia | exact Hr].
  - intros Hr.
    rewrite <- (@nth_error_map_col _ _ acceleration_score S0 r x NaN Hx).
    unfold S0. rewrite acceleration_score_series. fold S0.
    apply (@pct_change_leading 1 ROLLING_WINDOW); [exact Ht | lia].
Qed.

(** An asset with at most eight rows has no row in the final table. *)
Lemma short_history_absent (df : list MergedRecord) (a : string) :
  length (asset_rows a df) <= S ROLLING_WINDOW ->
  forall row, In row (clean_data (calculate_metrics fm df)) ->
              asset_id (merged (metrics row)) <> a.
Proof.
  intros Hlen row Hrow Ha.
  apply In_clean_data in Hrow. destruct Hrow as [[m [Hm ->]] _].
  cbn [metrics add_momentum] in Ha.
  unfold dropna in Hm. apply filter_In in Hm. destruct Hm as [Hm Hna].
  unfold replace_infinities in Hm. apply in_map_iff in Hm.
  destruct Hm as [m0 [<- Hm0]]. cbn [merged replace_row] in Ha.
  assert (Hs : In m0 (asset_series a (calculate_metrics fm df))).
  { unfold asset_series. apply filter_In. split; [exact Hm0|].
    apply String.eqb_eq. exact Ha. }
  apply In_nth_error in Hs. destruct Hs as [r Hr].
  assert (Hlt : r < length (asset_series a (calculate_metrics fm df)))
    by (apply nth_error_Some; rewrite Hr; discriminate).
  rewrite asset_series_length in Hlt.
  destruct (leading_scores df a r Hr) as [_ H8].
  unfold notna_subset in Hna. rewrite !andb_true_iff, !negb_true_iff in Hna.
  destruct Hna as [[_ Hacc] _]. unfold replace_row in Hacc.
  cbn [acceleration_score] in Hacc. rewrite H8 in Hacc by lia. discriminate.
Qed.

(** X11.  In the series of one asset, [trend_score] and [price_score] are
    null on the first seven rows and [acceleration_score] on the first
    eight, also after the cleaning replaced the infinities; so an asset
    with at most eight rows in the table has no row in the final table. *)
Theorem short_history_is_dropped (df : list MergedRecord) (a : string) :
  (forall r x,
      nth_error (asset_series a (replace_infinities (calculate_metrics fm df))) r = Some x ->
      (r < ROLLING_WINDOW -> trend_score x = NaN /\ price_score x = NaN)
      /\ (r < S ROLLING_WINDOW -> acceleration_score x = NaN))
  /\ (length (asset_rows a df) <= S ROLLING_WINDOW ->
      forall row, In row (clean_data (calculate_metrics fm df)) ->
                  asset_id (merged (metrics row)) <> a).
Proof.
  split.
  - intros r x Hx. rewrite asset_series_replace in Hx.
    unfold replace_infinities in Hx. rewrite nth_error_map in Hx.
    destruct (nth_error (asset_series a (calculate_metrics fm df)) r) as [x0|] eqn:Hx0;
      [|discriminate].
    injection Hx as <-. destruct (leading_scores df a r Hx0) as [H7 H8].
    unfold replace_row. cbn [trend_score price_score acceleration_score].
    split.
    + intros Hr. destruct (H7 Hr) as [-> ->]. split; reflexivity.
    + intros Hr. rewrite (H8 Hr). reflexivity.
  - apply short_history_absent.
Qed.
End LeadingFacts.

Lemma short_history_is_dropped_witness :
  length (Metrics.asset_rows "B" Samples.table) <= S Metrics.ROLLING_WINDOW
  /\ Forall (fun row => Metrics.asset_id (Metrics.merged (Metrics.metrics row)) <> "B"%string)
            (Metrics.clean_data (Metrics.calculate_metrics Metrics.Pad Samples.table)).
Proof.
  assert (Hlen : length (Metrics.asset_rows "B" Samples.table) <= S Metrics.ROLLING_WINDOW)
    by (vm_compute; lia).
  split; [exact Hlen|].
  apply Forall_forall.
  exact (proj2 (@short_history_is_dropped Metrics.Pad Samples.table "B"%string) Hlen).
Defined.

(** ** Price score and counted tables *)

Section ScoreFacts.
Import Float Metrics.
Variable fm : fill_method.

Lemma map_filter_comm (A B : Type) (f : A -> B) (p : B -> bool) (l : list A) :
  map f (filter (fun x => p (f x)) l) = filter p (map f l).
Proof.
  induction l as [|x l IH]; simpl; [reflexivity|].
  destruct (p (f x)); simpl; rewrite IH; reflexivity.
Qed.

Lemma asset_series_merged (df : list MergedRecord) (a : string) :
  map merged (asset_series a (calculate_metrics fm df)) = asset_rows a df.
Proof.
  destruct (calculate_metrics_columns fm df) as [Em _].
  unfold asset_series, asset_rows.
  rewrite (map_filter_comm merged (fun r => String.eqb (asset_id r) a)), Em.
  reflexivity.
Qed.

(** X12.  In the series of an asset whose [close] values are never
    null, the [price_score] of the eighth and later rows is
    [current / previous - 1] with the infinities replaced by null, where
    [current] is the close of the row and [previous] the close seven
    rows earlier; it is null whenever [previous] is zero. *)
Theorem price_score_is_pct_change (df : list MergedRecord) (a : string)
    (r : nat) (x : MetricRecord) :
  Forall (fun row => isna (close row) = false) (asset_rows a df) ->
  nth_error (asset_series a (replace_infinities (calculate_metrics fm df))) r = Some x ->
  ROLLING_WINDOW <= r ->
  exists y : MetricRecord,
    nth_error (asset_series a (replace_infinities (calculate_metrics fm df)))
              (r - ROLLING_WINDOW) = Some y
    /\ price_score x
       = replace_inf (fsub (fdiv (close (merged x)) (close (merged y))) one)
    /\ (close (merged y) = zero -> price_score x = NaN).
Proof.
  intros Hfin Hx Hr. rewrite asset_series_replace in *.
  set (S0 := asset_series a (calculate_metrics fm df)) in *.
  unfold replace_infinities in *. rewrite nth_error_map in Hx.
  destruct (nth_error S0 r) as [x0|] eqn:Hx0; [|discriminate].
  injection Hx as <-.
  assert (Hlt : r < length S0) by (apply nth_error_Some; rewrite Hx0; discriminate).
  destruct (nth_error S0 (r - ROLLING_WINDOW)) as [y0|] eqn:Hy0;
    [| apply nth_error_None in Hy0; lia].
  pose proof (asset_series_merged df a) as Hm. fold S0 in Hm.
  pose proof (price_score_series fm df a) as Hp. fold S0 in Hp.
  set (closes := map close (asset_rows a df)) in *.
  assert (Hcl : map (fun m => close (merged m)) S0 = closes)
    by (unfold closes; rewrite <- Hm, map_map; reflexivity).
  assert (Hfc : Forall (fun c => isna c = false) closes)
    by (unfold closes; apply Forall_map; exact Hfin).
  assert (Hlen : length closes = length S0) by (rewrite <- Hcl, length_map; reflexivity).
  assert (Hcx : close (merged x0) = nth r closes NaN).
  { rewrite <- Hcl. symmetry.
    apply (@nth_error_map_col _ _ (fun m => close (merged m)) S0 r x0 NaN Hx0). }
  assert (Hcy : close (merged y0) = nth (r - ROLLING_WINDOW) closes NaN).
  { rewrite <- Hcl. symmetry.
    apply (@nth_error_map_col _ _ (fun m => close (merged m)) S0 _ y0 NaN Hy0). }
  assert (Hnx : isna (close (merged x0)) = false).
  { rewrite Hcx. rewrite Forall_forall in Hfc. apply Hfc. apply nth_In. lia. }
  assert (Hps : price_score x0
                = fsub (fdiv (close (merged x0)) (close (merged y0))) one).
  { rewrite <- (@nth_error_map_col _ _ price_score S0 r x0 NaN Hx0), Hp.
    rewrite pct_change_nth by (try exact Hfc; lia).
    destruct (Nat.ltb_spec r ROLLING_WINDOW); [lia|].
    rewrite <- Hcx, <- Hcy. reflexivity. }
  exists (replace_row y0).
  rewrite nth_error_map, Hy0.
  change (price_score (replace_row x0)) with (replace_inf (price_score x0)).
  change (merged (replace_row x0)) with (merged x0).
  change (merged (replace_row y0)) with (merged y0).
  split; [reflexivity|]. split; [rewrite Hps; reflexivity|].
  intros Hz. rewrite Hps, Hz. apply pct_zero_denominator. exact Hnx.
Qed.

Lemma Q2Qc_inject_Z_le (n s : Z) :
  (n <= s)%Z -> (Q2Qc (inject_Z n) <= Q2Qc (inject_Z s))%Qc.
Proof.
  intros H. unfold Qcle, Q2Qc. cbn [this]. rewrite !Qred_correct.
  rewrite <- Zle_Qle. exact H.
Qed.

Lemma Q2Qc_inject_Z_lt (n s : Z) :
  (n < s)%Z -> (Q2Qc (inject_Z n) < Q2Qc (inject_Z s))%Qc.
Proof.
  intros H. unfold Qclt, Q2Qc. cbn [this]. rewrite !Qred_correct.
  rewrite <- Zlt_Qlt. exact H.
Qed.

Lemma sum_Z_ge_length (l : list Z) :
  Forall (fun c => (1 <= c)%Z) l -> (Z.of_nat (length l) <= sum_Z l)%Z.
Proof.
  induction 1 as [|c l Hc Hl IH]; simpl; [lia|].
  unfold sum_Z in *. simpl. lia.
Qed.

(** The mean of counts that are all at least one is at least one. *)
Lemma arithmetic_mean_ge_1 (l : list Z) :
  1 <= length l ->
  Forall (fun c => (1 <= c)%Z) l ->
  exists q : Qc, arithmetic_mean l = Fin q /\ (Q2Qc 1 <= q)%Qc.
Proof.
  intros Hlen Hall. unfold arithmetic_mean. eexists. split; [reflexivity|].
  set (s := Q2Qc (inject_Z (sum_Z l))). set (n := Q2Qc (inject_Z (Z.of_nat (length l)))).
  assert (Hn : (Q2Qc 0 < n)%Qc) by (apply (@Q2Qc_inject_Z_lt 0); lia).
  assert (Hne : n <> Q2Qc 0) by (intros E; rewrite E in Hn; exact (Qclt_not_eq _ _ Hn eq_refl)).
  apply (Qcmult_lt_0_le_reg_r _ _ n Hn).
  replace (s / n * n)%Qc with s by (field; exact Hne).
  rewrite Qcmult_1_l. apply Q2Qc_inject_Z_le. apply sum_Z_ge_length. exact Hall.
Qed.

Lemma In_firstn_In (A : Type) (n : nat) (l : list A) (x : A) :
  In x (firstn n l) -> In x l.
Proof.
  intros H. rewrite <- (firstn_skipn n l). apply in_or_app. left. exact H.
Qed.

Lemma In_skipn_In (A : Type) (n : nat) (l : list A) (x : A) :
  In x (skipn n l) -> In x l.
Proof.
  intros H. rewrite <- (firstn_skipn n l). apply in_or_app. right. exact H.
Qed.

Lemma rolling_mean_ge_1 (xs : list Z) (r : nat) :
  Forall (fun c => (1 <= c)%Z) xs ->
  r < length xs ->
  exists q : Qc,
    nth r (rolling_mean ROLLING_WINDOW MIN_PERIODS xs) NaN = Fin q /\ (Q2Qc 1 <= q)%Qc.
Proof.
  intros Hall Hr. rewrite rolling_mean_nth by exact Hr.
  assert (Hw : 1 <= length (window_at ROLLING_WINDOW xs r) <= ROLLING_WINDOW)
    by (apply window_at_length; [exact Hr | unfold ROLLING_WINDOW; lia]).
  rewrite window_mean_nonempty by apply Hw.
  apply arithmetic_mean_ge_1; [apply Hw|].
  unfold window_at. apply Forall_forall. intros c Hc.
  apply In_skipn_In, In_firstn_In in Hc. rewrite Forall_forall in Hall. apply Hall. exact Hc.
Qed.

Lemma Qc_ge_1_nonzero (q : Qc) : (Q2Qc 1 <= q)%Qc -> q <> Q2Qc 0.
Proof.
  intros H E. subst q. apply Qcle_not_lt in H. apply H. reflexivity.
Qed.

(** X13.  On a table whose counts are all at least one (as the fetch
    script writes them), [count_7d_avg] is at least one on every row, so
    the trend has no zero denominator: from the eighth row of an asset on,
    [trend_score] is a finite number, before and after the cleaning. *)
Theorem trend_defined_on_counted_table (df : list MergedRecord) (a : string)
    (r : nat) (x : MetricRecord) :
  Forall (fun row => (1 <= count row)%Z) df ->
  nth_error (asset_series a (replace_infinities (calculate_metrics fm df))) r = Some x ->
  (exists q : Qc, count_7d_avg x = Fin q /\ (Q2Qc 1 <= q)%Qc)
  /\ (ROLLING_WINDOW <= r -> isfinite (trend_score x) = true).
Proof.
  intros Hall Hx. rewrite asset_series_replace in Hx.
  set (S0 := asset_series a (calculate_metrics fm df)) in *.
  unfold replace_infinities in Hx. rewrite nth_error_map in Hx.
  destruct (nth_error S0 r) as [x0|] eqn:Hx0; [|discriminate].
  injection Hx as <-.
  change (trend_score (replace_row x0)) with (replace_inf (trend_score x0)).
  change (count_7d_avg (replace_row x0)) with (count_7d_avg x0).
  pose proof (count_7d_avg_series fm df a) as Havg. fold S0 in Havg.
  pose proof (trend_score_series fm df a) as Htr. fold S0 in Htr.
  set (G := group_values a (map asset_id df) (map count df)) in *.
  assert (HG : Forall (fun c => (1 <= c)%Z) G).
  { unfold G. rewrite group_values_map. apply Forall_map.
    apply Forall_forall. intros row Hrow. apply filter_In in Hrow.
    rewrite Forall_forall in Hall. apply Hall. apply Hrow. }
  assert (Hr : r < length S0) by (apply nth_error_Some; rewrite Hx0; discriminate).
  assert (HlenG : length S0 = length G).
  { rewrite <- (length_map count_7d_avg S0), Havg. apply rolling_mean_length. }
  destruct (@rolling_mean_ge_1 G r HG) as [cur [Hcur Hc1]]; [lia|].
  assert (Hc : count_7d_avg x0 = Fin cur).
  { rewrite <- Hcur, <- Havg. symmetry. apply nth_error_map_col. exact Hx0. }
  split; [exists cur; split; assumption|].
  intros Hge.
  destruct (@rolling_mean_ge_1 G (r - ROLLING_WINDOW) HG) as [prev [Hprev Hp1]]; [lia|].
  assert (Ht : trend_score x0 = fsub (fdiv (Fin cur) (Fin prev)) one).
  { rewrite <- (@nth_error_map_col _ _ trend_score S0 r x0 NaN Hx0), Htr, Havg.
    rewrite pct_change_nth;
      [| apply rolling_mean_notna | rewrite rolling_mean_length; lia].
    rewrite Hcur. destruct (Nat.ltb_spec r ROLLING_WINDOW); [lia|].
    rewrite Hprev. reflexivity. }
  rewrite Ht.
  destruct (pct_finite cur prev) as [_ H]. rewrite (H (Qc_ge_1_nonzero Hp1)).
  reflexivity.
Qed.
End ScoreFacts.

Lemma price_score_is_pct_change_witness :
  exists y : Metrics.MetricRecord,
    nth_error
      (Metrics.asset_series "A"
         (Metrics.replace_infinities
            (Metrics.calculate_metrics Metrics.Pad Samples.table)))
      (7 - Metrics.ROLLING_WINDOW) = Some y
    /\ Metrics.price_score Samples.eighth_of_A
       = Metrics.replace_inf
           (Float.fsub
              (Float.fdiv (Metrics.close (Metrics.merged Samples.eighth_of_A))
                          (Metrics.close (Metrics.merged y)))
              Float.one)
    /\ (Metrics.close (Metrics.merged y) = Float.zero ->
        Metrics.price_score Samples.eighth_of_A = Float.NaN).
Proof.
  apply (@price_score_is_pct_change Metrics.Pad Samples.table "A" 7 Samples.eighth_of_A).
  - vm_compute. repeat constructor.
  - reflexivity.
  - apply Nat.le_refl.
Defined.

Lemma trend_defined_on_counted_table_witness :
  (exists q : Qc,
      Metrics.count_7d_avg Samples.eighth_of_A = Float.Fin q /\ (Q2Qc 1 <= q)%Qc)
  /\ (Metrics.ROLLING_WINDOW <= 7 ->
      Float.isfinite (Metrics.trend_score Samples.eighth_of_A) = true).
Proof.
  apply (@trend_defined_on_counted_table Metrics.Pad Samples.table "A" 7
           Samples.eighth_of_A).
  - unfold Samples.table. repeat (constructor; [simpl; lia|]). constructor.
  - reflexivity.
Defined.

(** ** Assets do not influence each other *)

Section IndependenceFacts.
Import Float Metrics.
Variable fm : fill_method.

Lemma group_values_all (A : Type) (a : string) (keys : list string) (ys : list A) :
  Forall (fun k => k = a) keys ->
  length ys = length keys ->
  group_values a keys ys = ys.
Proof.
  unfold group_values. intros Hk. revert ys.
  induction Hk as [|k keys -> _ IH]; intros [|y ys] H; simpl in *; try discriminate.
  - reflexivity.
  - rewrite String.eqb_refl. simpl. f_equal. apply IH. lia.
Qed.

(** On a table of a single asset a grouped transform is the function
    applied to the whole column. *)
Lemma groupby_transform_single (A : Type) (a : string) (keys : list string)
    (xs : list A) (f : list A -> list float) :
  Forall (fun k => k = a) keys ->
  length xs = length keys ->
  length (f xs) = length xs ->
  groupby_transform keys xs f = f xs.
Proof.
  intros Hk Hl Hf.
  rewrite <- (@group_values_all _ a keys (groupby_transform keys xs f) Hk)
    by apply groupby_transform_length.
  rewrite group_values_transform by (rewrite ?group_values_all; assumption).
  rewrite group_values_all by assumption. reflexivity.
Qed.

Lemma metric_rows_eq (l1 l2 : list MetricRecord) :
  map merged l1 = map merged l2 ->
  map count_7d_avg l1 = map count_7d_avg l2 ->
  map trend_score l1 = map trend_score l2 ->
  map acceleration_score l1 = map acceleration_score l2 ->
  map price_score l1 = map price_score l2 ->
  l1 = l2.
Proof.
  revert l2. induction l1 as [|[m1 a1 t1 c1 p1] l1 IH];
    intros [|[m2 a2 t2 c2 p2] l2]; simpl; intros H1 H2 H3 H4 H5; try discriminate.
  - reflexivity.
  - injection H1 as -> H1. injection H2 as -> H2. injection H3 as -> H3.
    injection H4 as -> H4. injection H5 as -> H5.
    f_equal. apply IH; assumption.
Qed.

Lemma asset_rows_keys (df : list MergedRecord) (a : string) :
  Forall (fun k => k = a) (map asset_id (asset_rows a df)).
Proof.
  apply Forall_map. apply Forall_forall. intros r Hr.
  unfold asset_rows in Hr. apply filter_In in Hr. apply String.eqb_eq. apply Hr.
Qed.

(** X14.  The metrics of an asset depend on the rows of that asset only:
    its rows in the metrics of a table are the metrics of the table
    reduced to its rows. *)
Theorem asset_metrics_independent (df : list MergedRecord) (a : string) :
  asset_series a (calculate_metrics fm df) = calculate_metrics fm (asset_rows a df).
Proof.
  set (df' := asset_rows a df).
  destruct (calculate_metrics_columns fm df') as [Em [Ea [Et [Ec Ep]]]].
  pose proof (asset_rows_keys df a) as Hk. fold df' in Hk.
  assert (Havg : count_7d_avg_column df'
                 = rolling_mean ROLLING_WINDOW MIN_PERIODS (map count df')).
  { unfold count_7d_avg_column. apply (@groupby_transform_single _ a); try assumption.
    - rewrite !length_map. reflexivity.
    - apply rolling_mean_length. }
  assert (Htr : trend_score_column fm df'
                = pct_change fm ROLLING_WINDOW (count_7d_avg_column df')).
  { unfold trend_score_column. apply (@groupby_transform_single _ a); try assumption.
    - destruct (column_lengths fm df') as [H _]. rewrite H, length_map. reflexivity.
    - apply pct_change_length. }
  assert (Hac : acceleration_score_column fm df'
                = pct_change fm 1 (trend_score_column fm df')).
  { unfold acceleration_score_column.
    apply (@groupby_transform_single _ a); try assumption.
    - destruct (column_lengths fm df') as [_ [H _]]. rewrite H, length_map. reflexivity.
    - apply pct_change_length. }
  assert (Hpr : price_score_column fm df'
                = pct_change fm ROLLING_WINDOW (map close df')).
  { unfold price_score_column. apply (@groupby_transform_single _ a); try assumption.
    - rewrite !length_map. reflexivity.
    - apply pct_change_length. }
  assert (E2 : map count_7d_avg (asset_series a (calculate_metrics fm df))
               = map count_7d_avg (calculate_metrics fm df')).
  { rewrite count_7d_avg_series, Ea, Havg, group_values_map. reflexivity. }
  assert (E3 : map trend_score (asset_series a (calculate_metrics fm df))
               = map trend_score (calculate_metrics fm df')).
  { rewrite trend_score_series, E2, Et, Htr, Ea. reflexivity. }
  apply metric_rows_eq.
  - rewrite asset_series_merged, Em. reflexivity.
  - exact E2.
  - exact E3.
  - rewrite acceleration_score_series, E3, Ec, Hac, Et. reflexivity.
  - rewrite price_score_series, Ep, Hpr. reflexivity.
Qed.
End IndependenceFacts.

(** ** The chart *)

Section ChartFacts.
Import Float Metrics Charting.

Lemma filter_nil_iff (A : Type) (f : A -> bool) (l : list A) :
  filter f l = [] <-> forall x, In x l -> f x = false.
Proof.
  induction l as [|y l IH]; simpl.
  - split; [intros _ x [] | reflexivity].
  - destruct (f y) eqn:Hy; split.
    + discriminate.
    + intros H. rewrite (H y (or_introl eq_refl)) in Hy. discriminate.
    + intros H x [<-|Hx]; [exact Hy | apply IH; assumption].
    + intros H. apply IH. intros x Hx. apply H. right. exact Hx.
Qed.

Lemma combine_map_map (A B C : Type) (f : A -> B) (g : A -> C) (l : list A) :
  combine (map f l) (map g l) = map (fun r => (f r, g r)) l.
Proof.
  induction l as [|r l IH]; simpl; [reflexivity | rewrite IH; reflexivity].
Qed.

(** The chart fails exactly when the table has no row of the asset. *)
Lemma plot_fails_iff (df : list ScoredRecord) (asset : string) :
  plot_momentum_vs_price df asset = IndexError
  <-> forall r, In r df -> asset_id (merged (metrics r)) <> asset.
Proof.
  unfold plot_momentum_vs_price.
  set (asset_df := filter (fun r => String.eqb (asset_id (merged (metrics r))) asset) df).
  split.
  - intros H r Hr Ha.
    assert (Hnil : asset_df = []) by (destruct asset_df; [reflexivity | discriminate]).
    unfold asset_df in Hnil.
    pose proof (proj1 (filter_nil_iff _ df) Hnil r Hr) as Hf. cbv beta in Hf.
    apply String.eqb_neq in Hf. contradiction.
  - intros H.
    assert (Hnil : asset_df = []).
    { unfold asset_df. apply filter_nil_iff. intros r Hr.
      apply String.eqb_neq. apply H. exact Hr. }
    rewrite Hnil. reflexivity.
Qed.

(** X15.  The chart fails with IndexError exactly when the table has no
    row of the asset.  Otherwise the figure has two traces over the same
    dates, the momentum scores on the first axis and the closes on the
    second, with one point per row of the asset, in table order. *)
Theorem plot_momentum_vs_price_outcome (df : list ScoredRecord) (asset : string) :
  (plot_momentum_vs_price df asset = IndexError
   <-> forall r, In r df -> asset_id (merged (metrics r)) <> asset)
  /\ (forall fig,
        plot_momentum_vs_price df asset = Returned fig ->
        exists momentum price,
          traces fig = [momentum; price]
          /\ x momentum = x price
          /\ secondary_y momentum = false /\ secondary_y price = true
          /\ combine (x momentum) (y momentum)
             = map (fun r => (date (merged (metrics r)), momentum_score r))
                   (filter (fun r => String.eqb (asset_id (merged (metrics r))) asset) df)
          /\ combine (x price) (y price)
             = map (fun r => (date (merged (metrics r)), close (merged (metrics r))))
                   (filter (fun r => String.eqb (asset_id (merged (metrics r))) asset) df)).
Proof.
  split; [apply plot_fails_iff|].
  unfold plot_momentum_vs_price.
  set (asset_df := filter (fun r => String.eqb (asset_id (merged (metrics r))) asset) df).
  intros fig H. destruct asset_df as [|first rest] eqn:E; [discriminate|].
  injection H as <-. cbn [traces]. eexists. eexists.
  split; [reflexivity|]. cbn [x y secondary_y].
  repeat split.
  - apply (@combine_map_map _ _ _ (fun r => date (merged (metrics r))) momentum_score
             (first :: rest)).
  - apply (@combine_map_map _ _ _ (fun r => date (merged (metrics r)))
             (fun r => close (merged (metrics r))) (first :: rest)).
Qed.

Lemma filter_length_perm (A : Type) (f : A -> bool) (l l' : list A) :
  Permutation l l' -> length (filter f l) = length (filter f l').
Proof.
  induction 1 as [|z l l' _ IH|z w l|l l' l'' _ IH1 _ IH2]; simpl.
  - reflexivity.
  - destruct (f z); simpl; rewrite IH; reflexivity.
  - destruct (f z), (f w); reflexivity.
  - rewrite IH1. exact IH2.
Qed.

(** X16.  When the default asset has at most eight rows in the file,
    [main] writes the table and then fails with IndexError: the asset
    has no row in the table it charts. *)
Theorem main_chart_short_history (fm : fill_method) (csv : list MergedRecord) :
  length (asset_rows DEFAULT_ASSET_ID csv) <= S ROLLING_WINDOW ->
  Charting.main fm csv = (Metrics.main fm csv, IndexError).
Proof.
  intros Hlen. unfold Charting.main. f_equal.
  apply plot_fails_iff. unfold Metrics.main.
  apply (@short_history_absent fm (load_and_prepare_data csv) DEFAULT_ASSET_ID).
  unfold asset_rows, load_and_prepare_data in *.
  rewrite (filter_length_perm _ (sort_by_perm by_asset_date csv)). exact Hlen.
Qed.
End ChartFacts.

Lemma plot_momentum_vs_price_outcome_witness :
  Charting.plot_momentum_vs_price (Metrics.main Metrics.Pad Samples.table) "A"
  <> Charting.IndexError.
Proof.
  destruct (@plot_momentum_vs_price_outcome
              (Metrics.main Metrics.Pad Samples.table) "A"%string) as [Hfail _].
  intros H. apply (proj1 Hfail H Samples.top_row).
  - vm_compute. left. reflexivity.
  - reflexivity.
Defined.

Lemma main_chart_short_history_witness :
  length (Metrics.asset_rows Charting.DEFAULT_ASSET_ID Samples.short_solana) = 3
  /\ length (Metrics.main Metrics.Pad Samples.short_solana) = 1
  /\ Charting.main Metrics.Pad Samples.short_solana
     = (Metrics.main Metrics.Pad Samples.short_solana, Charting.IndexError).
Proof.
  assert (Hlen : length (Metrics.asset_rows Charting.DEFAULT_ASSET_ID Samples.short_solana)
                 = 3) by reflexivity.
  split; [exact Hlen|]. split; [vm_compute; reflexivity|].
  apply (@main_chart_short_history Metrics.Pad Samples.short_solana).
  rewrite Hlen. unfold Metrics.ROLLING_WINDOW. lia.
Defined.

(** ** A semaphore without slots *)

Section NoSlotFacts.
Import Scheduler.

Lemma nth_error_repeat_Waiting (n i : nat) (p : phase) :
  nth_error (repeat Waiting n) i = Some p -> p = Waiting.
Proof.
  intros H. apply nth_error_In in H. apply repeat_spec in H. exact H.
Qed.

Lemma step_no_slot (n : nat) (s s' : state) (e : event) :
  free s = 0 -> tasks s = repeat Waiting n -> requests s = [] ->
  step s e = Some s' ->
  free s' = 0 /\ tasks s' = repeat Waiting n /\ requests s' = [].
Proof.
  intros Hf Ht Hr. destruct e as [d|i|i|i]; simpl; rewrite ?Ht, ?Hf.
  - destruct (Qle_bool 0 d); [|discriminate]. intros H; injection H as <-.
    simpl. repeat split; assumption.
  - destruct (nth_error (repeat Waiting n) i) as [[| | |]|]; discriminate.
  - destruct (nth_error (repeat Waiting n) i) as [p|] eqn:Hp; [|discriminate].
    apply nth_error_repeat_Waiting in Hp. subst p. discriminate.
  - destruct (nth_error (repeat Waiting n) i) as [p|] eqn:Hp; [|discriminate].
    apply nth_error_repeat_Waiting in Hp. subst p. discriminate.
Qed.

(** X17.  With [asyncio.Semaphore(0)] nothing ever starts: in every state
    the batch can reach all tasks are still waiting for a slot and no
    request has been sent, so a batch with at least one descriptor never
    finishes. *)
Theorem no_slot_no_request (n : nat) (es : list event) (s : state) :
  run (init 0 n) es = Some s ->
  tasks s = repeat Waiting n
  /\ requests s = []
  /\ in_flight s = 0
  /\ (1 <= n -> all_done s = false).
Proof.
  intros Hrun.
  assert (H : free s = 0 /\ tasks s = repeat Waiting n /\ requests s = []).
  { assert (H0 : free (init 0 n) = 0 /\ tasks (init 0 n) = repeat Waiting n
                 /\ requests (init 0 n) = []) by (repeat split).
    revert Hrun H0. generalize (init 0 n). revert s.
    induction es as [|e es IH]; simpl; intros s s0 Hrun H0.
    - injection Hrun as <-. exact H0.
    - destruct (step s0 e) as [s1|] eqn:Hs; [|discriminate].
      destruct H0 as [Hf [Ht Hr]].
      apply (IH s s1 Hrun). eapply step_no_slot; eassumption. }
  destruct H as [_ [Ht Hr]]. split; [exact Ht|]. split; [exact Hr|]. split.
  - unfold in_flight. rewrite Ht. clear. induction n; simpl; auto.
  - intros Hn. unfold all_done. rewrite Ht. destruct n; [lia | reflexivity].
Qed.
End NoSlotFacts.

Lemma no_slot_no_request_witness :
  Scheduler.tasks Samples.idle_state = repeat Scheduler.Waiting 2
  /\ Scheduler.requests Samples.idle_state = []
  /\ Scheduler.in_flight Samples.idle_state = 0
  /\ (1 <= 2 -> Scheduler.all_done Samples.idle_state = false).
Proof.
  apply (@no_slot_no_request 2 [Scheduler.Tick 1] Samples.idle_state).
  reflexivity.
Defined.

(** ** The dates of the window *)

Section WindowDateFacts.
Import Py FetchData.

Lemma to_date_ok_iff (u : time_unit) (t : Z) (d : Z) :
  to_date u (Some t) = Ok (Some d) <->
  (- TIMESTAMP_MAX <= t * ns_per u <= TIMESTAMP_MAX)%Z /\ d = dt_date (t * ns_per u).
Proof.
  unfold to_date, to_datetime.
  destruct (Z.leb_spec (- TIMESTAMP_MAX) (t * ns_per u));
    destruct (Z.leb_spec (t * ns_per u) TIMESTAMP_MAX); cbn [andb bind]; split;
    try discriminate; try (intros [? _]; lia).
  - intros E. injection E as <-. split; [lia | reflexivity].
  - intros [_ ->]. reflexivity.
Qed.

Lemma dt_date_milliseconds (t : Z) :
  dt_date (t * ns_per Milliseconds) = (t / MILLISECONDS_IN_A_DAY)%Z.
Proof.
  unfold dt_date, NS_PER_DAY, ns_per, MILLISECONDS_IN_A_DAY.
  replace (86400 * 1000000000)%Z with (86400000 * 1000000)%Z by reflexivity.
  apply Z.div_mul_cancel_r; lia.
Qed.

(** X18.  When the two ends of the news window have dates, the end date
    is exactly LOOKBACK_DAYS after the start date, and every publication
    time inside the window has a date between them: a feed restricted to
    the window spans at most 29 calendar days. *)
Theorem window_dates (now_s t d_start d_end : Z) :
  to_date Milliseconds (Some (START_TIMESTAMP_MS now_s)) = Ok (Some d_start) ->
  to_date Milliseconds (Some (END_TIMESTAMP_MS now_s)) = Ok (Some d_end) ->
  (START_TIMESTAMP_MS now_s <= t <= END_TIMESTAMP_MS now_s)%Z ->
  (d_end = d_start + LOOKBACK_DAYS)%Z
  /\ exists d, to_date Milliseconds (Some t) = Ok (Some d) /\ (d_start <= d <= d_end)%Z.
Proof.
  intros Hs He Ht.
  apply to_date_ok_iff in Hs. apply to_date_ok_iff in He.
  destruct Hs as [Hs1 ->]. destruct He as [He1 ->].
  rewrite !dt_date_milliseconds.
  unfold START_TIMESTAMP_MS, END_TIMESTAMP_MS, START_TIMESTAMP_S, END_TIMESTAMP_S,
    SECONDS_IN_A_DAY, LOOKBACK_DAYS, MILLISECONDS_IN_A_DAY, ns_per in *.
  split.
  - replace ((now_s - 86400 * 28) * 1000)%Z with (now_s * 1000 + (-28) * 86400000)%Z by lia.
    rewrite Z.div_add by lia. lia.
  - exists (t / 86400000)%Z. split.
    + apply to_date_ok_iff. rewrite dt_date_milliseconds.
      unfold ns_per, MILLISECONDS_IN_A_DAY. split; [lia | reflexivity].
    + split; apply Z.div_le_mono; lia.
Qed.
End WindowDateFacts.

Lemma window_dates_witness :
  (0 = -28 + FetchData.LOOKBACK_DAYS)%Z
  /\ exists d,
       FetchData.to_date FetchData.Milliseconds (Some 0%Z) = Py.Ok (Some d)
       /\ (-28 <= d <= 0)%Z.
Proof.
  apply (@window_dates 100 0 (-28) 0).
  - reflexivity.
  - reflexivity.
  - vm_compute. split; discriminate.
Defined.

(** ** Rows in, rows out *)

Section ConservationFacts.
Import Py Float FetchData.

(** X19.  [calculate_metrics] returns the rows it was given, in the same
    order and with their columns unchanged, each with its four scores
    added. *)
Theorem calculate_metrics_keeps_rows (fm : Metrics.fill_method)
    (df : list Metrics.MergedRecord) :
  map Metrics.merged (Metrics.calculate_metrics fm df) = df
  /\ length (Metrics.calculate_metrics fm df) = length df.
Proof.
  destruct (calculate_metrics_columns fm df) as [Em _].
  split; [exact Em|]. rewrite <- Em at 2. rewrite length_map. reflexivity.
Qed.

Lemma list_sum_map_add (A : Type) (f g : A -> nat) (l : list A) :
  list_sum (map (fun x => f x + g x) l) = list_sum (map f l) + list_sum (map g l).
Proof. induction l as [|x l IH]; simpl; [reflexivity | rewrite IH; lia]. Qed.

Lemma list_sum_map_zero (A : Type) (l : list A) :
  list_sum (map (fun _ => 0) l) = 0.
Proof. induction l; simpl; auto. Qed.

Lemma one_key_matches (K : list key) (k0 : key) :
  NoDup K -> In k0 K ->
  list_sum (map (fun k => Nat.b2n (key_eqb k k0)) K) = 1.
Proof.
  induction 1 as [|k K Hk Hnd IH]; intros Hin; [destruct Hin|]. simpl.
  destruct Hin as [->|Hin].
  - replace (key_eqb k0 k0) with true by (symmetry; apply key_eqb_eq; reflexivity).
    simpl. f_equal.
    rewrite (map_ext_in _ (fun _ => 0)); [apply list_sum_map_zero|].
    intros k' Hk'. destruct (key_eqb k' k0) eqn:E; [|reflexivity].
    apply key_eqb_eq in E. subst k'. contradiction.
  - destruct (key_eqb k k0) eqn:E.
    + apply key_eqb_eq in E. subst k. contradiction.
    + simpl. apply IH. exact Hin.
Qed.

Lemma no_key_matches (K : list key) (m : Mention) :
  mention_key m = None ->
  list_sum (map (fun k => Nat.b2n (in_group k m)) K) = 0.
Proof.
  intros H. unfold in_group. rewrite H. apply list_sum_map_zero.
Qed.

(** The groups under distinct keys that include every key of the frame
    share out the rows that have a key. *)
Lemma groups_partition (K : list key) (df : list Mention) :
  NoDup K ->
  (forall m k, In m df -> mention_key m = Some k -> In k K) ->
  list_sum (map (fun k => length (filter (in_group k) df)) K)
  = length (filter has_key df).
Proof.
  intros Hnd. induction df as [|m df IH]; intros Hcov; simpl.
  - apply list_sum_map_zero.
  - rewrite (map_ext _ (fun k => Nat.b2n (in_group k m)
                                 + length (filter (in_group k) df)))
      by (intros k; destruct (in_group k m); reflexivity).
    rewrite list_sum_map_add, IH
      by (intros m' k Hm'; apply Hcov; right; exact Hm').
    destruct (mention_key m) as [k0|] eqn:Hk.
    + assert (Hone : list_sum (map (fun k => Nat.b2n (in_group k m)) K) = 1).
      { unfold in_group. rewrite Hk. apply one_key_matches; [exact Hnd|].
        apply (Hcov m k0); [left; reflexivity | exact Hk]. }
      assert (Hh : has_key m = true) by (unfold has_key; rewrite Hk; reflexivity).
      rewrite Hone, Hh. reflexivity.
    + assert (Hh : has_key m = false) by (unfold has_key; rewrite Hk; reflexivity).
      rewrite no_key_matches, Hh by exact Hk. reflexivity.
Qed.

(** X20.  Grouping loses and repeats nothing: the counts of the grouped
    frame add up to the number of rows of the exploded frame that have an
    asset id, an asset name and a date. *)
Theorem counts_add_up (news_df : list NewsItem) (df : list Mention)
    (grouped : list AssetDailyNews) (ids : list (option string))
    (dates : list (option Z)) :
  mentions news_df = Ok df ->
  process_news_data news_df = Ok (grouped, ids, dates) ->
  fold_right Z.add 0%Z (map count grouped)
  = Z.of_nat (length (filter has_key df)).
Proof.
  intros Hdf H. unfold process_news_data in H. rewrite Hdf in H. cbn [bind] in H.
  injection H as <- _ _.
  rewrite <- (groups_partition df (group_keys_NoDup df)).
  - unfold groupby_agg. rewrite !map_map.
    induction (group_keys df) as [|k K IH]; simpl; [reflexivity|].
    rewrite IH. unfold with_count at 1. cbn [g_key g_title].
    destruct k as [[i n] d]. cbn [count]. rewrite length_map. lia.
  - intros m k Hm Hk. apply In_group_keys. exists m. split; assumption.
Qed.

Lemma dates_sequence_ok (news_df : list NewsItem) :
  Forall (fun it => is_ok (to_date Milliseconds (publishTimeMillis it)) = true) news_df ->
  exists dates,
    sequence (map (fun it => to_date Milliseconds (publishTimeMillis it)) news_df)
    = Ok dates
    /\ length dates = length news_df.
Proof.
  induction 1 as [|it l Hit _ [ds [IH Hl]]]; simpl.
  - exists []. split; reflexivity.
  - destruct (to_date Milliseconds (publishTimeMillis it)) as [d| |]; try discriminate.
    rewrite IH. exists (d :: ds). split; [reflexivity | simpl; rewrite Hl; reflexivity].
Qed.

Lemma In_combine_left (A B : Type) (l : list A) (l' : list B) (a : A) :
  length l' = length l -> In a l -> exists b, In (a, b) (combine l l').
Proof.
  revert l'. induction l as [|z l IH]; intros [|y l'] Hl Hin; simpl in *;
    try discriminate; try contradiction.
  destruct Hin as [->|Hin].
  - exists y. left. reflexivity.
  - destruct (IH l') as [b Hb]; [lia | exact Hin|]. exists b. right. exact Hb.
Qed.

(** X21.  An item whose asset list is present but empty makes the
    aggregation fail: the exploded frame has a NaN cell for it, and
    reading the asset id from that cell raises TypeError.  (The feed is
    assumed to have publication times in range.) *)
Theorem empty_asset_list_fails (news_df : list NewsItem) (it : NewsItem) :
  In it news_df ->
  assets it = Some [] ->
  Forall (fun it => is_ok (to_date Milliseconds (publishTimeMillis it)) = true) news_df ->
  process_news_data news_df = Raise TypeError.
Proof.
  intros Hin Hempty Hdates.
  destruct (dates_sequence_ok Hdates) as [dates [Hd Hl]].
  unfold process_news_data, mentions.
  destruct news_df as [|it0 l]; [destruct Hin|].
  set (feed := it0 :: l) in *. rewrite Hd. cbn [bind].
  set (df := flat_map explode_row _).
  assert (Hrow : exists row, In row df /\ r_asset row = None).
  { destruct (@In_combine_left _ _ feed dates it Hl Hin) as [d Hp].
    exists {| r_item := it; r_date := d; r_asset := None |}. split; [|reflexivity].
    unfold df. apply in_flat_map. exists (it, d). split.
    - apply filter_In. split; [exact Hp|]. cbn [fst]. rewrite Hempty. reflexivity.
    - unfold explode_row. rewrite Hempty. left. reflexivity. }
  destruct Hrow as [row [Hrow Hnone]].
  destruct (@sequence_raises _ (map (fun r => subscript_asset a_id (r_asset r)) df))
    as [e [He Hine]].
  - intros m Hm. apply in_map_iff in Hm. destruct Hm as [r [<- _]].
    destruct (r_asset r); discriminate.
  - exists TypeError. apply in_map_iff. exists row. split; [|exact Hrow].
    rewrite Hnone. reflexivity.
  - rewrite He. apply in_map_iff in Hine. destruct Hine as [r [Hr _]].
    destruct (r_asset r); simpl in Hr; [discriminate|].
    injection Hr as <-. reflexivity.
Qed.
End ConservationFacts.

Lemma counts_add_up_witness :
  fold_right Z.add 0%Z (map FetchData.count Samples.grouped_feed)
  = Z.of_nat (length (filter FetchData.has_key Samples.feed_mentions)).
Proof.
  apply (@counts_add_up Samples.news_feed Samples.feed_mentions Samples.grouped_feed
           Samples.feed_ids Samples.feed_dates).
  - reflexivity.
  - reflexivity.
Defined.

Lemma empty_asset_list_fails_witness :
  FetchData.process_news_data Samples.feed_with_empty_list = Py.Raise Py.TypeError.
Proof.
  apply (@empty_asset_list_fails Samples.feed_with_empty_list
           (Samples.item 5 None (Some []))).
  - right. left. reflexivity.
  - reflexivity.
  - repeat constructor.
Defined.

(** ** Which exception a batch raises *)

Section FirstFailureFacts.
Import Py FetchData.
Variable A : Type.
Variable finish : nat -> nat.

Lemma enumerate_functional (tasks : list (result A)) (i : nat) (t t' : result A) :
  In (i, t) (enumerate tasks) -> In (i, t') (enumerate tasks) -> t = t'.
Proof.
  unfold enumerate. generalize 0.
  induction tasks as [|x tasks IH]; intros n H H'; simpl in *; [destruct H|].
  destruct H as [H|H], H' as [H'|H'].
  - congruence.
  - injection H as <- <-. apply in_combine_l, in_seq in H'. lia.
  - injection H' as <- <-. apply in_combine_l, in_seq in H. lia.
  - exact (IH _ H H').
Qed.

(** Running the tasks in completion order raises the exception of the
    task that fails before every other failing task. *)
Lemma sequence_first_failure (L : list (nat * result A)) (i : nat) (e : exn) :
  StronglySorted (fun t1 t2 => finish (fst t1) <= finish (fst t2)) L ->
  (forall j t t', In (j, t) L -> In (j, t') L -> t = t') ->
  (forall t, In t L -> snd t <> Hang) ->
  In (i, Raise e) L ->
  (forall j e', In (j, Raise e') L -> j <> i -> finish i < finish j) ->
  sequence (map (@wrap_awaitable A) L) = Raise e.
Proof.
  induction 1 as [|[j t] L Hs IH Hhd]; intros Hfun Hnh Hin Hmin; [destruct Hin|].
  simpl. unfold wrap_awaitable at 1. cbn [fst snd].
  destruct t as [v|e'|].
  - cbn [bind]. rewrite IH; [reflexivity| | | |].
    + intros j' t t' H1 H2. apply (Hfun j'); right; assumption.
    + intros t Ht. apply Hnh. right. exact Ht.
    + destruct Hin as [Hin|Hin]; [discriminate | exact Hin].
    + intros j' e'' H1. apply (Hmin j' e''). right. exact H1.
  - destruct (Nat.eq_dec j i) as [->|Hne].
    + assert (E : Raise e' = Raise e :> result A)
        by (apply (Hfun i); [left; reflexivity | exact Hin]).
      injection E as ->. reflexivity.
    + exfalso. destruct Hin as [Hin|Hin]; [congruence|].
      rewrite Forall_forall in Hhd. specialize (Hhd _ Hin). cbn [fst] in Hhd.
      specialize (Hmin j e' (or_introl eq_refl) Hne). lia.
  - exfalso. apply (Hnh (j, Hang)); [left|]; reflexivity.
Qed.

(** X22.  When every task of a gather ends and task [i] fails before
    every other failing task, the gather raises the exception of task
    [i]: the failure that leaves the batch is the first one to occur. *)
Theorem gather_first_failure (tasks : list (result A)) (i : nat) (e : exn) :
  (forall t, In t tasks -> t <> Hang) ->
  nth_error tasks i = Some (Raise e) ->
  (forall j e', nth_error tasks j = Some (Raise e') -> j <> i -> finish i < finish j) ->
  gather finish tasks = Raise e.
Proof.
  intros Hnh Hi Hmin.
  assert (Hen : forall j t, In (j, t) (enumerate tasks) <-> nth_error tasks j = Some t).
  { unfold enumerate. intros j t.
    assert (G : forall n l, In (j, t) (combine (seq n (length l)) l)
                            <-> n <= j /\ nth_error l (j - n) = Some t).
    { intros n l. revert n. induction l as [|x l IH]; intros n; simpl.
      - split; [intros [] | intros [_ H]; destruct (j - n); discriminate].
      - rewrite IH. split.
        + intros [H|[H1 H2]].
          * injection H as <- <-. rewrite Nat.sub_diag. split; [lia | reflexivity].
          * split; [lia|]. replace (j - n) with (S (j - S n)) by lia. exact H2.
        + intros [H1 H2]. destruct (Nat.eq_dec n j) as [<-|Hne].
          * rewrite Nat.sub_diag in H2. injection H2 as <-. left. reflexivity.
          * right. split; [lia|]. replace (j - n) with (S (j - S n)) in H2 by lia.
            exact H2. }
    rewrite G, Nat.sub_0_r. split; [intros [_ H]; exact H | intros H; split; [lia | exact H]]. }
  unfold gather.
  rewrite (@sequence_first_failure (as_completed finish tasks) i e); [reflexivity| | | | |].
  - unfold as_completed. apply Sorted_StronglySorted.
    + intros x y z H1 H2. lia.
    + set (leb := fun t1 t2 : nat * result A => finish (fst t1) <=? finish (fst t2)).
      assert (Hs : Sorted (fun u v => leb u v = true)
                          (sort_by leb (filter (@completes A) (enumerate tasks)))).
      { apply sort_by_Sorted. intros x y H. unfold leb in *.
        apply Nat.leb_gt in H. apply Nat.leb_le. lia. }
      revert Hs. generalize (sort_by leb (filter (@completes A) (enumerate tasks))).
      intros l Hs. induction Hs as [|x l Hs IH Hhd]; constructor; [exact IH|].
      destruct Hhd as [|y l' Hxy]; constructor.
      unfold leb in Hxy. apply Nat.leb_le in Hxy. exact Hxy.
  - intros j t t' H1 H2. apply In_as_completed in H1, H2.
    apply (@enumerate_functional tasks j); [apply H1 | apply H2].
  - intros t Ht. apply In_as_completed in Ht. destruct Ht as [_ Hc].
    unfold completes in Hc. destruct (snd t); try discriminate.
  - apply In_as_completed. split; [apply Hen; exact Hi | reflexivity].
  - intros j e' Hj Hne. apply In_as_completed in Hj. destruct Hj as [Hj _].
    apply Hen in Hj. exact (Hmin j e' Hj Hne).
Qed.
End FirstFailureFacts.

Lemma gather_first_failure_witness :
  FetchData.gather (fun i => 2 - i)
    [Py.Raise Py.ValueError; Py.Ok 1; Py.Raise Py.KeyError]
  = Py.Raise Py.KeyError.
Proof.
  apply (@gather_first_failure nat (fun i => 2 - i)
           [Py.Raise Py.ValueError; Py.Ok 1; Py.Raise Py.KeyError] 2 Py.KeyError).
  - intros t [<-|[<-|[<-|[]]]]; discriminate.
  - reflexivity.
  - intros [|[|[|j]]] e' H Hne; simpl in H; try discriminate; try lia.
    destruct j; discriminate.
Defined.

(** ** The end of a batch *)

Section BatchEndFacts.
Import Scheduler.

Lemma all_done_nth (l : list phase) (i : nat) (p : phase) :
  forallb is_done l = true -> nth_error l i = Some p -> is_done p = true.
Proof.
  intros H Hp. rewrite forallb_forall in H. apply H.
  eapply nth_error_In. exact Hp.
Qed.

(** X23.  When every task of a batch is done, all the slots of the
    semaphore are free again and the requests sent are the descriptors of
    the batch, each one once. *)
Theorem batch_end (N n : nat) (es : list event) (s : state) :
  run (init N n) es = Some s ->
  all_done s = true ->
  free s = N /\ Permutation (requests s) (seq 0 n).
Proof.
  intros Hrun Hdone.
  assert (Hinv : invariant N s)
    by (apply (@run_invariant N es (init N n) s (init_invariant N n) Hrun)).
  assert (Hlen : length (tasks s) = n).
  { rewrite (@run_length es (init N n) s Hrun). simpl. apply repeat_length. }
  destruct Hinv as [Hslots _ Hnd Hsent]. unfold all_done in Hdone. split.
  - assert (Hheld : slots_held s = 0).
    { unfold slots_held. apply total_zero. apply Forall_forall. intros p Hp.
      rewrite forallb_forall in Hdone. specialize (Hdone p Hp).
      destruct p; try discriminate; reflexivity. }
    lia.
  - apply NoDup_Permutation; [exact Hnd | apply seq_NoDup|].
    intros i. rewrite Hsent, in_seq. split.
    + intros [p [Hp _]]. apply nth_error_lt in Hp. lia.
    + intros Hi. destruct (nth_error (tasks s) i) as [p|] eqn:Hp.
      * exists p. split; [reflexivity|].
        assert (Hd := @all_done_nth (tasks s) i p Hdone Hp).
        destruct p; try discriminate; reflexivity.
      * apply nth_error_None in Hp. lia.
Qed.
End BatchEndFacts.

Lemma batch_end_witness :
  Scheduler.free Samples.final_state = 1
  /\ Permutation (Scheduler.requests Samples.final_state) (seq 0 2).
Proof.
  apply (@batch_end 1 2 Samples.full_events Samples.final_state);
    reflexivity.
Defined.
